(** * Weekday Masters backend: sessions, RSVPs and the reminder scheduler

    A shallow embedding of the Go backend (packages [utils], [models],
    [services]) together with the part of Go's [time] package, of GORM and of
    the PostgreSQL tables that the embedded functions go through.

    Conventions.
    - Go's [int] is a 64-bit two's complement integer: arithmetic that the
      source performs on [int] values goes through [wrap_int].
    - A [time.Time] is a wall-clock instant (seconds and nanoseconds since the
      Unix epoch) with a location; the monotonic reading is not modelled.
    - Go errors are values of [error]; [errors.New] keeps the message text.
    - The database is a record of tables; a table is the list of its rows in
      insertion order.  Storage is assumed available: a query fails only with
      [gorm.ErrRecordNotFound].
    - The clock is an argument: [wall] is what [time.Now()] reads during the
      call.
    - What a function sends is the list of its calls to
      [NotificationService.SendNotification], in order.
    - The tables of users and of push tokens are lists of rows passed to the
      functions that go through them.  Rows refer to users that exist: the
      foreign keys of the tables are not modelled. *)

From Stdlib Require Import ZArith Lia List Bool String Ascii.
From Stdlib Require Import Sorting.Sorted Sorting.Permutation.
From Stdlib Require OrderedTypeEx.
Import ListNotations.
Open Scope Z_scope.

(** ** Machine integers *)

(** Go [int] on the 64-bit targets the server is built for. *)
Definition wrap_int (z : Z) : Z := (z + 2 ^ 63) mod 2 ^ 64 - 2 ^ 63.

Definition is_int (z : Z) : Prop := - 2 ^ 63 <= z < 2 ^ 63.

(** ** Go's [time] package *)

Module gotime.

(** *** Proleptic Gregorian calendar

    Day numbers count days since 1970-01-01.  Years are split in eras of 400
    years that start on 1 March, so that the leap day is the last day of a
    year-of-era. *)

Definition days_from_civil (y m d : Z) : Z :=
  let y' := if m <=? 2 then y - 1 else y in
  let era := y' / 400 in
  let yoe := y' - era * 400 in
  let mp := if m <=? 2 then m + 9 else m - 3 in
  let doy := (153 * mp + 2) / 5 + d - 1 in
  let doe := yoe * 365 + yoe / 4 - yoe / 100 + doy in
  era * 146097 + doe - 719468.

Definition civil_from_days (z : Z) : Z * Z * Z :=
  let z := z + 719468 in
  let era := z / 146097 in
  let doe := z - era * 146097 in
  let yoe := (doe - doe / 1460 + doe / 36524 - doe / 146096) / 365 in
  let y := yoe + era * 400 in
  let doy := doe - (365 * yoe + yoe / 4 - yoe / 100) in
  let mp := (5 * doy + 2) / 153 in
  let d := doy - (153 * mp + 2) / 5 + 1 in
  let m := if mp <? 10 then mp + 3 else mp - 9 in
  (if m <=? 2 then y + 1 else y, m, d).

(** 0 = Sunday ... 6 = Saturday; 1970-01-01 was a Thursday. *)
Definition weekday_of_days (z : Z) : Z := (z + 4) mod 7.

Definition jan1 (y : Z) : Z := days_from_civil y 1 1.

Definition year_of_days (z : Z) : Z := fst (fst (civil_from_days z)).

(** *** Locations

    The program uses two locations: UTC (times read back from the database)
    and the club's zone, loaded by [time.LoadLocation("Australia/Sydney")]. *)

Inductive Location : Type := UTC | Sydney.

(** What the lookup method of a location returns for an instant: the offset
    east of UTC in seconds and the half-open range of instants
    [[zstart, zend)] in which that offset is in force. *)
Record Zone : Type := mkZone { offset : Z; zstart : Z; zend : Z }.

(** Day number of the first Sunday of month [m] of year [y]. *)
Definition first_sunday (y m : Z) : Z :=
  let d1 := days_from_civil y m 1 in
  d1 + (7 - weekday_of_days d1) mod 7.

(** The zone database is not part of the repository.  The Sydney zone is
    modelled by the rule in force since 2008 (TZ string
    [AEST-10AEDT,M10.1.0,M4.1.0/3]), applied to every year: daylight saving
    (UTC+11) ends on the first Sunday of April at 03:00 local time and starts
    on the first Sunday of October at 02:00 local time.  Both transitions are
    at 16:00 UTC of the preceding Saturday. *)
Definition dst_end (y : Z) : Z := first_sunday y 4 * 86400 - 28800.
Definition dst_start (y : Z) : Z := first_sunday y 10 * 86400 - 28800.

Definition AEST : Z := 36000.
Definition AEDT : Z := 39600.

Definition sydney_lookup (t : Z) : Zone :=
  let y := year_of_days (t / 86400) in
  if t <? dst_end y then mkZone AEDT (dst_start (y - 1)) (dst_end y)
  else if t <? dst_start y then mkZone AEST (dst_end y) (dst_start y)
  else mkZone AEDT (dst_start y) (dst_end (y + 1)).

(** The two kinds of periods of the zone: daylight time from October of [y]
    to April of [y + 1], standard time from April to October of [y]. *)
Definition summer (y : Z) : Zone := mkZone AEDT (dst_start y) (dst_end (y + 1)).
Definition winter (y : Z) : Zone := mkZone AEST (dst_end y) (dst_start y).

(** Offset east of UTC in force in [l] at the instant [t] (Unix seconds). *)
Definition zone_offset (l : Location) (t : Z) : Z :=
  match l with
  | UTC => 0
  | Sydney => offset (sydney_lookup t)
  end.

(** *** Times *)

Record Time : Type := mkTime { unixSec : Z; nsec : Z; loc : Location }.

(** Nanoseconds since the epoch: the instant a [Time] denotes. *)
Definition UnixNano (t : Time) : Z := unixSec t * 1000000000 + nsec t.

(** Seconds since the epoch of the civil reading of [t] in its location. *)
Definition localSec (t : Time) : Z := unixSec t + zone_offset (loc t) (unixSec t).

Definition civil_day (t : Time) : Z := localSec t / 86400.

Definition Year (t : Time) : Z := fst (fst (civil_from_days (civil_day t))).
Definition Month (t : Time) : Z := snd (fst (civil_from_days (civil_day t))).
Definition Day (t : Time) : Z := snd (civil_from_days (civil_day t)).
Definition Hour (t : Time) : Z := localSec t mod 86400 / 3600.
Definition Minute (t : Time) : Z := localSec t mod 3600 / 60.
Definition Second (t : Time) : Z := localSec t mod 60.
Definition Weekday (t : Time) : Z := weekday_of_days (civil_day t).

(** [t.In(loc)]: the same instant read in another location. *)
Definition In (t : Time) (l : Location) : Time := mkTime (unixSec t) (nsec t) l.

(** The zone adjustment at the end of [time.Date], for the civil reading
    [unix] (seconds since the epoch as if the reading were UTC).  The offset
    found at [unix] is kept when it is in force at the resulting instant, and
    otherwise replaced by the offset in force at that instant. *)
Definition to_utc (l : Location) (unix : Z) : Z :=
  match l with
  | UTC => unix
  | Sydney =>
      let z := sydney_lookup unix in
      if offset z =? 0 then unix
      else
        let utc := unix - offset z in
        let off := if (utc <? zstart z) || (zend z <=? utc)
                   then offset (sydney_lookup utc) else offset z in
        unix - off
  end.

(** Seconds since the epoch of a civil reading taken as UTC: a month outside
    1..12 carries into the year; days, hours, minutes, seconds and
    nanoseconds carry linearly. *)
Definition civil_seconds (y mo d h mi s ns : Z) : Z :=
  let y' := y + (mo - 1) / 12 in
  let mo' := (mo - 1) mod 12 + 1 in
  (days_from_civil y' mo' 1 + (d - 1)) * 86400
  + h * 3600 + mi * 60 + s + ns / 1000000000.

(** [time.Date]. *)
Definition Date (y mo d h mi s ns : Z) (l : Location) : Time :=
  mkTime (to_utc l (civil_seconds y mo d h mi s ns)) (ns mod 1000000000) l.

(** [t.AddDate(years, months, days)]. *)
Definition AddDate (t : Time) (years months days : Z) : Time :=
  Date (Year t + years) (Month t + months) (Day t + days)
       (Hour t) (Minute t) (Second t) (nsec t) (loc t).

(** A [time.Duration] is a number of nanoseconds held in an [int64];
    [time.Hour] is the duration of one hour. *)
Definition DurationHour : Z := 3600000000000.

(** [t.Add(d)]. *)
Definition Add (t : Time) (d : Z) : Time :=
  let n := nsec t + d in
  mkTime (unixSec t + n / 1000000000) (n mod 1000000000) (loc t).

(** [t.After(u)] and [t.Before(u)] compare instants, whatever the locations. *)
Definition After (t u : Time) : bool :=
  (unixSec u <? unixSec t) || ((unixSec t =? unixSec u) && (nsec u <? nsec t)).

Definition Before (t u : Time) : bool :=
  (unixSec t <? unixSec u) || ((unixSec t =? unixSec u) && (nsec t <? nsec u)).

(** The zero [Time]: 1 January of year 1, 00:00:00 UTC. *)
Definition zeroTime : Time := mkTime (-62135596800) 0 UTC.

Definition IsZero (t : Time) : bool :=
  (unixSec t =? -62135596800) && (nsec t =? 0).

(** *** Formatting *)

Definition digit (d : Z) : ascii := ascii_of_nat (48 + Z.to_nat d).

Fixpoint utoa (fuel : nat) (u : Z) (acc : string) : string :=
  match fuel with
  | O => acc
  | S f =>
      let acc' := String (digit (u mod 10)) acc in
      if u / 10 =? 0 then acc' else utoa f (u / 10) acc'
  end.

Fixpoint zeros (n : nat) : string :=
  match n with
  | O => EmptyString
  | S k => String "0"%char (zeros k)
  end.

(** [appendInt]: sign, then the decimal digits left-padded with zeros to
    [width]. *)
Definition appendInt (x : Z) (width : nat) : string :=
  let u := Z.abs x in
  let ds := utoa (S (Z.to_nat (Z.log2 u))) u EmptyString in
  let body := (zeros (width - String.length ds) ++ ds)%string in
  if x <? 0 then String "-"%char body else body.

Definition longDayNames : list string :=
  ["Sunday"; "Monday"; "Tuesday"; "Wednesday"; "Thursday"; "Friday";
   "Saturday"]%string.

Definition longMonthNames : list string :=
  ["January"; "February"; "March"; "April"; "May"; "June"; "July"; "August";
   "September"; "October"; "November"; "December"]%string.

Definition shortMonthNames : list string :=
  ["Jan"; "Feb"; "Mar"; "Apr"; "May"; "Jun"; "Jul"; "Aug"; "Sep"; "Oct";
   "Nov"; "Dec"]%string.

Definition name_at (names : list string) (i : Z) : string :=
  nth (Z.to_nat i) names EmptyString.

(** The layouts the program formats with. *)
Inductive Layout : Type :=
| Layout_DateOnly        (* "2006-01-02" *)
| Layout_ChildTitle      (* "Monday - 02 Jan 2006" *)
| Layout_Display         (* "Monday, 2 January 2006" *).

Definition Format (t : Time) (layout : Layout) : string :=
  match layout with
  | Layout_DateOnly =>
      appendInt (Year t) 4 ++ "-" ++ appendInt (Month t) 2 ++ "-"
        ++ appendInt (Day t) 2
  | Layout_ChildTitle =>
      name_at longDayNames (Weekday t) ++ " - " ++ appendInt (Day t) 2 ++ " "
        ++ name_at shortMonthNames (Month t - 1) ++ " " ++ appendInt (Year t) 4
  | Layout_Display =>
      name_at longDayNames (Weekday t) ++ ", " ++ appendInt (Day t) 0 ++ " "
        ++ name_at longMonthNames (Month t - 1) ++ " " ++ appendInt (Year t) 4
  end%string.

(** *** Parsing with the layout "15:04" *)

Definition isDigit (s : string) (i : nat) : bool :=
  match String.get i s with
  | Some c => (48 <=? nat_of_ascii c)%nat && (nat_of_ascii c <=? 57)%nat
  | None => false
  end.

Definition digit_val (c : ascii) : Z := Z.of_nat (nat_of_ascii c) - 48.

(** [getnum]: one or two leading digits, exactly two when [fixed]. *)
Definition getnum (s : string) (fixed : bool) : option (Z * string) :=
  match s with
  | String c0 rest =>
      if isDigit s 0 then
        match rest with
        | String c1 rest' =>
            if isDigit s 1
            then Some (digit_val c0 * 10 + digit_val c1, rest')
            else if fixed then None else Some (digit_val c0, rest)
        | EmptyString => if fixed then None else Some (digit_val c0, rest)
        end
      else None
  | EmptyString => None
  end.

(** [time.Parse("15:04", value)]: the hour and the minute of the result, or
    [None] for a parse error. *)
Definition Parse_15_04 (value : string) : option (Z * Z) :=
  match getnum value false with
  | Some (hour, String ":"%char v1) =>
      if (hour <? 0) || (24 <=? hour) then None
      else
        match getnum v1 true with
        | Some (min, EmptyString) =>
            if (min <? 0) || (60 <=? min) then None else Some (hour, min)
        | _ => None
        end
  | _ => None
  end.

End gotime.

(** ** Package [models] *)

Module models.

(** [uuid.UUID]; [uuid.Nil] is 0. *)
Definition UUID : Type := N.
Definition uuid_Nil : UUID := 0%N.

Definition SessionStatus : Type := string.
Definition SessionStatusOpen : SessionStatus := "open"%string.
Definition SessionStatusClosed : SessionStatus := "closed"%string.
Definition SessionStatusCancelled : SessionStatus := "cancelled"%string.

Record Session : Type := mkSession {
  ID : UUID;
  Title : string;
  Description : string;
  SessionDate : gotime.Time;
  StartTime : string;
  EndTime : string;
  Courts : Z;
  MaxPlayers : Z;
  RSVPDeadline : gotime.Time;
  IsRecurring : bool;
  RecurringDayOfWeek : option Z;
  RecurringParentID : option UUID;
  Status : SessionStatus;
  CancellationReason : string;
  CreatedBy : UUID;
  CreatedAt : gotime.Time;
  UpdatedAt : gotime.Time
}.

(** [MaxPlayersForCourts] returns the maximum number of players based on
    court count. *)
Definition MaxPlayersForCourts (courts : Z) : Z :=
  match courts with
  | 1 => 6
  | 2 => 10
  | 3 => 16
  | _ => 6
  end.

Definition RSVPStatus : Type := string.
Definition RSVPStatusIn : RSVPStatus := "in"%string.
Definition RSVPStatusOut : RSVPStatus := "out"%string.
Definition RSVPStatusMaybe : RSVPStatus := "maybe"%string.

Record RSVP : Type := mkRSVP {
  rID : UUID;
  rSessionID : UUID;
  rUserID : UUID;
  rStatus : RSVPStatus;
  RSVPTimestamp : gotime.Time;
  IsLateRSVP : bool;
  AddedByAdmin : bool;
  rCreatedAt : gotime.Time;
  rUpdatedAt : gotime.Time
}.

Definition NotificationType : Type := string.
Definition NotificationSessionReminder : NotificationType := "session_reminder"%string.
Definition NotificationWaitlistUpdate : NotificationType := "waitlist_update"%string.

End models.

(** ** Package [database]: the tables behind [database.DB] *)

Module database.
Import models.

(** The two tables the embedded services use, and the supply of fresh
    identifiers: [uuid.New()] is modelled by a counter. *)
Record DB : Type := mkDB {
  sessions : list Session;
  rsvps : list RSVP;
  next_uuid : N
}.

(** [session_date] has column type [date]: the row keeps the calendar date of
    the value in the value's own location, and reads back as midnight UTC of
    that date. *)
Definition date_column (t : gotime.Time) : gotime.Time :=
  gotime.Date (gotime.Year t) (gotime.Month t) (gotime.Day t) 0 0 0 0 gotime.UTC.

Definition civil_date (t : gotime.Time) : Z * Z * Z :=
  (gotime.Year t, gotime.Month t, gotime.Day t).

Definition civil_date_eqb (a b : Z * Z * Z) : bool :=
  let '(y1, m1, d1) := a in
  let '(y2, m2, d2) := b in
  (y1 =? y2) && (m1 =? m2) && (d1 =? d2).

(** [session_date = ?] with a [time.Time] argument. *)
Definition session_date_is (t : gotime.Time) (s : Session) : bool :=
  civil_date_eqb (civil_date (SessionDate s)) (civil_date t).

(** [session_date = ?] with a text argument in the form YYYY-MM-DD. *)
Definition session_date_is_text (text : string) (s : Session) : bool :=
  String.eqb (gotime.Format (SessionDate s) gotime.Layout_DateOnly) text.

Definition option_uuid_is (id : UUID) (o : option UUID) : bool :=
  match o with
  | Some x => N.eqb x id
  | None => false
  end.

(** [Count] of the rows of a table selected by a [Where] clause. *)
Definition Count {A : Type} (where_ : A -> bool) (table : list A) : Z :=
  Z.of_nat (List.length (filter where_ table)).

(** [First] with a condition that a unique index makes select at most one
    row (the primary key, or (session_id, user_id) for RSVPs). *)
Definition First {A : Type} (where_ : A -> bool) (table : list A) : option A :=
  find where_ table.

(** [BeforeCreate] hook of [Session], followed by the insertion; the
    timestamps GORM tracks are set to [wall].  Returns the record as GORM
    leaves it in the caller's variable. *)
Definition CreateSessionRow (db : DB) (wall : gotime.Time) (s : Session)
  : DB * Session :=
  let fresh := N.eqb (ID s) uuid_Nil in
  let s' := mkSession
    (if fresh then next_uuid db else ID s)
    (Title s) (Description s) (SessionDate s) (StartTime s) (EndTime s)
    (Courts s) (MaxPlayersForCourts (Courts s)) (RSVPDeadline s)
    (IsRecurring s) (RecurringDayOfWeek s) (RecurringParentID s) (Status s)
    (CancellationReason s) (CreatedBy s)
    (if gotime.IsZero (CreatedAt s) then wall else CreatedAt s)
    (if gotime.IsZero (UpdatedAt s) then wall else UpdatedAt s) in
  let row := mkSession
    (ID s') (Title s') (Description s') (date_column (SessionDate s'))
    (StartTime s') (EndTime s') (Courts s') (MaxPlayers s') (RSVPDeadline s')
    (IsRecurring s') (RecurringDayOfWeek s') (RecurringParentID s')
    (Status s') (CancellationReason s') (CreatedBy s') (CreatedAt s')
    (UpdatedAt s') in
  (mkDB (sessions db ++ [row]) (rsvps db)
        (if fresh then N.succ (next_uuid db) else next_uuid db), s').

(** [Save] of a session: every column of the row with that primary key is
    written (the row is inserted when there is none). *)
Definition SaveSessionRow (db : DB) (wall : gotime.Time) (s : Session) : DB :=
  let row := mkSession
    (ID s) (Title s) (Description s) (date_column (SessionDate s))
    (StartTime s) (EndTime s) (Courts s) (MaxPlayers s) (RSVPDeadline s)
    (IsRecurring s) (RecurringDayOfWeek s) (RecurringParentID s)
    (Status s) (CancellationReason s) (CreatedBy s) (CreatedAt s) wall in
  if existsb (fun x => N.eqb (ID x) (ID s)) (sessions db)
  then mkDB (map (fun x => if N.eqb (ID x) (ID s) then row else x) (sessions db))
            (rsvps db) (next_uuid db)
  else mkDB (sessions db ++ [row]) (rsvps db) (next_uuid db).

(** [BeforeCreate] hook of [RSVP], followed by the insertion. *)
Definition CreateRSVPRow (db : DB) (wall : gotime.Time) (r : RSVP)
  : DB * RSVP :=
  let fresh := N.eqb (rID r) uuid_Nil in
  let r' := mkRSVP
    (if fresh then next_uuid db else rID r)
    (rSessionID r) (rUserID r) (rStatus r)
    (if gotime.IsZero (RSVPTimestamp r) then wall else RSVPTimestamp r)
    (IsLateRSVP r) (AddedByAdmin r)
    (if gotime.IsZero (rCreatedAt r) then wall else rCreatedAt r)
    (if gotime.IsZero (rUpdatedAt r) then wall else rUpdatedAt r) in
  (mkDB (sessions db) (rsvps db ++ [r'])
        (if fresh then N.succ (next_uuid db) else next_uuid db), r').

(** [Save] of an RSVP; GORM sets [updated_at] to the time of the write. *)
Definition SaveRSVPRow (db : DB) (wall : gotime.Time) (r : RSVP) : DB * RSVP :=
  let r' := mkRSVP (rID r) (rSessionID r) (rUserID r) (rStatus r)
                   (RSVPTimestamp r) (IsLateRSVP r) (AddedByAdmin r)
                   (rCreatedAt r) wall in
  if existsb (fun x => N.eqb (rID x) (rID r)) (rsvps db)
  then (mkDB (sessions db)
             (map (fun x => if N.eqb (rID x) (rID r) then r' else x) (rsvps db))
             (next_uuid db), r')
  else (mkDB (sessions db) (rsvps db ++ [r']) (next_uuid db), r').

(** [Delete] of an RSVP by primary key. *)
Definition DeleteRSVPRow (db : DB) (r : RSVP) : DB :=
  mkDB (sessions db)
       (filter (fun x => negb (N.eqb (rID x) (rID r))) (rsvps db))
       (next_uuid db).

(** [Order("rsvp_timestamp ASC")]: rows by ascending instant, rows with the
    same instant in table order. *)
Fixpoint insert_by_timestamp (r : RSVP) (l : list RSVP) : list RSVP :=
  match l with
  | [] => [r]
  | x :: l' =>
      if gotime.Before (RSVPTimestamp x) (RSVPTimestamp r)
      then x :: insert_by_timestamp r l'
      else r :: x :: l'
  end.

Definition OrderByRSVPTimestamp (l : list RSVP) : list RSVP :=
  fold_right insert_by_timestamp [] l.

(** [Limit(n)] for a positive [n]. *)
Definition Limit {A : Type} (n : Z) (l : list A) : list A :=
  firstn (Z.to_nat n) l.

End database.

(** ** Package [utils] *)

Module utils.

(** Set at start-up by [time.LoadLocation("Australia/Sydney")]. *)
Definition SydneyLocation : gotime.Location := gotime.Sydney.

(** [CalculateRSVPDeadline] calculates the RSVP deadline for a session: 3 days
    before the session date at 23:59:59 Sydney time. *)
Definition CalculateRSVPDeadline (sessionDate : gotime.Time) : gotime.Time :=
  let sessionInSydney := gotime.In sessionDate SydneyLocation in
  let deadline := gotime.AddDate sessionInSydney 0 0 (-3) in
  gotime.Date (gotime.Year deadline) (gotime.Month deadline)
              (gotime.Day deadline) 23 59 59 0 SydneyLocation.

(** [NowInSydney], for the clock reading [wall] of [time.Now()]. *)
Definition NowInSydney (wall : gotime.Time) : gotime.Time :=
  gotime.In wall SydneyLocation.

Definition FormatDateForDisplay (t : gotime.Time) : string :=
  gotime.Format (gotime.In t SydneyLocation) gotime.Layout_Display.

End utils.

(** ** Package [services] *)

Module services.
Import models database.

Inductive error : Type :=
| errors_New (msg : string)
| ErrRecordNotFound.

Inductive result (A : Type) : Type :=
| Ok (a : A)
| Err (e : error).
Arguments Ok {A} a.
Arguments Err {A} e.

(** The error values the services return, under the names of the
    specification's taxonomy. *)
Definition ErrValidationCourts : error :=
  errors_New "courts must be between 1 and 3".
Definition ErrSessionNotFound : error := errors_New "session not found".
Definition ErrSessionNotOpen : error :=
  errors_New "session is not open for RSVPs".
Definition ErrDeadlinePassed : error := errors_New "RSVP deadline has passed".
Definition ErrLockedIn : error :=
  errors_New "cannot change RSVP from IN after deadline".
Definition ErrRSVPNotFound : error := errors_New "RSVP not found".
Definition ErrRemoveLockedIn : error :=
  errors_New "cannot remove IN RSVP after deadline".

(** *** SessionService *)

Record CreateSessionInput : Type := mkCreateSessionInput {
  ciTitle : string;
  ciDescription : string;
  ciSessionDate : gotime.Time;
  ciStartTime : string;
  ciEndTime : string;
  ciCourts : Z;
  ciIsRecurring : bool;
  ciRecurringDayOfWeek : option Z;
  ciOccurrences : option Z;
  ciCreatedBy : UUID
}.

(** The rows selected by [session_date = ? AND recurring_parent_id = ?]. *)
Definition child_on (nextDate : gotime.Time) (parentID : UUID) (s : Session)
  : bool :=
  session_date_is nextDate s && option_uuid_is parentID (RecurringParentID s).

(** One turn of the loop of [generateRecurringSessions], repeated [n] times:
    the child for [nextDate] is created unless a row with that date and that
    parent exists. *)
Fixpoint generateLoop (n : nat) (parent : Session) (wall : gotime.Time)
    (db : DB) (nextDate : gotime.Time) : DB :=
  match n with
  | O => db
  | S k =>
      let count := Count (child_on nextDate (ID parent)) (sessions db) in
      let db' :=
        if count =? 0 then
          let childTitle := gotime.Format nextDate gotime.Layout_ChildTitle in
          let child := mkSession
            uuid_Nil childTitle (Description parent) nextDate
            (StartTime parent) (EndTime parent) (Courts parent)
            (MaxPlayers parent) (utils.CalculateRSVPDeadline nextDate)
            false None (Some (ID parent)) SessionStatusOpen EmptyString
            (CreatedBy parent) gotime.zeroTime gotime.zeroTime in
          fst (CreateSessionRow db wall child)
        else db in
      generateLoop k parent wall db' (gotime.AddDate nextDate 0 0 7)
  end.

(** [generateRecurringSessions] creates recurring session instances.  The
    loop runs for [i] from 0 while [i < occurrences - 1]. *)
Definition generateRecurringSessions (db : DB) (wall : gotime.Time)
    (parent : Session) (occurrences : Z) : DB :=
  match RecurringDayOfWeek parent with
  | None => db
  | Some _ =>
      let nextDate := gotime.AddDate (SessionDate parent) 0 0 7 in
      generateLoop (Z.to_nat (wrap_int (occurrences - 1))) parent wall db
                   nextDate
  end.

(** [CreateSession] creates a new session. *)
Definition CreateSession (db : DB) (wall : gotime.Time)
    (input : CreateSessionInput) : DB * result Session :=
  if (ciCourts input <? 1) || (3 <? ciCourts input)
  then (db, Err ErrValidationCourts)
  else
    let session := mkSession
      uuid_Nil (ciTitle input) (ciDescription input) (ciSessionDate input)
      (ciStartTime input) (ciEndTime input) (ciCourts input)
      (MaxPlayersForCourts (ciCourts input))
      (utils.CalculateRSVPDeadline (ciSessionDate input))
      (ciIsRecurring input) (ciRecurringDayOfWeek input) None
      SessionStatusOpen EmptyString (ciCreatedBy input)
      gotime.zeroTime gotime.zeroTime in
    let '(db1, session1) := CreateSessionRow db wall session in
    let db2 :=
      match ciIsRecurring input, ciRecurringDayOfWeek input with
      | true, Some _ =>
          let occurrences :=
            match ciOccurrences input with
            | Some o => if 0 <? o then o else 4
            | None => 4
            end in
          generateRecurringSessions db1 wall session1 occurrences
      | _, _ => db1
      end in
    (db2, Ok session1).

(** The rows selected by [is_recurring = ? AND status = ?] with the arguments
    [true] and [SessionStatusOpen]. *)
Definition recurring_open (s : Session) : bool :=
  Bool.eqb (IsRecurring s) true && String.eqb (Status s) SessionStatusOpen.

(** [RefreshRecurringSessions] generates any missing recurring session
    instances, 4 weeks ahead, for the parents selected by
    [is_recurring = true AND status = 'open']. *)
Definition RefreshRecurringSessions (db : DB) (wall : gotime.Time) : DB :=
  let parentSessions := filter recurring_open (sessions db) in
  fold_left (fun d parent => generateRecurringSessions d wall parent 4)
            parentSessions db.

Record UpdateSessionInput : Type := mkUpdateSessionInput {
  uiTitle : option string;
  uiDescription : option string;
  uiSessionDate : option gotime.Time;
  uiStartTime : option string;
  uiEndTime : option string;
  uiCourts : option Z;
  uiStatus : option SessionStatus
}.

Definition or_keep {A : Type} (o : option A) (old : A) : A :=
  match o with
  | Some x => x
  | None => old
  end.

(** [UpdateSession] updates a session. *)
Definition UpdateSession (db : DB) (wall : gotime.Time) (id : UUID)
    (input : UpdateSessionInput) : DB * result Session :=
  match First (fun s => N.eqb (ID s) id) (sessions db) with
  | None => (db, Err ErrRecordNotFound)
  | Some session =>
      let courtsBad :=
        match uiCourts input with
        | Some c => (c <? 1) || (3 <? c)
        | None => false
        end in
      if courtsBad then (db, Err ErrValidationCourts)
      else
        let session' := mkSession
          (ID session)
          (or_keep (uiTitle input) (Title session))
          (or_keep (uiDescription input) (Description session))
          (or_keep (uiSessionDate input) (SessionDate session))
          (or_keep (uiStartTime input) (StartTime session))
          (or_keep (uiEndTime input) (EndTime session))
          (or_keep (uiCourts input) (Courts session))
          (match uiCourts input with
           | Some c => MaxPlayersForCourts c
           | None => MaxPlayers session
           end)
          (match uiSessionDate input with
           | Some d => utils.CalculateRSVPDeadline d
           | None => RSVPDeadline session
           end)
          (IsRecurring session) (RecurringDayOfWeek session)
          (RecurringParentID session)
          (or_keep (uiStatus input) (Status session))
          (CancellationReason session) (CreatedBy session)
          (CreatedAt session) wall in
        (SaveSessionRow db wall session', Ok session')
  end.

(** *** RSVPService *)

Record RSVPInput : Type := mkRSVPInput {
  inSessionID : UUID;
  inUserID : UUID;
  inStatus : RSVPStatus
}.

Definition rsvp_of (sessionID userID : UUID) (r : RSVP) : bool :=
  N.eqb (rSessionID r) sessionID && N.eqb (rUserID r) userID.

(** The final reload of the row by primary key; the variable keeps its
    value when no row is found. *)
Definition reload (db : DB) (r : RSVP) : RSVP :=
  match First (fun x => N.eqb (rID x) (rID r)) (rsvps db) with
  | Some x => x
  | None => r
  end.

(** [CreateOrUpdateRSVP] creates or updates an RSVP.  The clock readings of
    one call are the single reading [wall]. *)
Definition CreateOrUpdateRSVP (db : DB) (wall : gotime.Time)
    (input : RSVPInput) (byAdmin : bool) : DB * result RSVP :=
  match First (fun s => N.eqb (ID s) (inSessionID input)) (sessions db) with
  | None => (db, Err ErrSessionNotFound)
  | Some session =>
      if negb (String.eqb (Status session) SessionStatusOpen)
      then (db, Err ErrSessionNotOpen)
      else
        let now := utils.NowInSydney wall in
        let isLate := gotime.After now (RSVPDeadline session) in
        if negb byAdmin && isLate then (db, Err ErrDeadlinePassed)
        else
          match First (rsvp_of (inSessionID input) (inUserID input))
                      (rsvps db) with
          | None =>
              let rsvp := mkRSVP uuid_Nil (inSessionID input)
                                 (inUserID input) (inStatus input) now isLate
                                 byAdmin gotime.zeroTime gotime.zeroTime in
              let '(db', rsvp') := CreateRSVPRow db wall rsvp in
              (db', Ok (reload db' rsvp'))
          | Some rsvp =>
              if negb byAdmin && isLate
                 && String.eqb (rStatus rsvp) RSVPStatusIn
                 && negb (String.eqb (inStatus input) RSVPStatusIn)
              then (db, Err ErrLockedIn)
              else
                let rsvp1 := mkRSVP
                  (rID rsvp) (rSessionID rsvp) (rUserID rsvp) (inStatus input)
                  (RSVPTimestamp rsvp) (IsLateRSVP rsvp)
                  (if byAdmin then true else AddedByAdmin rsvp)
                  (rCreatedAt rsvp) wall in
                let '(db', rsvp') := SaveRSVPRow db wall rsvp1 in
                (db', Ok (reload db' rsvp'))
          end
  end.

(** [DeleteRSVP] removes an RSVP; [None] is the nil error. *)
Definition DeleteRSVP (db : DB) (wall : gotime.Time) (sessionID userID : UUID)
    (byAdmin : bool) : DB * option error :=
  match First (fun s => N.eqb (ID s) sessionID) (sessions db) with
  | None => (db, Some ErrSessionNotFound)
  | Some session =>
      match First (rsvp_of sessionID userID) (rsvps db) with
      | None => (db, Some ErrRSVPNotFound)
      | Some rsvp =>
          let now := utils.NowInSydney wall in
          let isLate := gotime.After now (RSVPDeadline session) in
          if negb byAdmin && isLate && String.eqb (rStatus rsvp) RSVPStatusIn
          then (db, Some ErrRemoveLockedIn)
          else (DeleteRSVPRow db rsvp, None)
      end
  end.

Record RSVPSummary : Type := mkRSVPSummary {
  TotalIn : Z;
  TotalOut : Z;
  TotalMaybe : Z;
  sMaxPlayers : Z;
  SpotsLeft : Z
}.

Definition rsvp_with (sessionID : UUID) (status : RSVPStatus) (r : RSVP)
  : bool :=
  N.eqb (rSessionID r) sessionID && String.eqb (rStatus r) status.

(** [GetRSVPSummary] returns summary statistics for a session. *)
Definition GetRSVPSummary (db : DB) (sessionID : UUID) : result RSVPSummary :=
  match First (fun s => N.eqb (ID s) sessionID) (sessions db) with
  | None => Err ErrRecordNotFound
  | Some session =>
      let inCount := Count (rsvp_with sessionID RSVPStatusIn) (rsvps db) in
      let outCount := Count (rsvp_with sessionID RSVPStatusOut) (rsvps db) in
      let maybeCount :=
        Count (rsvp_with sessionID RSVPStatusMaybe) (rsvps db) in
      let spotsLeft := wrap_int (MaxPlayers session - inCount) in
      let spotsLeft := if spotsLeft <? 0 then 0 else spotsLeft in
      Ok (mkRSVPSummary inCount outCount maybeCount (MaxPlayers session)
                        spotsLeft)
  end.

(** *** SchedulerService

    The scheduler only reads the tables; what it does is the sequence of
    calls it makes to [NotificationService.SendNotification]. *)

Record SendNotification : Type := mkSendNotification {
  toUser : UUID;
  nType : NotificationType;
  nTitle : string;
  nBody : string;
  dataType : string;
  dataSessionID : UUID
}.

(** [parseSessionDateTime] parses a session's date and start time into a
    [time.Time]. *)
Definition parseSessionDateTime (session : Session) : result gotime.Time :=
  let dateInSydney := gotime.In (SessionDate session) utils.SydneyLocation in
  match gotime.Parse_15_04 (StartTime session) with
  | None =>
      Err (errors_New ("failed to parse start time " ++ StartTime session))
  | Some (hour, minute) =>
      Ok (gotime.Date (gotime.Year dateInSydney) (gotime.Month dateInSydney)
                      (gotime.Day dateInSydney) hour minute 0 0
                      utils.SydneyLocation)
  end.

(** [sendSessionReminders] sends reminders to all users who have RSVP'd in
    to a session. *)
Definition sendSessionReminders (db : DB) (session : Session) (label : string)
  : list SendNotification :=
  let rsvps := filter (rsvp_with (ID session) RSVPStatusIn) (rsvps db) in
  let dateStr := utils.FormatDateForDisplay (SessionDate session) in
  map (fun rsvp =>
         mkSendNotification
           (rUserID rsvp) NotificationSessionReminder
           ("Session Reminder (" ++ label ++ ")")%string
           ("Don't forget! " ++ Title session ++ " is on " ++ dateStr
              ++ " at " ++ StartTime session)%string
           NotificationSessionReminder (ID session))
      rsvps.

(** [sendSessionRemindersForWindow] sends reminders for sessions starting
    within a time window. *)
Definition sendSessionRemindersForWindow (db : DB) (now : gotime.Time)
    (hoursAhead : Z) (label : string) : list SendNotification :=
  let windowStart :=
    gotime.Add now (wrap_int (hoursAhead * gotime.DurationHour)) in
  let windowEnd := gotime.Add windowStart (1 * gotime.DurationHour) in
  let sessions :=
    filter (fun s =>
              session_date_is_text
                (gotime.Format windowStart gotime.Layout_DateOnly) s
              && String.eqb (Status s) SessionStatusOpen)
           (sessions db) in
  flat_map
    (fun session =>
       match parseSessionDateTime session with
       | Err _ => []
       | Ok sessionStart =>
           if gotime.After sessionStart windowStart
              && gotime.Before sessionStart windowEnd
           then sendSessionReminders db session label
           else []
       end)
    sessions.


(** [SendWaitlistUpdate] sends a notification when a spot opens up. *)
Definition SendWaitlistUpdate (db : DB) (session : Session)
  : list SendNotification :=
  let confirmedCount :=
    Count (rsvp_with (ID session) RSVPStatusIn) (rsvps db) in
  if MaxPlayers session <=? confirmedCount then []
  else
    let spotsAvailable := wrap_int (MaxPlayers session - confirmedCount) in
    let maybeRSVPs :=
      Limit spotsAvailable
        (OrderByRSVPTimestamp
           (filter (rsvp_with (ID session) RSVPStatusMaybe) (rsvps db))) in
    let dateStr := utils.FormatDateForDisplay (SessionDate session) in
    map (fun rsvp =>
           mkSendNotification
             (rUserID rsvp) NotificationWaitlistUpdate "Spot Available!"
             ("A spot has opened up for " ++ Title session ++ " on "
                ++ dateStr ++ ". RSVP now to confirm your place!")%string
             NotificationWaitlistUpdate (ID session))
        maybeRSVPs.

End services.

(** ** Notions of the specification *)

Module spec.
Import models database services.

(** The date of the [i]-th turn of the recurrence loop that starts at
    [nextDate]: seven days are added at every turn. *)
Fixpoint nthDate (i : nat) (nextDate : gotime.Time) : gotime.Time :=
  match i with
  | O => nextDate
  | S j => nthDate j (gotime.AddDate nextDate 0 0 7)
  end.

(** The row that a turn of the recurrence loop inserts for [nextDate] when
    the identifier supply yields [id] and the clock reads [wall]. *)
Definition child_row (parent : Session) (wall : gotime.Time) (id : UUID)
    (nextDate : gotime.Time) : Session :=
  mkSession id (gotime.Format nextDate gotime.Layout_ChildTitle)
    (Description parent) (date_column nextDate) (StartTime parent)
    (EndTime parent) (Courts parent) (MaxPlayersForCourts (Courts parent))
    (utils.CalculateRSVPDeadline nextDate) false None (Some (ID parent))
    SessionStatusOpen EmptyString (CreatedBy parent) wall wall.

(** What one turn of the recurrence loop does to the tables. *)
Definition turn (parent : Session) (wall : gotime.Time) (db : DB)
    (nextDate : gotime.Time) : DB :=
  if Count (child_on nextDate (ID parent)) (sessions db) =? 0
  then mkDB (sessions db ++ [child_row parent wall (next_uuid db) nextDate])
            (rsvps db) (N.succ (next_uuid db))
  else db.

(** A generated instance: not recurring itself, and linked to [parent]. *)
Definition is_child_of (parent : Session) (c : Session) : Prop :=
  IsRecurring c = false /\ RecurringParentID c = Some (ID parent) /\
  RecurringDayOfWeek c = None.



(** What an upsert may do to the row [old] of the RSVP table, where [target]
    is the caller's existing RSVP: the fields fixed at creation are kept, and
    only the target's status, update time and admin mark change. *)
Definition updated_in_place (target : RSVP) (status : RSVPStatus)
    (wall : gotime.Time) (byAdmin : bool) (old new : RSVP) : Prop :=
  rID new = rID old /\ rSessionID new = rSessionID old /\
  rUserID new = rUserID old /\ RSVPTimestamp new = RSVPTimestamp old /\
  IsLateRSVP new = IsLateRSVP old /\ rCreatedAt new = rCreatedAt old /\
  (new = old \/
   (old = target /\ rStatus new = status /\ rUpdatedAt new = wall /\
    AddedByAdmin new = (byAdmin || AddedByAdmin old))).

(** First come, first served: [a] did not respond after [b]. *)
Definition ts_le (a b : RSVP) : Prop :=
  gotime.Before (RSVPTimestamp b) (RSVPTimestamp a) = false.

(** A time whose nanosecond field is within the second, as every time that
    [time.Now], [time.Date] or the database yields. *)
Definition valid_time (t : gotime.Time) : Prop := 0 <= gotime.nsec t < 1000000000.

(** Following the specification's words: the number of RSVPs of a session
    with a given status. *)
Fixpoint count_status (sessionID : UUID) (status : RSVPStatus)
    (rows : list RSVP) : Z :=
  match rows with
  | [] => 0
  | r :: rows' =>
      (if N.eqb (rSessionID r) sessionID then
         if String.eqb (rStatus r) status then 1 else 0
       else 0) + count_status sessionID status rows'
  end.

(** Following the specification's words: [summarize] returns the counts of
    in/out/maybe and [spotsLeft = max(0, max_players - countIn)]. *)
Definition summarize (session : Session) (rows : list RSVP) : RSVPSummary :=
  let countIn := count_status (ID session) RSVPStatusIn rows in
  mkRSVPSummary countIn
    (count_status (ID session) RSVPStatusOut rows)
    (count_status (ID session) RSVPStatusMaybe rows)
    (MaxPlayers session)
    (Z.max 0 (MaxPlayers session - countIn)).

End spec.

(** ** Scenarios

    Concrete tables and requests used by the examples below.  The session is
    the one of the specification's scenarios: Sunday 15 June 2025, two courts,
    18:30 to 20:30, RSVP deadline Thursday 12 June 2025 23:59:59. *)

Module scenario.
Import models database services.

Definition june15 : gotime.Time := gotime.Date 2025 6 15 0 0 0 0 gotime.Sydney.

Definition session1 : Session :=
  mkSession 1%N "Sunday social" "" (date_column june15) "18:30" "20:30" 2 10
            (utils.CalculateRSVPDeadline june15) false None None
            SessionStatusOpen "" 9%N
            (gotime.Date 2025 6 1 9 0 0 0 gotime.Sydney)
            (gotime.Date 2025 6 1 9 0 0 0 gotime.Sydney).

(** User 7 confirmed on Tuesday 10 June, before the deadline. *)
Definition rsvp_in : RSVP :=
  mkRSVP 2%N 1%N 7%N RSVPStatusIn
         (gotime.Date 2025 6 10 9 0 0 0 gotime.Sydney) false false
         (gotime.Date 2025 6 10 9 0 0 0 gotime.Sydney)
         (gotime.Date 2025 6 10 9 0 0 0 gotime.Sydney).

Definition db1 : DB := mkDB [session1] [rsvp_in] 3%N.

(** Friday 13 June 2025, 10:00: the deadline has passed. *)
Definition friday : gotime.Time := gotime.Date 2025 6 13 10 0 0 0 gotime.Sydney.

(** Saturday 14 June 2025, 18:30:00: exactly 24 hours before the start. *)
Definition saturday_1830 : gotime.Time :=
  gotime.Date 2025 6 14 18 30 0 0 gotime.Sydney.

Definition downgrade : RSVPInput := mkRSVPInput 1%N 7%N RSVPStatusOut.


(** A weekly session on Sundays, created on 1 June 2025. *)
Definition weekly (occurrences : option Z) : CreateSessionInput :=
  mkCreateSessionInput "Sunday social" "" june15 "18:30" "20:30" 2 true
                       (Some 0) occurrences 9%N.

Definition june1 : gotime.Time := gotime.Date 2025 6 1 9 0 0 0 gotime.Sydney.

(** Four waiting members; user 13 has waited longest, then 11, then 12. *)
Definition maybe_at (id user : N) (day hour : Z) : RSVP :=
  mkRSVP id 1%N user RSVPStatusMaybe
         (gotime.Date 2025 6 day hour 0 0 0 gotime.Sydney) false false
         gotime.zeroTime gotime.zeroTime.

Definition confirmed (id user : N) : RSVP :=
  mkRSVP id 1%N user RSVPStatusIn
         (gotime.Date 2025 6 2 8 0 0 0 gotime.Sydney) false false
         gotime.zeroTime gotime.zeroTime.




(** The reminder that user 7 receives for the session. *)
Definition reminder1 : SendNotification :=
  mkSendNotification 7%N NotificationSessionReminder "Session Reminder (24h)"
    "Don't forget! Sunday social is on Sunday, 15 June 2025 at 18:30"
    NotificationSessionReminder 1%N.

(** The session as a recurring parent, alone in the table. *)
Definition parent1 : Session :=
  mkSession 1%N "Sunday social" "" (date_column june15) "18:30" "20:30" 2 10
            (utils.CalculateRSVPDeadline june15) true (Some 0) None
            SessionStatusOpen "" 9%N june1 june1.

Definition db_parent : DB := mkDB [parent1] [] 2%N.

(** A request for four courts. *)
Definition four_courts : CreateSessionInput :=
  mkCreateSessionInput "Sunday social" "" june15 "18:30" "20:30" 4 false None
                       None 9%N.

Definition db_one_spot : DB :=
  mkDB [session1]
       (maybe_at 20 11 5 9
          :: map (fun i => confirmed (30 + i) (40 + i))
                 [0; 1; 2; 3; 4; 5; 6; 7; 8]%N)
       100%N.

Definition db_waitlist : DB :=
  mkDB [session1]
       ([maybe_at 20 11 5 9; maybe_at 21 12 6 9; maybe_at 22 13 4 9]
          ++ map (fun i => confirmed (30 + i) (40 + i))
                 [0; 1; 2; 3; 4; 5; 6; 7]%N)
       100%N.

End scenario.

(** ** More of package [utils] *)

Module utils_days.

(** [StartOfDay] returns the start of day in Sydney timezone. *)
Definition StartOfDay (t : gotime.Time) : gotime.Time :=
  let inSydney := gotime.In t utils.SydneyLocation in
  gotime.Date (gotime.Year inSydney) (gotime.Month inSydney)
              (gotime.Day inSydney) 0 0 0 0 utils.SydneyLocation.

(** [EndOfDay] returns the end of day in Sydney timezone. *)
Definition EndOfDay (t : gotime.Time) : gotime.Time :=
  let inSydney := gotime.In t utils.SydneyLocation in
  gotime.Date (gotime.Year inSydney) (gotime.Month inSydney)
              (gotime.Day inSydney) 23 59 59 999999999 utils.SydneyLocation.

End utils_days.

(** ** More of package [models] *)

Module models_more.
Import models.

(** [IsRSVPOpen] returns true if the RSVP deadline has not passed; [wall] is
    what [time.Now()] reads. *)
Definition IsRSVPOpen (s : Session) (wall : gotime.Time) : bool :=
  gotime.Before wall (RSVPDeadline s).

Definition NotificationRSVPDeadline : NotificationType := "rsvp_deadline"%string.

Definition UserRole : Type := string.
Definition RolePending : UserRole := "pending"%string.
Definition RolePlayer : UserRole := "player"%string.
Definition RoleAdmin : UserRole := "admin"%string.

Definition MembershipStatus : Type := string.
Definition MembershipPending : MembershipStatus := "pending"%string.
Definition MembershipApproved : MembershipStatus := "approved"%string.
Definition MembershipRejected : MembershipStatus := "rejected"%string.

Record User : Type := mkUser {
  uID : UUID;
  Auth0ID : string;
  Email : string;
  Name : string;
  ProfilePicture : string;
  PhoneNumber : string;
  Role : UserRole;
  IsPlayer : bool;
  uMembershipStatus : MembershipStatus;
  uCreatedAt : gotime.Time;
  uUpdatedAt : gotime.Time
}.

Definition IsApproved (u : User) : bool :=
  String.eqb (uMembershipStatus u) MembershipApproved.

Definition IsAdmin (u : User) : bool := String.eqb (Role u) RoleAdmin.

(** [UserPushToken] stores FCM tokens for push notifications (one user can
    have multiple devices). *)
Record UserPushToken : Type := mkUserPushToken {
  tID : UUID;
  tUserID : UUID;
  Token : string;
  DeviceName : string;
  LastUsedAt : gotime.Time;
  tCreatedAt : gotime.Time
}.

End models_more.

(** ** More of [SessionService] *)

Module session_service.
Import models database services.

(** [Delete] of a session by primary key. *)
Definition DeleteSessionRow (db : DB) (s : Session) : DB :=
  mkDB (filter (fun x => negb (N.eqb (ID x) (ID s))) (sessions db))
       (rsvps db) (next_uuid db).

(** The loaded session with [Status], [CancellationReason] and [UpdatedAt]
    assigned. *)
Definition withStatus (s : Session) (status : SessionStatus)
    (reason : string) (updatedAt : gotime.Time) : Session :=
  mkSession (ID s) (Title s) (Description s) (SessionDate s) (StartTime s)
            (EndTime s) (Courts s) (MaxPlayers s) (RSVPDeadline s)
            (IsRecurring s) (RecurringDayOfWeek s) (RecurringParentID s)
            status reason (CreatedBy s) (CreatedAt s) updatedAt.

(** [DeleteSession] deletes or cancels a session; [None] is the nil error. *)
Definition DeleteSession (db : DB) (wall : gotime.Time) (id : UUID)
  : DB * option error :=
  match First (fun s => N.eqb (ID s) id) (sessions db) with
  | None => (db, Some ErrRecordNotFound)
  | Some session =>
      let rsvpCount := Count (fun r => N.eqb (rSessionID r) id) (rsvps db) in
      if 0 <? rsvpCount then
        (SaveSessionRow db wall
           (withStatus session SessionStatusCancelled
                       (CancellationReason session) wall), None)
      else (DeleteSessionRow db session, None)
  end.

(** [CancelSession] cancels a session with an optional reason. *)
Definition CancelSession (db : DB) (wall : gotime.Time) (id : UUID)
    (reason : string) : DB * result Session :=
  match First (fun s => N.eqb (ID s) id) (sessions db) with
  | None => (db, Err ErrRecordNotFound)
  | Some session =>
      let session' := withStatus session SessionStatusCancelled reason wall in
      (SaveSessionRow db wall session', Ok session')
  end.

(** [Preload("RSVPs")] with [Order("rsvp_timestamp ASC")]: the RSVPs of a
    session, earliest first. *)
Definition preloadRSVPs (db : DB) (s : Session) : list RSVP :=
  OrderByRSVPTimestamp (filter (fun r => N.eqb (rSessionID r) (ID s)) (rsvps db)).

(** [GetSessionByID] retrieves a session by ID with its RSVPs; the user
    records that the source loads besides are left out. *)
Definition GetSessionByID (db : DB) (id : UUID)
  : result (Session * list RSVP) :=
  match First (fun s => N.eqb (ID s) id) (sessions db) with
  | None => Err ErrRecordNotFound
  | Some session => Ok (session, preloadRSVPs db session)
  end.

(** [session_date >= ?] with a [time.Time] argument: calendar dates are
    compared, the argument's in its own location. *)
Definition session_date_from (today : gotime.Time) (s : Session) : bool :=
  gotime.civil_day today <=? gotime.civil_day (SessionDate s).

(** [Order("session_date ASC, start_time ASC")]: rows by date, rows of one
    date by start time (text, compared byte by byte), equal rows in table
    order. *)
Definition starts_before (a b : Session) : bool :=
  (gotime.civil_day (SessionDate a) <? gotime.civil_day (SessionDate b))
  || ((gotime.civil_day (SessionDate a) =? gotime.civil_day (SessionDate b))
      && String.ltb (StartTime a) (StartTime b)).

Fixpoint insert_by_start (s : Session) (l : list Session) : list Session :=
  match l with
  | [] => [s]
  | x :: l' =>
      if starts_before x s then x :: insert_by_start s l'
      else s :: x :: l'
  end.

Definition OrderBySessionDateStartTime (l : list Session) : list Session :=
  fold_right insert_by_start [] l.

(** [ListUpcomingSessions] returns upcoming sessions. *)
Definition ListUpcomingSessions (db : DB) (wall : gotime.Time)
  : list (Session * list RSVP) :=
  let now := utils.NowInSydney wall in
  let today := utils_days.StartOfDay now in
  map (fun s => (s, preloadRSVPs db s))
      (OrderBySessionDateStartTime
         (filter (fun s => session_date_from today s
                           && negb (String.eqb (Status s)
                                               SessionStatusCancelled))
                 (sessions db))).

(** [ListCancelledUpcomingSessions] returns cancelled sessions that haven't
    passed yet. *)
Definition ListCancelledUpcomingSessions (db : DB) (wall : gotime.Time)
  : list Session :=
  let now := utils.NowInSydney wall in
  let today := utils_days.StartOfDay now in
  OrderBySessionDateStartTime
    (filter (fun s => session_date_from today s
                      && String.eqb (Status s) SessionStatusCancelled)
            (sessions db)).

End session_service.

(** ** More of [RSVPService] *)

Module rsvp_service.
Import models database services.

(** [GetRSVPsForSession] returns all RSVPs for a session, ordered by
    timestamp. *)
Definition GetRSVPsForSession (db : DB) (sessionID : UUID) : list RSVP :=
  OrderByRSVPTimestamp
    (filter (fun r => N.eqb (rSessionID r) sessionID) (rsvps db)).

(** [GetUserRSVPForSession] returns a user's RSVP for a session. *)
Definition GetUserRSVPForSession (db : DB) (sessionID userID : UUID)
  : result RSVP :=
  match First (rsvp_of sessionID userID) (rsvps db) with
  | Some rsvp => Ok rsvp
  | None => Err ErrRecordNotFound
  end.

(** [GetConfirmedPlayers] returns players who have RSVP'd IN, ordered by
    timestamp. *)
Definition GetConfirmedPlayers (db : DB) (sessionID : UUID) : list RSVP :=
  OrderByRSVPTimestamp (filter (rsvp_with sessionID RSVPStatusIn) (rsvps db)).

End rsvp_service.

(** ** More of [SchedulerService] *)

Module scheduler_service.
Import models database services models_more.

(** [Format] with the layout "Monday 3:04 PM": the weekday, the hour on the
    12-hour clock without padding, the minute on two digits, AM or PM. *)
Definition Format_Monday_3_04_PM (t : gotime.Time) : string :=
  let hr := gotime.Hour t mod 12 in
  let hr := if hr =? 0 then 12 else hr in
  let pm := if 12 <=? gotime.Hour t then "PM"%string else "AM"%string in
  (gotime.name_at gotime.longDayNames (gotime.Weekday t) ++ " "
     ++ gotime.appendInt hr 0 ++ ":" ++ gotime.appendInt (gotime.Minute t) 2
     ++ " " ++ pm)%string.

(** [sendDeadlineReminders] sends deadline alerts to users who haven't RSVP'd
    yet; [users] is the users table. *)
Definition sendDeadlineReminders (db : DB) (users : list User)
    (session : Session) : list SendNotification :=
  let users := filter (fun u => String.eqb (uMembershipStatus u)
                                           MembershipApproved) users in
  let existingRSVPs :=
    filter (fun r => N.eqb (rSessionID r) (ID session)) (rsvps db) in
  let rsvpUserMap (id : UUID) : bool :=
    existsb (fun r => N.eqb (rUserID r) id) existingRSVPs in
  let deadlineStr :=
    Format_Monday_3_04_PM
      (gotime.In (RSVPDeadline session) utils.SydneyLocation) in
  let dateStr := utils.FormatDateForDisplay (SessionDate session) in
  map (fun user =>
         mkSendNotification
           (uID user) NotificationRSVPDeadline "RSVP Deadline Approaching"
           ("The RSVP deadline for " ++ Title session ++ " (" ++ dateStr
              ++ ") is " ++ deadlineStr ++ ". Don't miss out!")%string
           NotificationRSVPDeadline (ID session))
      (filter (fun user => negb (rsvpUserMap (uID user))) users).

(** The rows selected by
    [rsvp_deadline > ? AND rsvp_deadline <= ? AND status = ?]; timestamps
    are compared as instants. *)
Definition deadline_in_window (windowStart windowEnd : gotime.Time)
    (s : Session) : bool :=
  gotime.After (RSVPDeadline s) windowStart
  && negb (gotime.After (RSVPDeadline s) windowEnd)
  && String.eqb (Status s) SessionStatusOpen.

(** [checkDeadlineReminders] checks for sessions with approaching RSVP
    deadlines. *)
Definition checkDeadlineReminders (db : DB) (users : list User)
    (wall : gotime.Time) (deadlineHours : Z) : list SendNotification :=
  let now := utils.NowInSydney wall in
  let windowStart := now in
  let windowEnd :=
    gotime.Add now (wrap_int (deadlineHours * gotime.DurationHour)) in
  flat_map (fun session => sendDeadlineReminders db users session)
           (filter (deadline_in_window windowStart windowEnd) (sessions db)).

End scheduler_service.

(** ** [UserService]

    The users table is a list of rows; [fresh] is what [uuid.New()] returns
    when a row is created. *)

Module user_service.
Import models database services models_more.

Record CreateUserInput : Type := mkCreateUserInput {
  cuAuth0ID : string;
  cuEmail : string;
  cuName : string;
  cuProfilePicture : string
}.

Definition ErrNotPending : error := errors_New "user is not pending approval".

(** The error of the database when an insertion breaks the unique index on
    [email] (its text is abridged). *)
Definition ErrDuplicatedKey : error :=
  errors_New "duplicate key value violates unique constraint".

(** [Save] of a user: every column of the row with that primary key is
    written (the row is inserted when there is none), [updated_at] with the
    time of the write. *)
Definition SaveUserRow (users : list User) (wall : gotime.Time) (u : User)
  : list User * User :=
  let u' := mkUser (uID u) (Auth0ID u) (Email u) (Name u) (ProfilePicture u)
                   (PhoneNumber u) (Role u) (IsPlayer u)
                   (uMembershipStatus u) (uCreatedAt u) wall in
  if existsb (fun x => N.eqb (uID x) (uID u)) users
  then (map (fun x => if N.eqb (uID x) (uID u) then u' else x) users, u')
  else (users ++ [u'], u').

(** [CreateOrUpdateUser] creates a new user or updates an existing one; the
    boolean of the result is [isNew]. *)
Definition CreateOrUpdateUser (adminEmail : string) (users : list User)
    (wall : gotime.Time) (fresh : UUID) (input : CreateUserInput)
  : list User * result (User * bool) :=
  match First (fun u => String.eqb (Auth0ID u) (cuAuth0ID input)) users with
  | None =>
      let isAdmin :=
        negb (String.eqb adminEmail EmptyString)
        && String.eqb (cuEmail input) adminEmail in
      let user := mkUser
        fresh (cuAuth0ID input) (cuEmail input) (cuName input)
        (cuProfilePicture input) EmptyString
        (if isAdmin then RoleAdmin else RolePending) true
        (if isAdmin then MembershipApproved else MembershipPending)
        wall wall in
      if existsb (fun u => String.eqb (Email u) (cuEmail input)) users
      then (users, Err ErrDuplicatedKey)
      else (users ++ [user], Ok (user, true))
  | Some user =>
      let user1 := mkUser
        (uID user) (Auth0ID user) (Email user) (cuName input)
        (cuProfilePicture input) (PhoneNumber user) (Role user)
        (IsPlayer user) (uMembershipStatus user) (uCreatedAt user) wall in
      let '(users', user') := SaveUserRow users wall user1 in
      (users', Ok (user', false))
  end.

(** [GetUserByID] retrieves a user by ID. *)
Definition GetUserByID (users : list User) (id : UUID) : result User :=
  match First (fun u => N.eqb (uID u) id) users with
  | Some user => Ok user
  | None => Err ErrRecordNotFound
  end.

(** [GetUserByAuth0ID] retrieves a user by Auth0 ID. *)
Definition GetUserByAuth0ID (users : list User) (auth0ID : string)
  : result User :=
  match First (fun u => String.eqb (Auth0ID u) auth0ID) users with
  | Some user => Ok user
  | None => Err ErrRecordNotFound
  end.

(** [UpdateProfile] updates user profile (phone number). *)
Definition UpdateProfile (users : list User) (wall : gotime.Time)
    (userID : UUID) (phoneNumber : string) : list User * result User :=
  match First (fun u => N.eqb (uID u) userID) users with
  | None => (users, Err ErrRecordNotFound)
  | Some user =>
      let user1 := mkUser
        (uID user) (Auth0ID user) (Email user) (Name user)
        (ProfilePicture user) phoneNumber (Role user) (IsPlayer user)
        (uMembershipStatus user) (uCreatedAt user) wall in
      let '(users', user') := SaveUserRow users wall user1 in
      (users', Ok user')
  end.

(** [ApproveJoinRequest] approves a user's membership request. *)
Definition ApproveJoinRequest (users : list User) (wall : gotime.Time)
    (userID : UUID) : list User * result User :=
  match First (fun u => N.eqb (uID u) userID) users with
  | None => (users, Err ErrRecordNotFound)
  | Some user =>
      if negb (String.eqb (uMembershipStatus user) MembershipPending)
      then (users, Err ErrNotPending)
      else
        let user1 := mkUser
          (uID user) (Auth0ID user) (Email user) (Name user)
          (ProfilePicture user) (PhoneNumber user) RolePlayer (IsPlayer user)
          MembershipApproved (uCreatedAt user) wall in
        let '(users', user') := SaveUserRow users wall user1 in
        (users', Ok user')
  end.

(** [RejectJoinRequest] rejects a user's membership request. *)
Definition RejectJoinRequest (users : list User) (wall : gotime.Time)
    (userID : UUID) : list User * result User :=
  match First (fun u => N.eqb (uID u) userID) users with
  | None => (users, Err ErrRecordNotFound)
  | Some user =>
      if negb (String.eqb (uMembershipStatus user) MembershipPending)
      then (users, Err ErrNotPending)
      else
        let user1 := mkUser
          (uID user) (Auth0ID user) (Email user) (Name user)
          (ProfilePicture user) (PhoneNumber user) (Role user) (IsPlayer user)
          MembershipRejected (uCreatedAt user) wall in
        let '(users', user') := SaveUserRow users wall user1 in
        (users', Ok user')
  end.

(** [UpdateUserRole] updates a user's role. *)
Definition UpdateUserRole (users : list User) (wall : gotime.Time)
    (userID : UUID) (role : UserRole) : list User * result User :=
  match First (fun u => N.eqb (uID u) userID) users with
  | None => (users, Err ErrRecordNotFound)
  | Some user =>
      let user1 := mkUser
        (uID user) (Auth0ID user) (Email user) (Name user)
        (ProfilePicture user) (PhoneNumber user) role (IsPlayer user)
        (uMembershipStatus user) (uCreatedAt user) wall in
      let '(users', user') := SaveUserRow users wall user1 in
      (users', Ok user')
  end.

End user_service.

(** ** The push tokens of [NotificationService]

    The table of push tokens is a list of rows; [fresh] is what [uuid.New()]
    returns when a row is created. *)

Module notification_service.
Import models database services models_more.

(** [Save] of a push token: every column of the row with that primary key
    is written (the row is inserted when there is none). *)
Definition SaveTokenRow (tokens : list UserPushToken) (t : UserPushToken)
  : list UserPushToken :=
  if existsb (fun x => N.eqb (tID x) (tID t)) tokens
  then map (fun x => if N.eqb (tID x) (tID t) then t else x) tokens
  else tokens ++ [t].

(** [RegisterPushToken] registers a new FCM push token for a user; [None]
    is the nil error. *)
Definition RegisterPushToken (tokens : list UserPushToken)
    (wall : gotime.Time) (fresh : UUID) (userID : UUID)
    (token deviceName : string) : list UserPushToken * option error :=
  match First (fun t => String.eqb (Token t) token) tokens with
  | Some existing =>
      let existing' := mkUserPushToken (tID existing) userID (Token existing)
                                       deviceName wall (tCreatedAt existing) in
      (SaveTokenRow tokens existing', None)
  | None =>
      let newToken := mkUserPushToken fresh userID token deviceName wall wall in
      (tokens ++ [newToken], None)
  end.

(** [UnregisterPushToken] removes a push token, or all tokens of the user
    when the token is empty. *)
Definition UnregisterPushToken (tokens : list UserPushToken) (userID : UUID)
    (token : string) : list UserPushToken * option error :=
  if negb (String.eqb token EmptyString) then
    (filter (fun t => negb (N.eqb (tUserID t) userID
                            && String.eqb (Token t) token)) tokens, None)
  else
    (filter (fun t => negb (N.eqb (tUserID t) userID)) tokens, None).

End notification_service.

(** ** More notions for the properties *)

Module spec_more.
Import models database services models_more.

(** A value that stands for a calendar date: a valid time in the club's
    zone (as [ParseDateInSydney] yields), or midnight UTC (as the date
    column reads back). *)
Definition date_like (t : gotime.Time) : Prop :=
  spec.valid_time t /\
  (gotime.loc t = gotime.Sydney \/
   (gotime.loc t = gotime.UTC /\ gotime.unixSec t mod 86400 = 0)).

(** What the date column holds: midnight UTC of a date. *)
Definition date_row (t : gotime.Time) : Prop :=
  gotime.loc t = gotime.UTC /\ gotime.unixSec t mod 86400 = 0 /\
  gotime.nsec t = 0.

(** The capacity of a row is the capacity of its courts. *)
Definition capacity_ok (s : Session) : Prop :=
  1 <= Courts s <= 3 /\ MaxPlayers s = MaxPlayersForCourts (Courts s).

(** The deadline of a row is the deadline of its date. *)
Definition deadline_ok (s : Session) : Prop :=
  date_row (SessionDate s) /\
  RSVPDeadline s = utils.CalculateRSVPDeadline (SessionDate s).

(** The row that [Save] writes for a session. *)
Definition saved_row (s : Session) (wall : gotime.Time) : Session :=
  mkSession
    (ID s) (Title s) (Description s) (date_column (SessionDate s))
    (StartTime s) (EndTime s) (Courts s) (MaxPlayers s) (RSVPDeadline s)
    (IsRecurring s) (RecurringDayOfWeek s) (RecurringParentID s)
    (Status s) (CancellationReason s) (CreatedBy s) (CreatedAt s) wall.

(** The (session, user) pair that the unique index of the RSVP table is
    on. *)
Definition rsvp_key (r : RSVP) : UUID * UUID := (rSessionID r, rUserID r).

(** The RSVP table holds one row for a (session, user) pair, its rows have
    distinct identifiers, and every identifier in it was handed out
    before. *)
Definition rsvp_table_ok (db : DB) : Prop :=
  NoDup (map rsvp_key (rsvps db)) /\ NoDup (map rID (rsvps db)) /\
  Forall (fun r => (rID r < next_uuid db)%N) (rsvps db).

(** A late RSVP is one an administrator entered. *)
Definition late_flag_ok (r : RSVP) : Prop :=
  IsLateRSVP r = true -> AddedByAdmin r = true.

(** Every RSVP belongs to a session of the table. *)
Definition rsvp_refs_ok (db : DB) : Prop :=
  Forall (fun r => existsb (fun s => N.eqb (ID s) (rSessionID r))
                           (sessions db) = true)
         (rsvps db).

(** What [CreateOrUpdateRSVP] does to the tables: nothing, an insertion of a
    row for the pair of the input, or the replacement of the row of that
    pair. *)
Inductive upsert_effect (db : DB) (wall : gotime.Time) (input : RSVPInput)
    (byAdmin : bool) : DB * result RSVP -> Prop :=
| upsert_refused e : upsert_effect db wall input byAdmin (db, Err e)
| upsert_created session r db' :
    First (fun s => N.eqb (ID s) (inSessionID input)) (sessions db)
    = Some session ->
    Status session = SessionStatusOpen ->
    First (rsvp_of (inSessionID input) (inUserID input)) (rsvps db) = None ->
    IsLateRSVP r
    = gotime.After (utils.NowInSydney wall) (RSVPDeadline session) ->
    (IsLateRSVP r = true -> byAdmin = true) ->
    AddedByAdmin r = byAdmin ->
    rID r = next_uuid db ->
    rsvp_key r = (inSessionID input, inUserID input) ->
    rStatus r = inStatus input ->
    sessions db' = sessions db ->
    rsvps db' = rsvps db ++ [r] ->
    next_uuid db' = N.succ (next_uuid db) ->
    upsert_effect db wall input byAdmin (db', Ok (reload db' r))
| upsert_updated session old r db' :
    First (fun s => N.eqb (ID s) (inSessionID input)) (sessions db)
    = Some session ->
    Status session = SessionStatusOpen ->
    First (rsvp_of (inSessionID input) (inUserID input)) (rsvps db)
    = Some old ->
    r = mkRSVP (rID old) (rSessionID old) (rUserID old) (inStatus input)
               (RSVPTimestamp old) (IsLateRSVP old)
               (if byAdmin then true else AddedByAdmin old)
               (rCreatedAt old) wall ->
    sessions db' = sessions db ->
    rsvps db'
    = map (fun x => if N.eqb (rID x) (rID old) then r else x) (rsvps db) ->
    next_uuid db' = next_uuid db ->
    upsert_effect db wall input byAdmin (db', Ok (reload db' r)).

(** The table of push tokens has distinct row identifiers and holds a token
    once. *)
Definition tokens_ok (tokens : list UserPushToken) : Prop :=
  NoDup (map tID tokens) /\ NoDup (map Token tokens).

(** The order of the session listings: by date, then by start time. *)
Definition session_le (a b : Session) : Prop :=
  session_service.starts_before b a = false.

(** The membership status of the user [id] is [status] in the table. *)
Definition membership_is (users : list User) (id : UUID)
    (status : MembershipStatus) : Prop :=
  exists u, user_service.GetUserByID users id = Ok u /\
            uMembershipStatus u = status.

End spec_more.

(** ** More scenarios

    The members of the club and the instants used by the examples of the
    later sections. *)

Module scenario_more.
Import models database services models_more user_service.

(** Tuesday 10 June 2025, noon: RSVPs for the Sunday session are open. *)
Definition tuesday : gotime.Time :=
  gotime.Date 2025 6 10 12 0 0 0 gotime.Sydney.

(** Thursday 12 June 2025, noon: twelve hours before the deadline. *)
Definition thursday : gotime.Time :=
  gotime.Date 2025 6 12 12 0 0 0 gotime.Sydney.

Definition member (id : N) (name email : string) (role : UserRole)
    (status : MembershipStatus) : User :=
  mkUser id ("auth0|" ++ name) email name "" "" role true status
         scenario.june1 scenario.june1.

Definition ann : User :=
  member 7 "ann" "ann@example.org" RolePlayer MembershipApproved.
Definition bob : User :=
  member 8 "bob" "bob@example.org" RolePlayer MembershipApproved.
Definition cy : User :=
  member 9 "cy" "cy@example.org" RolePending MembershipPending.

Definition users1 : list User := [ann; bob; cy].

(** Bob's first answer for the Sunday session, and the row it creates on
    Tuesday. *)
Definition first_in : RSVPInput := mkRSVPInput 1%N 8%N RSVPStatusIn.

Definition rsvp_bob : RSVP :=
  mkRSVP 3%N 1%N 8%N RSVPStatusIn tuesday false false tuesday tuesday.

(** The alert Bob receives while he has not answered. *)
Definition alert_bob : SendNotification :=
  mkSendNotification 8%N NotificationRSVPDeadline "RSVP Deadline Approaching"
    "The RSVP deadline for Sunday social (Sunday, 15 June 2025) is Thursday 11:59 PM. Don't miss out!"
    NotificationRSVPDeadline 1%N.

(** The first child of the recurring Sunday session. *)
Definition child1 : Session :=
  spec.child_row scenario.parent1 scenario.june1 2%N
                 (gotime.AddDate (SessionDate scenario.parent1) 0 0 7).

(** Ann's phone, and her laptop. *)
Definition tokens1 : list UserPushToken :=
  [mkUserPushToken 50%N 7%N "tok-phone" "phone" scenario.june1 scenario.june1;
   mkUserPushToken 51%N 7%N "tok-laptop" "laptop" scenario.june1
                   scenario.june1].


End scenario_more.

(** * Properties *)

(** ** Calendar and zone arithmetic *)

Module gotime_facts.
Import gotime.

Ltac zdiv := Z.to_euclidean_division_equations; lia.

Ltac civ :=
  cbv beta delta [jan1 days_from_civil] zeta;
  change (1 <=? 2) with true; change (4 <=? 2) with false;
  change (10 <=? 2) with false; cbv iota.

Lemma year_of_era_bounds doe :
  0 <= doe < 146097 ->
  let yoe := (doe - doe / 1460 + doe / 36524 - doe / 146096) / 365 in
  0 <= yoe < 400 /\ 0 <= doe - (365 * yoe + yoe / 4 - yoe / 100) <= 365.
Proof. intros H yoe. subst yoe. zdiv. Qed.

(** [civil_from_days] is a right inverse of [days_from_civil] and yields a
    month in 1..12 and a day in 1..31. *)
Lemma days_from_civil_from_days z :
  let '(y, m, d) := civil_from_days z in
  days_from_civil y m d = z /\ 1 <= m <= 12 /\ 1 <= d <= 31.
Proof.
  unfold civil_from_days, days_from_civil.
  set (z' := z + 719468).
  set (era := z' / 146097).
  set (doe := z' - era * 146097).
  assert (Hdoe : 0 <= doe < 146097) by (subst doe era; zdiv).
  pose proof (year_of_era_bounds doe Hdoe) as Hy. cbv zeta in Hy.
  set (yoe := (doe - doe / 1460 + doe / 36524 - doe / 146096) / 365) in *.
  set (doy := doe - (365 * yoe + yoe / 4 - yoe / 100)) in *.
  set (mp := (5 * doy + 2) / 153).
  assert (Hmp : 0 <= mp <= 11) by (subst mp; zdiv).
  destruct (mp <? 10) eqn:E.
  - apply Z.ltb_lt in E.
    replace (mp + 3 <=? 2) with false by (symmetry; apply Z.leb_gt; lia).
    replace (mp + 3 - 3) with mp by lia.
    replace ((yoe + era * 400) / 400) with era by zdiv.
    replace (yoe + era * 400 - era * 400) with yoe by lia.
    split; [subst doy z' doe; lia|].
    split; [lia|]. subst mp. zdiv.
  - apply Z.ltb_ge in E.
    replace (mp - 9 <=? 2) with true by (symmetry; apply Z.leb_le; lia).
    replace (mp - 9 + 9) with mp by lia.
    replace (yoe + era * 400 + 1 - 1) with (yoe + era * 400) by lia.
    replace ((yoe + era * 400) / 400) with era by zdiv.
    replace (yoe + era * 400 - era * 400) with yoe by lia.
    split; [subst doy z' doe; lia|].
    split; [lia|]. subst mp. zdiv.
Qed.

Lemma days_from_civil_day y m d k :
  days_from_civil y m (d + k) = days_from_civil y m d + k.
Proof. unfold days_from_civil. lia. Qed.

Lemma jan1_step y : 365 <= jan1 (y + 1) - jan1 y <= 366.
Proof. civ. zdiv. Qed.

Lemma jan1_mono a b : a <= b -> 365 * (b - a) <= jan1 b - jan1 a.
Proof.
  intros H. replace b with (a + (b - a)) by lia.
  assert (0 <= b - a) as Hk by lia. revert Hk. generalize (b - a) as k.
  apply (natlike_ind (fun k => 365 * (a + k - a) <= jan1 (a + k) - jan1 a)).
  - rewrite Z.add_0_r. lia.
  - intros k Hk IH. pose proof (jan1_step (a + k)).
    replace (a + Z.succ k) with (a + k + 1) by lia. lia.
Qed.

Lemma april1_in_year y : 90 <= days_from_civil y 4 1 - jan1 y <= 91.
Proof. civ. zdiv. Qed.

Lemma october1_in_year y :
  days_from_civil y 10 1 - days_from_civil y 4 1 = 183 /\
  jan1 (y + 1) - days_from_civil y 10 1 = 92.
Proof. civ. zdiv. Qed.

Lemma year_of_days_bounds z :
  jan1 (year_of_days z) <= z < jan1 (year_of_days z + 1).
Proof.
  unfold year_of_days.
  pose proof (days_from_civil_from_days z) as H.
  destruct (civil_from_days z) as [[y m] d]. cbv beta iota zeta delta [fst].
  destruct H as (H & Hm & Hd).
  rewrite <- H. civ. cbv beta delta [days_from_civil] zeta.
  destruct (m <=? 2) eqn:E; [apply Z.leb_le in E | apply Z.leb_gt in E]; zdiv.
Qed.

(** The year of a day number is determined by the two first-of-January day
    numbers around it. *)
Lemma year_of_days_unique z y :
  jan1 y <= z < jan1 (y + 1) -> year_of_days z = y.
Proof.
  intros H. pose proof (year_of_days_bounds z) as B.
  destruct (Z.lt_trichotomy (year_of_days z) y) as [L | [E | G]]; [|exact E|].
  - pose proof (jan1_mono (year_of_days z + 1) y ltac:(lia)). lia.
  - pose proof (jan1_mono (y + 1) (year_of_days z) ltac:(lia)). lia.
Qed.

Lemma first_sunday_bounds y m :
  days_from_civil y m 1 <= first_sunday y m <= days_from_civil y m 1 + 6.
Proof. unfold first_sunday, weekday_of_days. cbv zeta. zdiv. Qed.

(** Where the two transitions of a year lie. *)
Lemma transitions_in_year y :
  jan1 y * 86400 < dst_end y /\ dst_end y < dst_start y /\
  dst_start y < jan1 (y + 1) * 86400 /\
  dst_end y mod 86400 = 57600 /\ dst_start y mod 86400 = 57600 /\
  dst_start y - dst_end y > 86400 /\
  dst_end (y + 1) - dst_start y > 86400.
Proof.
  unfold dst_end, dst_start.
  pose proof (first_sunday_bounds y 4). pose proof (first_sunday_bounds y 10).
  pose proof (first_sunday_bounds (y + 1) 4).
  pose proof (april1_in_year y). pose proof (october1_in_year y).
  pose proof (april1_in_year (y + 1)). pose proof (jan1_step y).
  repeat split; try lia; zdiv.
Qed.

Lemma year_of_instant t y :
  jan1 y * 86400 <= t < jan1 (y + 1) * 86400 -> year_of_days (t / 86400) = y.
Proof. intros H. apply year_of_days_unique. zdiv. Qed.

Lemma year_of_instant_bounds t :
  jan1 (year_of_days (t / 86400)) * 86400 <= t
  < jan1 (year_of_days (t / 86400) + 1) * 86400.
Proof. pose proof (year_of_days_bounds (t / 86400)). zdiv. Qed.

Lemma sydney_lookup_winter y u :
  dst_end y <= u < dst_start y -> sydney_lookup u = winter y.
Proof.
  intros H. pose proof (transitions_in_year y) as T.
  unfold sydney_lookup. rewrite (year_of_instant u y) by lia.
  destruct (Z.ltb_spec u (dst_end y)); [lia|].
  destruct (Z.ltb_spec u (dst_start y)); [reflexivity | lia].
Qed.

Lemma sydney_lookup_summer y u :
  dst_start y <= u < dst_end (y + 1) -> sydney_lookup u = summer y.
Proof.
  intros H. pose proof (transitions_in_year y) as T.
  pose proof (transitions_in_year (y + 1)) as T'.
  unfold sydney_lookup, summer.
  destruct (Z_lt_ge_dec u (jan1 (y + 1) * 86400)) as [L | G].
  - rewrite (year_of_instant u y) by lia.
    destruct (Z.ltb_spec u (dst_end y)); [lia|].
    destruct (Z.ltb_spec u (dst_start y)); [lia | reflexivity].
  - rewrite (year_of_instant u (y + 1)) by lia.
    destruct (Z.ltb_spec u (dst_end (y + 1))); [|lia].
    replace (y + 1 - 1) with y by lia. reflexivity.
Qed.

Lemma sydney_lookup_cases t :
  exists y,
    (dst_end y <= t < dst_start y /\ sydney_lookup t = winter y) \/
    (dst_start y <= t < dst_end (y + 1) /\ sydney_lookup t = summer y).
Proof.
  pose proof (year_of_instant_bounds t) as B.
  set (y := year_of_days (t / 86400)) in *.
  pose proof (transitions_in_year y) as T.
  pose proof (transitions_in_year (y - 1)) as T'.
  replace (y - 1 + 1) with y in T' by lia.
  destruct (Z_lt_ge_dec t (dst_end y)) as [L | G].
  - exists (y - 1). right. replace (y - 1 + 1) with y by lia.
    assert (H : dst_start (y - 1) <= t < dst_end y) by lia.
    split; [exact H|]. rewrite (sydney_lookup_summer (y - 1)).
    + unfold summer. replace (y - 1 + 1) with y by lia. reflexivity.
    + replace (y - 1 + 1) with y by lia. exact H.
  - destruct (Z_lt_ge_dec t (dst_start y)) as [L' | G'].
    + exists y. left. split; [lia|]. apply sydney_lookup_winter. lia.
    + exists y. right. pose proof (transitions_in_year (y + 1)).
      assert (H' : dst_start y <= t < dst_end (y + 1)) by lia.
      split; [exact H'|]. apply sydney_lookup_summer. exact H'.
Qed.

Lemma sydney_lookup_range t :
  zstart (sydney_lookup t) <= t < zend (sydney_lookup t).
Proof.
  destruct (sydney_lookup_cases t) as [y [[H E] | [H E]]]; rewrite E; exact H.
Qed.

Lemma sydney_lookup_stable t u :
  zstart (sydney_lookup t) <= u < zend (sydney_lookup t) ->
  sydney_lookup u = sydney_lookup t.
Proof.
  destruct (sydney_lookup_cases t) as [y [[H E] | [H E]]]; rewrite E;
    cbn [zstart zend winter summer]; intros Hu.
  - apply sydney_lookup_winter; exact Hu.
  - apply sydney_lookup_summer; exact Hu.
Qed.

Lemma sydney_offset_cases t :
  offset (sydney_lookup t) = AEST \/ offset (sydney_lookup t) = AEDT.
Proof.
  destruct (sydney_lookup_cases t) as [y [[H E] | [H E]]]; rewrite E; cbn; auto.
Qed.

(** Every period starts at 16:00 UTC, and in the day before a period starts
    the other offset is in force. *)
Lemma sydney_lookup_start t :
  zstart (sydney_lookup t) mod 86400 = 57600.
Proof.
  destruct (sydney_lookup_cases t) as [y [[H E] | [H E]]]; rewrite E; cbn;
    apply transitions_in_year.
Qed.

Lemma sydney_lookup_before t u :
  zstart (sydney_lookup t) - 86400 <= u < zstart (sydney_lookup t) ->
  zend (sydney_lookup u) = zstart (sydney_lookup t) /\
  offset (sydney_lookup u) = AEST + AEDT - offset (sydney_lookup t).
Proof.
  destruct (sydney_lookup_cases t) as [y [[H E] | [H E]]]; rewrite E;
    cbn [zstart zend offset winter summer]; intros Hu.
  - pose proof (transitions_in_year (y - 1)) as T.
    replace (y - 1 + 1) with y in T by lia.
    rewrite (sydney_lookup_summer (y - 1)) by (replace (y - 1 + 1) with y by lia; lia).
    cbn [zend offset summer]. replace (y - 1 + 1) with y by lia.
    split; [reflexivity | lia].
  - pose proof (transitions_in_year y) as T.
    rewrite (sydney_lookup_winter y) by lia.
    cbn [zend offset winter]. split; [reflexivity | lia].
Qed.

(** The instant [time.Date] picks for a civil reading reads back as that
    reading, except in the hour skipped when daylight saving starts, where it
    reads one hour later. *)
Lemma to_utc_Sydney L :
  let u := to_utc Sydney L in
  u + offset (sydney_lookup u) = L \/
  (u + offset (sydney_lookup u) = L + 3600 /\ 7200 <= L mod 86400 < 10800).
Proof.
  cbv zeta. unfold to_utc.
  pose proof (sydney_lookup_range L) as R.
  pose proof (sydney_offset_cases L) as O.
  pose proof (sydney_lookup_start L) as S.
  pose proof (sydney_lookup_stable L) as St.
  pose proof (sydney_lookup_before L) as Bf.
  set (z := sydney_lookup L) in *.
  unfold AEST, AEDT in *.
  destruct (Z.eqb_spec (offset z) 0) as [E0 | _]; [lia|].
  destruct (Z.ltb_spec (L - offset z) (zstart z)) as [Lt | Ge]; cbn [orb].
  - destruct (Bf (L - offset z) ltac:(lia)) as [_ Ho]. rewrite Ho.
    destruct O as [O | O]; rewrite O in *.
    + left. destruct (Bf (L - (36000 + 39600 - 36000)) ltac:(lia)) as [_ Ho'].
      rewrite Ho'. lia.
    + replace (36000 + 39600 - 39600) with 36000 in * by lia.
      destruct (Z_lt_ge_dec (L - 36000) (zstart z)) as [Lt' | Ge'].
      * left. destruct (Bf (L - 36000) ltac:(lia)) as [_ Ho']. rewrite Ho'. lia.
      * right. rewrite (St (L - 36000)) by lia. rewrite O. split; [lia | zdiv].
  - destruct (Z.leb_spec (zend z) (L - offset z)) as [Le | _]; [lia|].
    left. rewrite (St (L - offset z)) by lia. lia.
Qed.

Lemma localSec_Date y mo d h mi s ns l :
  let L := civil_seconds y mo d h mi s ns in
  localSec (Date y mo d h mi s ns l) = L \/
  (localSec (Date y mo d h mi s ns l) = L + 3600 /\
   7200 <= L mod 86400 < 10800).
Proof.
  cbv zeta. unfold localSec, Date. cbn [unixSec loc].
  destruct l; cbn [zone_offset].
  - left. cbn [to_utc]. lia.
  - apply to_utc_Sydney.
Qed.

(** A civil reading outside the skipped hour is met exactly. *)
Lemma localSec_Date_exact y mo d h mi s ns l :
  let L := civil_seconds y mo d h mi s ns in
  ~ (7200 <= L mod 86400 < 10800) ->
  localSec (Date y mo d h mi s ns l) = L.
Proof.
  cbv zeta. intros H.
  destruct (localSec_Date y mo d h mi s ns l) as [E | [_ G]]; [exact E | tauto].
Qed.

(** The calendar day of [time.Date] is the day of the civil reading. *)
Lemma civil_day_Date y mo d h mi s ns l :
  civil_day (Date y mo d h mi s ns l) = civil_seconds y mo d h mi s ns / 86400.
Proof.
  unfold civil_day.
  destruct (localSec_Date y mo d h mi s ns l) as [E | [E G]]; rewrite E.
  - reflexivity.
  - zdiv.
Qed.

Lemma civil_fields t :
  days_from_civil (Year t) (Month t) (Day t) = civil_day t /\
  1 <= Month t <= 12 /\ 1 <= Day t <= 31.
Proof.
  unfold Year, Month, Day.
  pose proof (days_from_civil_from_days (civil_day t)) as H.
  destruct (civil_from_days (civil_day t)) as [[y m] d]. exact H.
Qed.

Lemma clock_fields t :
  Hour t * 3600 + Minute t * 60 + Second t = localSec t mod 86400.
Proof. unfold Hour, Minute, Second. zdiv. Qed.

Lemma civil_seconds_in_range y mo d h mi s ns :
  1 <= mo <= 12 -> 0 <= ns < 1000000000 ->
  civil_seconds y mo d h mi s ns =
  days_from_civil y mo d * 86400 + h * 3600 + mi * 60 + s.
Proof.
  intros Hm Hn. unfold civil_seconds. cbv zeta.
  replace ((mo - 1) / 12) with 0 by zdiv.
  replace ((mo - 1) mod 12 + 1) with mo by zdiv.
  replace (ns / 1000000000) with 0 by zdiv.
  rewrite !Z.add_0_r, <- (days_from_civil_day y mo 1 (d - 1)).
  replace (1 + (d - 1)) with d by lia. lia.
Qed.

(** [AddDate(0, 0, k)] moves the calendar day by [k]. *)
Lemma civil_day_AddDate t k :
  0 <= nsec t < 1000000000 ->
  civil_day (AddDate t 0 0 k) = civil_day t + k.
Proof.
  intros Hn. unfold AddDate. rewrite civil_day_Date.
  destruct (civil_fields t) as (Hd & Hm & _).
  rewrite civil_seconds_in_range by lia.
  rewrite !Z.add_0_r, days_from_civil_day, Hd.
  pose proof (clock_fields t). zdiv.
Qed.

End gotime_facts.

(** ** Integers, counts, dates and instants *)

Module basics.
Import models database services spec gotime_facts.

Lemma wrap_int_id z : is_int z -> wrap_int z = z.
Proof. unfold is_int, wrap_int. intros H. zdiv. Qed.

Lemma Count_app {A} (f : A -> bool) l1 l2 :
  Count f (l1 ++ l2) = Count f l1 + Count f l2.
Proof. unfold Count. rewrite filter_app, length_app. lia. Qed.

Lemma Count_nonneg {A} (f : A -> bool) l : 0 <= Count f l.
Proof. unfold Count. lia. Qed.

Lemma Count_zero {A} (f : A -> bool) l :
  Count f l = 0 <-> Forall (fun x => f x = false) l.
Proof.
  unfold Count. induction l as [|x l IH]; cbn [filter].
  - split; [constructor | reflexivity].
  - destruct (f x) eqn:E; cbn [List.length].
    + split; [lia | intros H; inversion H; congruence].
    + rewrite IH. split; [constructor; assumption | intros H; inversion H; assumption].
Qed.

Lemma civil_date_of_day t :
  civil_date t = gotime.civil_from_days (gotime.civil_day t).
Proof.
  unfold civil_date, gotime.Year, gotime.Month, gotime.Day.
  destruct (gotime.civil_from_days (gotime.civil_day t)) as [[y m] d].
  reflexivity.
Qed.

Lemma civil_from_days_inj a b :
  gotime.civil_from_days a = gotime.civil_from_days b -> a = b.
Proof.
  intros H. pose proof (days_from_civil_from_days a) as Ha.
  pose proof (days_from_civil_from_days b) as Hb. rewrite H in Ha.
  destruct (gotime.civil_from_days b) as [[y m] d]. lia.
Qed.

Lemma civil_date_eq_day t u :
  civil_date t = civil_date u <-> gotime.civil_day t = gotime.civil_day u.
Proof.
  rewrite !civil_date_of_day. split.
  - apply civil_from_days_inj.
  - intros ->. reflexivity.
Qed.

Lemma civil_date_eqb_eq a b : civil_date_eqb a b = true <-> a = b.
Proof.
  destruct a as [[y1 m1] d1], b as [[y2 m2] d2]. unfold civil_date_eqb.
  rewrite !andb_true_iff, !Z.eqb_eq. split.
  - intros [[-> ->] ->]. reflexivity.
  - intros H. injection H as -> -> ->. auto.
Qed.

(** A date column keeps the calendar date. *)
Lemma civil_date_date_column t : civil_date (date_column t) = civil_date t.
Proof.
  apply civil_date_eq_day. unfold date_column. rewrite civil_day_Date.
  destruct (civil_fields t) as (Hd & Hm & _).
  rewrite civil_seconds_in_range by lia. rewrite Hd. zdiv.
Qed.

Lemma UnixNano_Add t d : gotime.UnixNano (gotime.Add t d) = gotime.UnixNano t + d.
Proof. unfold gotime.UnixNano, gotime.Add. cbn [gotime.unixSec gotime.nsec]. zdiv. Qed.

Lemma valid_time_Add t d : valid_time (gotime.Add t d).
Proof. unfold valid_time, gotime.Add. cbn [gotime.nsec]. zdiv. Qed.

Lemma valid_time_Date y mo d h mi s ns l :
  valid_time (gotime.Date y mo d h mi s ns l).
Proof. unfold valid_time, gotime.Date. cbn [gotime.nsec]. zdiv. Qed.

Lemma After_UnixNano t u :
  valid_time t -> valid_time u ->
  (gotime.After t u = true <-> gotime.UnixNano u < gotime.UnixNano t).
Proof.
  unfold valid_time, gotime.After, gotime.UnixNano. intros Ht Hu.
  rewrite orb_true_iff, andb_true_iff, !Z.ltb_lt, Z.eqb_eq. lia.
Qed.

Lemma Before_UnixNano t u :
  valid_time t -> valid_time u ->
  (gotime.Before t u = true <-> gotime.UnixNano t < gotime.UnixNano u).
Proof.
  unfold valid_time, gotime.Before, gotime.UnixNano. intros Ht Hu.
  rewrite orb_true_iff, andb_true_iff, !Z.ltb_lt, Z.eqb_eq. lia.
Qed.

Lemma valid_time_AddDate t y m d : valid_time (gotime.AddDate t y m d).
Proof. apply valid_time_Date. Qed.

End basics.

(** ** The RSVP deadline *)

Module deadline.
Import models database services spec gotime_facts basics.

(** C5.  For every session date (a valid [time.Time], whatever its location),
    with [D] its calendar date in the club's zone, the computed deadline is
    [time.Date(y, m, d - 3, 23, 59, 59, 0, Sydney)]: it lies in the club's
    zone, its calendar day is three days before [D] and its clock reads
    23:59:59.000000000.  Daylight-saving transitions between the two days play
    no part.  In particular the session dated Sunday 15 June 2025 gets the
    deadline Thursday 12 June 2025, 23:59:59 local time. *)
Theorem CalculateRSVPDeadline_three_days_before (sessionDate : gotime.Time) :
  valid_time sessionDate ->
  let D := gotime.In sessionDate utils.SydneyLocation in
  let deadline := utils.CalculateRSVPDeadline sessionDate in
  (deadline = gotime.Date (gotime.Year D) (gotime.Month D) (gotime.Day D - 3)
                          23 59 59 0 gotime.Sydney /\
   gotime.loc deadline = gotime.Sydney /\
   gotime.civil_day deadline = gotime.civil_day D - 3 /\
   civil_date deadline =
     gotime.civil_from_days
       (gotime.days_from_civil (gotime.Year D) (gotime.Month D) (gotime.Day D)
        - 3) /\
   gotime.Hour deadline = 23 /\ gotime.Minute deadline = 59 /\
   gotime.Second deadline = 59 /\ gotime.nsec deadline = 0) /\
  utils.CalculateRSVPDeadline scenario.june15
  = gotime.Date 2025 6 12 23 59 59 0 gotime.Sydney /\
  gotime.Weekday scenario.june15 = 0 /\
  gotime.Weekday (gotime.Date 2025 6 12 23 59 59 0 gotime.Sydney) = 4 /\
  gotime.Format (utils.CalculateRSVPDeadline scenario.june15)
                gotime.Layout_Display = "Thursday, 12 June 2025"%string.
Proof.
  intros Hv D deadline. split; [|vm_compute; auto].
  assert (Hday : gotime.civil_day (gotime.AddDate D 0 0 (-3))
                 = gotime.civil_day D - 3).
  { rewrite civil_day_AddDate by exact Hv. lia. }
  set (d3 := gotime.AddDate D 0 0 (-3)) in *.
  destruct (civil_fields d3) as (Hd & Hm & _).
  destruct (civil_fields D) as (HD & HM & _).
  assert (HL : gotime.localSec deadline
               = (gotime.civil_day D - 3) * 86400 + 86399).
  { unfold deadline, utils.CalculateRSVPDeadline. fold D. fold d3.
    rewrite localSec_Date_exact; rewrite civil_seconds_in_range by lia;
      rewrite Hd, Hday; [lia | zdiv]. }
  assert (Hcd : gotime.civil_day deadline = gotime.civil_day D - 3).
  { unfold gotime.civil_day at 1. rewrite HL. zdiv. }
  split.
  { unfold deadline, utils.CalculateRSVPDeadline. fold D. fold d3.
    unfold gotime.Date, utils.SydneyLocation. f_equal. f_equal.
    rewrite !civil_seconds_in_range by lia.
    replace (gotime.Day D - 3) with (gotime.Day D + -3) by lia.
    rewrite days_from_civil_day, Hd, HD, Hday. reflexivity. }
  split; [reflexivity|]. split; [exact Hcd|].
  split.
  { rewrite civil_date_of_day, Hcd, HD. reflexivity. }
  unfold gotime.Hour, gotime.Minute, gotime.Second. rewrite HL.
  repeat split; zdiv.
Qed.

(** A session on Tuesday 7 October 2025 (instant 2025-10-06 13:00 UTC):
    daylight saving starts on Sunday 5 October, between the deadline and the
    session. *)
Lemma CalculateRSVPDeadline_three_days_before_witness :
  valid_time (gotime.mkTime 1759755600 0 gotime.UTC) /\
  utils.CalculateRSVPDeadline (gotime.mkTime 1759755600 0 gotime.UTC)
  = gotime.Date 2025 10 4 23 59 59 0 gotime.Sydney /\
  gotime.civil_day
    (utils.CalculateRSVPDeadline (gotime.mkTime 1759755600 0 gotime.UTC))
  = gotime.civil_day
      (gotime.In (gotime.mkTime 1759755600 0 gotime.UTC) utils.SydneyLocation)
    - 3.
Proof.
  split; [unfold valid_time; cbn; lia|].
  split; [vm_compute; reflexivity|].
  apply (CalculateRSVPDeadline_three_days_before
           (gotime.mkTime 1759755600 0 gotime.UTC)).
  unfold valid_time. cbn. lia.
Defined.

End deadline.

(** ** Session reminders *)

Module reminders.
Import models database services spec gotime_facts basics.

Lemma sendSessionReminders_recipients db session label :
  map toUser (sendSessionReminders db session label)
  = map rUserID (filter (rsvp_with (ID session) RSVPStatusIn) (rsvps db)).
Proof. unfold sendSessionReminders. rewrite map_map. reflexivity. Qed.

Lemma parseSessionDateTime_valid session t :
  parseSessionDateTime session = Ok t -> valid_time t.
Proof.
  unfold parseSessionDateTime.
  destruct (gotime.Parse_15_04 (StartTime session)) as [[h m]|]; [|discriminate].
  intros H. injection H as <-. apply valid_time_Date.
Qed.



Example reminder_sent_just_inside_window :
  sendSessionRemindersForWindow
    scenario.db1 (gotime.Add scenario.saturday_1830 (-1)) 24 "24h"
  = [scenario.reminder1].
Proof. vm_compute. reflexivity. Qed.


End reminders.

(** ** Recurring sessions *)

Module recurrence.
Import models database services spec gotime_facts basics.

Lemma civil_day_nthDate i d :
  valid_time d ->
  gotime.civil_day (nthDate i d) = gotime.civil_day d + 7 * Z.of_nat i.
Proof.
  revert d. induction i as [|i IH]; intros d Hv; cbn [nthDate].
  - lia.
  - rewrite IH by apply valid_time_AddDate.
    rewrite civil_day_AddDate by exact Hv. lia.
Qed.

Lemma generateLoop_S k parent wall db d :
  generateLoop (S k) parent wall db d
  = generateLoop k parent wall (turn parent wall db d) (gotime.AddDate d 0 0 7).
Proof. reflexivity. Qed.

Lemma child_on_child_row parent wall id d t :
  child_on t (ID parent) (child_row parent wall id d)
  = civil_date_eqb (civil_date d) (civil_date t).
Proof.
  unfold child_on, session_date_is, child_row, option_uuid_is.
  cbn [SessionDate RecurringParentID]. rewrite civil_date_date_column.
  rewrite N.eqb_refl. apply andb_true_r.
Qed.

Lemma child_on_ext t u pid s :
  civil_date t = civil_date u -> child_on t pid s = child_on u pid s.
Proof. unfold child_on, session_date_is. intros ->. reflexivity. Qed.

Lemma Count_child_on_ext t u pid l :
  civil_date t = civil_date u ->
  Count (child_on t pid) l = Count (child_on u pid) l.
Proof.
  intros H. unfold Count. f_equal. f_equal. apply filter_ext.
  intros s. apply child_on_ext, H.
Qed.

Lemma turn_count parent wall db d t :
  Count (child_on t (ID parent)) (sessions (turn parent wall db d))
  = if (Count (child_on d (ID parent)) (sessions db) =? 0)
       && civil_date_eqb (civil_date d) (civil_date t)
    then 1 else Count (child_on t (ID parent)) (sessions db).
Proof.
  unfold turn.
  destruct (Z.eqb_spec (Count (child_on d (ID parent)) (sessions db)) 0) as [E|N];
    cbn [andb sessions]; [|reflexivity].
  rewrite Count_app. unfold Count at 2. cbn [filter].
  rewrite child_on_child_row.
  destruct (civil_date_eqb (civil_date d) (civil_date t)) eqn:Ed; cbn.
  - apply civil_date_eqb_eq in Ed.
    rewrite <- (Count_child_on_ext d t _ _ Ed), E. reflexivity.
  - lia.
Qed.

(** Counts never decrease in a turn. *)
Lemma turn_count_le parent wall db d t :
  Count (child_on t (ID parent)) (sessions db)
  <= Count (child_on t (ID parent)) (sessions (turn parent wall db d)).
Proof.
  unfold turn. destruct (_ =? 0); cbn [sessions]; [|lia].
  rewrite Count_app. pose proof (Count_nonneg (child_on t (ID parent))
    [child_row parent wall (next_uuid db) d]). lia.
Qed.

Lemma turn_covers parent wall db d :
  1 <= Count (child_on d (ID parent)) (sessions (turn parent wall db d)).
Proof.
  rewrite turn_count.
  destruct (Z.eqb_spec (Count (child_on d (ID parent)) (sessions db)) 0) as [E|N];
    cbn [andb].
  - replace (civil_date_eqb (civil_date d) (civil_date d)) with true; [lia|].
    symmetry. apply civil_date_eqb_eq. reflexivity.
  - pose proof (Count_nonneg (child_on d (ID parent)) (sessions db)). lia.
Qed.

(** A date that the loop does not have to create keeps its count. *)
Lemma generateLoop_count_kept n parent wall : forall db d t,
  (forall j, (j < n)%nat -> civil_date (nthDate j d) = civil_date t ->
             1 <= Count (child_on t (ID parent)) (sessions db)) ->
  Count (child_on t (ID parent)) (sessions (generateLoop n parent wall db d))
  = Count (child_on t (ID parent)) (sessions db).
Proof.
  induction n as [|k IH]; intros db d t H; [reflexivity|].
  rewrite generateLoop_S.
  assert (Ht : Count (child_on t (ID parent)) (sessions (turn parent wall db d))
               = Count (child_on t (ID parent)) (sessions db)).
  { rewrite turn_count.
    destruct (Z.eqb_spec (Count (child_on d (ID parent)) (sessions db)) 0) as [E|N];
      cbn [andb]; [|reflexivity].
    destruct (civil_date_eqb (civil_date d) (civil_date t)) eqn:Ed; [|reflexivity].
    apply civil_date_eqb_eq in Ed.
    specialize (H 0%nat ltac:(lia) Ed).
    rewrite <- (Count_child_on_ext d t _ _ Ed) in H. lia. }
  rewrite IH, Ht; [reflexivity|].
  intros j Hj Hd. rewrite Ht. apply (H (S j)); [lia | exact Hd].
Qed.

Lemma generateLoop_count_le n parent wall : forall db d t,
  Count (child_on t (ID parent)) (sessions db)
  <= Count (child_on t (ID parent)) (sessions (generateLoop n parent wall db d)).
Proof.
  induction n as [|k IH]; intros db d t; [cbn; lia|].
  rewrite generateLoop_S.
  etransitivity; [apply (turn_count_le parent wall db d t) | apply IH].
Qed.

(** After the loop every date of its range has a child. *)
Lemma generateLoop_covers n parent wall : forall db d i,
  (i < n)%nat ->
  1 <= Count (child_on (nthDate i d) (ID parent))
             (sessions (generateLoop n parent wall db d)).
Proof.
  induction n as [|k IH]; intros db d i Hi; [lia|].
  rewrite generateLoop_S. destruct i as [|j]; cbn [nthDate].
  - etransitivity; [apply (turn_covers parent wall db d)|].
    apply generateLoop_count_le.
  - apply IH. lia.
Qed.

(** The loop changes nothing when every date of its range has a child. *)
Lemma generateLoop_noop n parent wall : forall db d,
  (forall i, (i < n)%nat ->
             1 <= Count (child_on (nthDate i d) (ID parent)) (sessions db)) ->
  generateLoop n parent wall db d = db.
Proof.
  induction n as [|k IH]; intros db d H; [reflexivity|].
  rewrite generateLoop_S.
  assert (Ht : turn parent wall db d = db).
  { unfold turn. specialize (H 0%nat ltac:(lia)). cbn [nthDate] in H.
    destruct (Z.eqb_spec (Count (child_on d (ID parent)) (sessions db)) 0);
      [lia | reflexivity]. }
  rewrite Ht. apply IH. intros i Hi. apply (H (S i)). lia.
Qed.

Lemma turn_appends parent wall db d :
  exists new,
    sessions (turn parent wall db d) = sessions db ++ new /\
    rsvps (turn parent wall db d) = rsvps db /\
    Forall (is_child_of parent) new.
Proof.
  unfold turn. destruct (_ =? 0); cbn [sessions rsvps].
  - eexists. split; [reflexivity|]. split; [reflexivity|].
    constructor; [|constructor]. repeat split.
  - exists []. rewrite app_nil_r. repeat split. constructor.
Qed.

(** The loop only appends rows, and every row it appends is a child of
    [parent] that is not itself recurring. *)
Lemma generateLoop_appends n parent wall : forall db d,
  exists new,
    sessions (generateLoop n parent wall db d) = sessions db ++ new /\
    rsvps (generateLoop n parent wall db d) = rsvps db /\
    Forall (is_child_of parent) new.
Proof.
  induction n as [|k IH]; intros db d.
  - exists []. rewrite app_nil_r. repeat split. constructor.
  - rewrite generateLoop_S.
    destruct (turn_appends parent wall db d) as (new1 & E1 & R1 & F1).
    destruct (IH (turn parent wall db d) (gotime.AddDate d 0 0 7))
      as (new2 & E2 & R2 & F2).
    exists (new1 ++ new2). rewrite E2, E1, R2, R1, app_assoc.
    repeat split. apply Forall_app. split; assumption.
Qed.

Lemma nthDate_distinct i j d :
  valid_time d -> civil_date (nthDate i d) = civil_date (nthDate j d) -> i = j.
Proof.
  intros Hv H. apply civil_date_eq_day in H.
  rewrite !civil_day_nthDate in H by exact Hv. lia.
Qed.

(** After the loop, a date of its range has exactly one child when it had
    none, and the children it had otherwise. *)
Lemma generateLoop_count_exact n parent wall : forall db d i,
  valid_time d -> (i < n)%nat ->
  Count (child_on (nthDate i d) (ID parent))
        (sessions (generateLoop n parent wall db d))
  = Z.max 1 (Count (child_on (nthDate i d) (ID parent)) (sessions db)).
Proof.
  induction n as [|k IH]; intros db d i Hv Hi; [lia|].
  rewrite generateLoop_S. destruct i as [|j].
  - cbn [nthDate]. rewrite generateLoop_count_kept.
    + rewrite turn_count.
      pose proof (Count_nonneg (child_on d (ID parent)) (sessions db)).
      destruct (Z.eqb_spec (Count (child_on d (ID parent)) (sessions db)) 0)
        as [E|N]; cbn [andb].
      * replace (civil_date_eqb (civil_date d) (civil_date d)) with true
          by (symmetry; apply civil_date_eqb_eq; reflexivity).
        lia.
      * lia.
    + intros j Hj Hd. exfalso.
      apply (nthDate_distinct (S j) 0 d Hv) in Hd. discriminate.
  - cbn [nthDate]. rewrite IH by (try apply valid_time_AddDate; lia).
    f_equal. change (nthDate j (gotime.AddDate d 0 0 7)) with (nthDate (S j) d).
    rewrite turn_count.
    destruct (civil_date_eqb (civil_date d) (civil_date (nthDate (S j) d)))
      eqn:Ed; [|rewrite andb_false_r; reflexivity].
    apply civil_date_eqb_eq in Ed.
    apply (nthDate_distinct 0 (S j) d Hv) in Ed. discriminate.
Qed.


(** C3.  Generation is idempotent: for every recurring parent and every
    occurrence count, a second run of [generateRecurringSessions] with the
    same count (whatever the clock reads) leaves the tables as the first run
    left them.  No date that already has a child of the parent gets another
    one, and after a run every date of the range has exactly one child of the
    parent when it had none, and the children it had otherwise. *)
Theorem generateRecurringSessions_idempotent db wall wall' parent occurrences :
  let db1 := generateRecurringSessions db wall parent occurrences in
  generateRecurringSessions db1 wall' parent occurrences = db1 /\
  (forall t,
      1 <= Count (child_on t (ID parent)) (sessions db) ->
      Count (child_on t (ID parent)) (sessions db1)
      = Count (child_on t (ID parent)) (sessions db)) /\
  (forall i,
      RecurringDayOfWeek parent <> None ->
      Z.of_nat i < wrap_int (occurrences - 1) ->
      let d := nthDate i (gotime.AddDate (SessionDate parent) 0 0 7) in
      Count (child_on d (ID parent)) (sessions db1)
      = Z.max 1 (Count (child_on d (ID parent)) (sessions db))).
Proof.
  cbv zeta. unfold generateRecurringSessions.
  destruct (RecurringDayOfWeek parent) as [dow|].
  - set (n := Z.to_nat (wrap_int (occurrences - 1))).
    set (d := gotime.AddDate (SessionDate parent) 0 0 7).
    split; [|split].
    + apply generateLoop_noop. intros i Hi. apply generateLoop_covers, Hi.
    + intros t Ht. apply generateLoop_count_kept. intros; exact Ht.
    + intros i _ Hi. apply generateLoop_count_exact.
      * apply valid_time_AddDate.
      * subst n. lia.
  - split; [reflexivity|]. split; [reflexivity|]. intros i H. congruence.
Qed.

(** Twice four occurrences from the parent of Sunday 15 June 2025: the three
    children of 22 June, 29 June and 6 July, once. *)
Lemma generateRecurringSessions_idempotent_witness :
  generateRecurringSessions
    (generateRecurringSessions scenario.db_parent scenario.june1
                               scenario.parent1 4)
    scenario.friday scenario.parent1 4
  = generateRecurringSessions scenario.db_parent scenario.june1
                              scenario.parent1 4 /\
  map (fun s => gotime.Format (SessionDate s) gotime.Layout_DateOnly)
      (sessions (generateRecurringSessions scenario.db_parent scenario.june1
                                           scenario.parent1 4))
  = ["2025-06-15"; "2025-06-22"; "2025-06-29"; "2025-07-06"]%string.
Proof.
  split.
  - apply (generateRecurringSessions_idempotent
             scenario.db_parent scenario.june1 scenario.friday
             scenario.parent1 4).
  - vm_compute. reflexivity.
Defined.

Lemma generateRecurringSessions_appends db wall parent occurrences :
  exists new,
    sessions (generateRecurringSessions db wall parent occurrences)
    = sessions db ++ new /\
    rsvps (generateRecurringSessions db wall parent occurrences) = rsvps db /\
    Forall (is_child_of parent) new.
Proof.
  unfold generateRecurringSessions.
  destruct (RecurringDayOfWeek parent).
  - apply generateLoop_appends.
  - exists []. rewrite app_nil_r. repeat split. constructor.
Qed.

Lemma refresh_fold_appends wall ps : forall cur,
  exists new,
    sessions (fold_left (fun d p => generateRecurringSessions d wall p 4) ps cur)
    = sessions cur ++ new /\
    Forall (fun c => exists p, List.In p ps /\ is_child_of p c) new.
Proof.
  induction ps as [|p ps IH]; intros cur; cbn [fold_left].
  - exists []. rewrite app_nil_r. split; [reflexivity | constructor].
  - destruct (generateRecurringSessions_appends cur wall p 4)
      as (new1 & E1 & _ & F1).
    destruct (IH (generateRecurringSessions cur wall p 4)) as (new2 & E2 & F2).
    exists (new1 ++ new2). rewrite E2, E1, app_assoc. split; [reflexivity|].
    apply Forall_app. split.
    + eapply Forall_impl; [|exact F1]. intros c Hc. exists p.
      split; [left; reflexivity | exact Hc].
    + eapply Forall_impl; [|exact F2]. intros c (q & Hq & Hc).
      exists q. split; [right; exact Hq | exact Hc].
Qed.

Lemma recurring_open_true s :
  recurring_open s = true <->
  IsRecurring s = true /\ Status s = SessionStatusOpen.
Proof.
  unfold recurring_open. rewrite andb_true_iff, String.eqb_eq.
  destruct (IsRecurring s); cbn; intuition congruence.
Qed.

(** C10.  Every session that recurrence generation creates is not recurring
    and carries the identifier of its parent.  The maintenance sweep takes as
    parents the sessions with [is_recurring = true] and status open only:
    every session it creates is a child of such a session of the tables it
    started from, no created session is selected by the sweep's query, and
    the selection is the same after the sweep as before.  Generation does not
    cascade. *)
Theorem generated_children_are_never_parents db wall :
  (forall parent occurrences,
      exists children,
        sessions (generateRecurringSessions db wall parent occurrences)
        = sessions db ++ children /\
        Forall (fun c => IsRecurring c = false /\
                         RecurringParentID c = Some (ID parent)) children) /\
  (exists children,
      sessions (RefreshRecurringSessions db wall) = sessions db ++ children /\
      Forall (fun c =>
                IsRecurring c = false /\ recurring_open c = false /\
                exists p, List.In p (sessions db) /\ IsRecurring p = true /\
                          Status p = SessionStatusOpen /\
                          RecurringParentID c = Some (ID p)) children) /\
  filter recurring_open (sessions (RefreshRecurringSessions db wall))
  = filter recurring_open (sessions db).
Proof.
  assert (R : exists children,
      sessions (RefreshRecurringSessions db wall) = sessions db ++ children /\
      Forall (fun c =>
                IsRecurring c = false /\ recurring_open c = false /\
                exists p, List.In p (sessions db) /\ IsRecurring p = true /\
                          Status p = SessionStatusOpen /\
                          RecurringParentID c = Some (ID p)) children).
  { unfold RefreshRecurringSessions.
    destruct (refresh_fold_appends wall (filter recurring_open (sessions db)) db)
      as (new & E & F).
    exists new. split; [exact E|].
    eapply Forall_impl; [|exact F]. intros c (p & Hp & Hr & Hid & _).
    apply filter_In in Hp as (Hin & Hsel).
    apply recurring_open_true in Hsel as (Hrec & Hopen).
    split; [exact Hr|]. split.
    - unfold recurring_open. rewrite Hr. reflexivity.
    - exists p. auto. }
  split; [|split; [exact R|]].
  - intros parent occurrences.
    destruct (generateRecurringSessions_appends db wall parent occurrences)
      as (new & E & _ & F).
    exists new. split; [exact E|].
    eapply Forall_impl; [|exact F]. intros c (Hr & Hid & _). auto.
  - destruct R as (children & E & F). rewrite E, filter_app.
    replace (filter recurring_open children) with (@nil Session).
    + apply app_nil_r.
    + symmetry. clear E. induction F as [|c l (_ & Hc & _) _ IH]; cbn [filter].
      * reflexivity.
      * rewrite Hc. exact IH.
Qed.


(** The decrement of the least [int] wraps to the greatest: the loop then
    does run, and creates the child of the first date. *)
Lemma least_int_occurrences_wrap :
  Count (child_on (gotime.AddDate (SessionDate scenario.parent1) 0 0 7) 1%N)
        (sessions scenario.db_parent) = 0 /\
  1 <= Count (child_on (gotime.AddDate (SessionDate scenario.parent1) 0 0 7)
                       1%N)
             (sessions (generateRecurringSessions
                          scenario.db_parent scenario.june1 scenario.parent1
                          (- 2 ^ 63))).
Proof.
  split; [vm_compute; reflexivity|].
  unfold generateRecurringSessions. cbn [RecurringDayOfWeek scenario.parent1].
  replace (wrap_int (- 2 ^ 63 - 1)) with (2 ^ 63 - 1)
    by (vm_compute; reflexivity).
  apply (generateLoop_covers _ scenario.parent1 scenario.june1
           scenario.db_parent
           (gotime.AddDate (SessionDate scenario.parent1) 0 0 7) 0%nat).
  lia.
Qed.




End recurrence.

(** ** Courts and capacity *)

Module capacity.
Import models database services spec.

Lemma courts_check c :
  ((c <? 1) || (3 <? c) = true <-> c < 1 \/ 3 < c).
Proof. rewrite orb_true_iff, !Z.ltb_lt. reflexivity. Qed.

(** C6.  One, two and three courts give 6, 10 and 16 players.  Creating a
    session with a court count outside 1..3 fails with the validation error
    and leaves the tables as they were; so does updating an existing session
    (an update of a session that does not exist fails as well, with the
    not-found error, and changes nothing).  An accepted creation or update
    stores the capacity derived from its court count. *)
Theorem courts_capacity_and_validation :
  (MaxPlayersForCourts 1 = 6 /\ MaxPlayersForCourts 2 = 10 /\
   MaxPlayersForCourts 3 = 16) /\
  (forall db wall input,
      ciCourts input < 1 \/ 3 < ciCourts input ->
      CreateSession db wall input = (db, Err ErrValidationCourts)) /\
  (forall db wall id input c session,
      First (fun s => N.eqb (ID s) id) (sessions db) = Some session ->
      uiCourts input = Some c -> c < 1 \/ 3 < c ->
      UpdateSession db wall id input = (db, Err ErrValidationCourts)) /\
  (forall db wall id input c,
      uiCourts input = Some c -> c < 1 \/ 3 < c ->
      exists e, UpdateSession db wall id input = (db, Err e)) /\
  (forall db wall input db' s,
      CreateSession db wall input = (db', Ok s) ->
      1 <= Courts s <= 3 /\ MaxPlayers s = MaxPlayersForCourts (Courts s)) /\
  (forall db wall id input c db' s,
      UpdateSession db wall id input = (db', Ok s) ->
      uiCourts input = Some c ->
      1 <= c <= 3 /\ Courts s = c /\ MaxPlayers s = MaxPlayersForCourts c).
Proof.
  split; [repeat split|].
  split.
  { intros db wall input H. unfold CreateSession.
    apply courts_check in H. rewrite H. reflexivity. }
  split.
  { intros db wall id input c session Hs Hc H. unfold UpdateSession.
    rewrite Hs, Hc. apply courts_check in H. rewrite H. reflexivity. }
  split.
  { intros db wall id input c Hc H. unfold UpdateSession.
    destruct (First _ (sessions db)); [|eexists; reflexivity].
    rewrite Hc. apply courts_check in H. rewrite H. eexists; reflexivity. }
  split.
  { intros db wall input db' s. unfold CreateSession.
    destruct ((ciCourts input <? 1) || (3 <? ciCourts input)) eqn:E;
      [discriminate|].
    apply orb_false_iff in E as [E1 E2]. apply Z.ltb_ge in E1, E2.
    unfold CreateSessionRow. cbn [ID Courts]. intros H. injection H as _ <-.
    cbn [Courts MaxPlayers]. split; [lia | reflexivity]. }
  { intros db wall id input c db' s. unfold UpdateSession.
    destruct (First _ (sessions db)) as [session|]; [|discriminate].
    intros H Hc. rewrite Hc in H. cbn [or_keep] in H.
    destruct ((c <? 1) || (3 <? c)) eqn:E; [discriminate|].
    apply orb_false_iff in E as [E1 E2]. apply Z.ltb_ge in E1, E2.
    injection H as _ <-. cbn [Courts MaxPlayers].
    split; [lia|]. split; reflexivity. }
Qed.

Lemma courts_capacity_and_validation_witness :
  (ciCourts scenario.four_courts < 1 \/ 3 < ciCourts scenario.four_courts) /\
  CreateSession scenario.db1 scenario.june1 scenario.four_courts
  = (scenario.db1, Err ErrValidationCourts).
Proof.
  split; [right; cbn; lia|].
  apply (proj1 (proj2 courts_capacity_and_validation)).
  right. cbn. lia.
Defined.

End capacity.

(** ** The RSVP engine *)

Module rsvp_engine.
Import models database services spec basics.

(** The lock-in branch of the upsert is never taken: a late member is turned
    away by the deadline check that comes first. *)
Lemma CreateOrUpdateRSVP_never_locked_in db wall input byAdmin :
  snd (CreateOrUpdateRSVP db wall input byAdmin) <> Err ErrLockedIn.
Proof.
  unfold CreateOrUpdateRSVP.
  destruct (First _ (sessions db)) as [session|]; [|cbn [snd]; discriminate].
  destruct (negb (String.eqb (Status session) SessionStatusOpen));
    [cbn [snd]; discriminate|].
  destruct (negb byAdmin && gotime.After (utils.NowInSydney wall)
                                         (RSVPDeadline session)) eqn:Hlate;
    [cbn [snd]; discriminate|].
  destruct (First _ (rsvps db)) as [rsvp|].
  - cbn [andb]. unfold SaveRSVPRow. destruct (existsb _ _); cbn [snd]; discriminate.
  - unfold CreateRSVPRow. cbn [snd]. discriminate.
Qed.


(** The sibling operation does reach its lock-in check. *)
Lemma DeleteRSVP_locked_in db wall sessionID userID session rsvp :
  First (fun s => N.eqb (ID s) sessionID) (sessions db) = Some session ->
  First (rsvp_of sessionID userID) (rsvps db) = Some rsvp ->
  rStatus rsvp = RSVPStatusIn ->
  gotime.After (utils.NowInSydney wall) (RSVPDeadline session) = true ->
  DeleteRSVP db wall sessionID userID false = (db, Some ErrRemoveLockedIn).
Proof.
  intros Hs Hr Hi Hl. unfold DeleteRSVP. rewrite Hs, Hr, Hl, Hi. reflexivity.
Qed.

(** C1, evaluated.  On Friday 13 June 2025, after the deadline of Thursday
    12 June 23:59:59, user 7 holds an [in] RSVP for the open session 1.  The
    member's upsert to [out] fails, with the deadline error of the first
    check and not with the lock-in error; the removal of the same RSVP by the
    member does fail with its lock-in error; the admin's upsert with the same
    arguments succeeds and the row reads [out]. *)
Theorem lock_in_scenario :
  gotime.After (utils.NowInSydney scenario.friday)
               (RSVPDeadline scenario.session1) = true /\
  First (rsvp_of 1%N 7%N) (rsvps scenario.db1) = Some scenario.rsvp_in /\
  rStatus scenario.rsvp_in = RSVPStatusIn /\
  CreateOrUpdateRSVP scenario.db1 scenario.friday scenario.downgrade false
  = (scenario.db1, Err ErrDeadlinePassed) /\
  ErrDeadlinePassed <> ErrLockedIn /\
  DeleteRSVP scenario.db1 scenario.friday 1%N 7%N false
  = (scenario.db1, Some ErrRemoveLockedIn) /\
  exists db' r,
    CreateOrUpdateRSVP scenario.db1 scenario.friday scenario.downgrade true
    = (db', Ok r) /\
    rStatus r = RSVPStatusOut /\ AddedByAdmin r = true /\
    map rStatus (rsvps db') = [RSVPStatusOut].
Proof.
  split; [vm_compute; reflexivity|].
  split; [vm_compute; reflexivity|].
  split; [reflexivity|].
  split; [vm_compute; reflexivity|].
  split; [discriminate|].
  split; [vm_compute; reflexivity|].
  eexists _, _. split; [vm_compute; reflexivity|]. repeat split.
Qed.

Lemma unique_by_id (l : list RSVP) x y :
  NoDup (map rID l) -> List.In x l -> List.In y l -> rID x = rID y -> x = y.
Proof.
  induction l as [|a l IH]; intros Hn Hx Hy E; [destruct Hx|].
  cbn [map] in Hn. inversion Hn as [|? ? Hni Hn']; subst.
  destruct Hx as [<-|Hx], Hy as [<-|Hy].
  - reflexivity.
  - exfalso. apply Hni. rewrite E. apply in_map, Hy.
  - exfalso. apply Hni. rewrite <- E. apply in_map, Hx.
  - apply IH; assumption.
Qed.

Lemma Forall2_map_same {A} (R : A -> A -> Prop) (f : A -> A) l :
  (forall x, List.In x l -> R x (f x)) -> Forall2 R l (map f l).
Proof.
  induction l as [|a l IH]; intros H; cbn [map]; constructor.
  - apply H. left. reflexivity.
  - apply IH. intros x Hx. apply H. right. exact Hx.
Qed.

Lemma Forall2_same {A} (R : A -> A -> Prop) l :
  (forall x, R x x) -> Forall2 R l l.
Proof. intros H. induction l; constructor; auto. Qed.

Lemma updated_in_place_refl target status wall byAdmin x :
  updated_in_place target status wall byAdmin x x.
Proof. unfold updated_in_place. repeat split. left. reflexivity. Qed.

Lemma reload_saved db wall r :
  List.In r (rsvps db) ->
  let out := SaveRSVPRow db wall r in
  reload (fst out) (snd out) = snd out.
Proof.
  intros Hin. unfold SaveRSVPRow.
  replace (existsb (fun x => N.eqb (rID x) (rID r)) (rsvps db)) with true.
  2:{ symmetry. apply existsb_exists. exists r. split; [exact Hin | apply N.eqb_refl]. }
  cbn [fst snd]. unfold reload, First. cbn [rsvps rID].
  induction (rsvps db) as [|a l IH]; [destruct Hin|].
  cbn [map find]. destruct (N.eqb (rID a) (rID r)) eqn:E.
  - cbn [rID]. rewrite N.eqb_refl. reflexivity.
  - rewrite E. destruct Hin as [->|Hin]; [rewrite N.eqb_refl in E; discriminate|].
    apply IH, Hin.
Qed.

(** An admin's upsert on an open session with an existing RSVP succeeds,
    whatever the deadline, and the RSVP returned carries the new status and
    the admin mark. *)
Lemma admin_upsert_succeeds db wall input session rsvp :
  First (fun s => N.eqb (ID s) (inSessionID input)) (sessions db)
  = Some session ->
  Status session = SessionStatusOpen ->
  First (rsvp_of (inSessionID input) (inUserID input)) (rsvps db)
  = Some rsvp ->
  exists db' r,
    CreateOrUpdateRSVP db wall input true = (db', Ok r) /\
    rStatus r = inStatus input /\ AddedByAdmin r = true /\
    RSVPTimestamp r = RSVPTimestamp rsvp.
Proof.
  intros Hs Ho Hr. unfold CreateOrUpdateRSVP. rewrite Hs, Ho, Hr.
  cbn [String.eqb negb andb].
  replace (String.eqb SessionStatusOpen SessionStatusOpen) with true
    by reflexivity.
  cbn [negb].
  pose proof (find_some _ _ Hr) as [Hin _].
  pose proof (reload_saved db wall
                (mkRSVP (rID rsvp) (rSessionID rsvp) (rUserID rsvp)
                        (inStatus input) (RSVPTimestamp rsvp)
                        (IsLateRSVP rsvp) true (rCreatedAt rsvp) wall)) as Hre.
  cbv zeta in Hre.
  destruct (SaveRSVPRow db wall _) as [db' r'] eqn:Hsave.
  exists db', r'. cbn [fst snd] in Hre.
  assert (Hr' : r' = mkRSVP (rID rsvp) (rSessionID rsvp) (rUserID rsvp)
                        (inStatus input) (RSVPTimestamp rsvp)
                        (IsLateRSVP rsvp) true (rCreatedAt rsvp) wall).
  { unfold SaveRSVPRow in Hsave. destruct (existsb _ _); injection Hsave as _ <-;
      reflexivity. }
  assert (Hex : existsb (fun x => N.eqb (rID x) (rID rsvp)) (rsvps db) = true).
  { apply existsb_exists. exists rsvp. split; [exact Hin | apply N.eqb_refl]. }
  assert (Hrel : reload db' r' = r').
  { unfold SaveRSVPRow in Hsave. cbn [rID] in Hsave. rewrite Hex in Hsave.
    injection Hsave as <- <-. unfold reload, First. cbn [rsvps rID].
    clear Hre Hex Hr. induction (rsvps db) as [|a l IH]; [destruct Hin|].
    cbn [map find]. destruct (N.eqb (rID a) (rID rsvp)) eqn:E.
    - cbn [rID]. rewrite N.eqb_refl. reflexivity.
    - rewrite E. destruct Hin as [->|Hin];
        [rewrite N.eqb_refl in E; discriminate|]. apply IH, Hin. }
  rewrite Hrel, Hr'. repeat split.
Qed.

(** C9.  When the caller already has an RSVP for the session (and
    identifiers are unique, as the primary key makes them), an upsert leaves
    the session table alone and maps every RSVP row to a row with the same
    identifier, session, user, creation time, [rsvp_timestamp] and
    [is_late_rsvp]; only the caller's row may differ from what it was, in its
    status, its update time and, for an admin, its admin mark.  The RSVP a
    successful upsert returns has the original timestamp and lateness. *)
Theorem upsert_keeps_creation_fields db wall input byAdmin rsvp :
  NoDup (map rID (rsvps db)) ->
  First (rsvp_of (inSessionID input) (inUserID input)) (rsvps db) = Some rsvp ->
  let out := CreateOrUpdateRSVP db wall input byAdmin in
  sessions (fst out) = sessions db /\
  Forall2 (updated_in_place rsvp (inStatus input) wall byAdmin)
          (rsvps db) (rsvps (fst out)) /\
  (forall r,
      snd out = Ok r ->
      rID r = rID rsvp /\ RSVPTimestamp r = RSVPTimestamp rsvp /\
      IsLateRSVP r = IsLateRSVP rsvp /\ rStatus r = inStatus input /\
      rUpdatedAt r = wall /\
      AddedByAdmin r = (byAdmin || AddedByAdmin rsvp)).
Proof.
  intros Hnd Hfound. cbv zeta.
  assert (Hsame : sessions db = sessions db /\
                  Forall2 (updated_in_place rsvp (inStatus input) wall byAdmin)
                          (rsvps db) (rsvps db)).
  { split; [reflexivity|]. apply Forall2_same. intros x.
    apply updated_in_place_refl. }
  pose proof (find_some _ _ Hfound) as [Hin _].
  unfold CreateOrUpdateRSVP.
  destruct (First _ (sessions db)) as [session|];
    [|cbn [fst snd]; split; [|split]; try apply Hsame; discriminate].
  destruct (negb (String.eqb (Status session) SessionStatusOpen));
    [cbn [fst snd]; split; [|split]; try apply Hsame; discriminate|].
  destruct (negb byAdmin && gotime.After _ _);
    [cbn [fst snd]; split; [|split]; try apply Hsame; discriminate|].
  rewrite Hfound.
  destruct (_ && negb (String.eqb (inStatus input) RSVPStatusIn));
    [cbn [fst snd]; split; [|split]; try apply Hsame; discriminate|].
  set (rsvp1 := mkRSVP _ _ _ _ _ _ _ _ _).
  assert (Hin1 : existsb (fun x => N.eqb (rID x) (rID rsvp1)) (rsvps db) = true).
  { apply existsb_exists. exists rsvp. split; [exact Hin | apply N.eqb_refl]. }
  pose proof (reload_saved db wall rsvp) as Hre.
  destruct (SaveRSVPRow db wall rsvp1) as [db' rsvp'] eqn:Hsave.
  unfold SaveRSVPRow in Hsave. rewrite Hin1 in Hsave.
  injection Hsave as <- <-. cbn [fst snd sessions rsvps].
  split; [reflexivity|]. split.
  - apply Forall2_map_same. intros x Hx. cbn [rID rsvp1].
    destruct (N.eqb_spec (rID x) (rID rsvp)) as [E|N];
      [|apply updated_in_place_refl].
    assert (x = rsvp) by (apply (unique_by_id (rsvps db)); assumption).
    subst x. unfold updated_in_place. cbn. repeat split. right.
    repeat split.
  - intros r Hr. injection Hr as <-.
    unfold reload, First. cbn [rsvps rID rsvp1].
    clear Hre Hsame Hin1.
    assert (Hfind : find (fun x => N.eqb (rID x) (rID rsvp))
              (map (fun x => if N.eqb (rID x) (rID rsvp)
                             then mkRSVP (rID rsvp) (rSessionID rsvp) (rUserID rsvp)
                                    (inStatus input) (RSVPTimestamp rsvp)
                                    (IsLateRSVP rsvp)
                                    (if byAdmin then true else AddedByAdmin rsvp)
                                    (rCreatedAt rsvp) wall
                             else x) (rsvps db))
            = Some (mkRSVP (rID rsvp) (rSessionID rsvp) (rUserID rsvp)
                                    (inStatus input) (RSVPTimestamp rsvp)
                                    (IsLateRSVP rsvp)
                                    (if byAdmin then true else AddedByAdmin rsvp)
                                    (rCreatedAt rsvp) wall)).
    { clear Hnd Hfound. induction (rsvps db) as [|a l IH]; [destruct Hin|].
      cbn [map find]. destruct (N.eqb (rID a) (rID rsvp)) eqn:E.
      - cbn [rID]. rewrite N.eqb_refl. reflexivity.
      - rewrite E. destruct Hin as [->|Hin];
          [rewrite N.eqb_refl in E; discriminate|]. apply IH, Hin. }
    rewrite Hfind. cbn. repeat split.
Qed.

Lemma upsert_keeps_creation_fields_witness :
  NoDup (map rID (rsvps scenario.db1)) /\
  First (rsvp_of (inSessionID scenario.downgrade) (inUserID scenario.downgrade))
        (rsvps scenario.db1) = Some scenario.rsvp_in /\
  Forall2 (updated_in_place scenario.rsvp_in RSVPStatusOut scenario.friday true)
          (rsvps scenario.db1)
          (rsvps (fst (CreateOrUpdateRSVP scenario.db1 scenario.friday
                                          scenario.downgrade true))).
Proof.
  assert (H : NoDup (map rID (rsvps scenario.db1))).
  { cbn. constructor; [intros [] | constructor]. }
  split; [exact H|]. split; [reflexivity|].
  apply (upsert_keeps_creation_fields
           scenario.db1 scenario.friday scenario.downgrade true
           scenario.rsvp_in H).
  reflexivity.
Defined.

Lemma Count_count_status sid status rows :
  Count (rsvp_with sid status) rows = count_status sid status rows.
Proof.
  unfold Count. induction rows as [|r rows IH]; [reflexivity|].
  cbn [filter count_status]. rewrite <- IH. unfold rsvp_with at 1.
  destruct (N.eqb (rSessionID r) sid), (String.eqb (rStatus r) status);
    cbn [andb List.length]; lia.
Qed.

Lemma count_status_Permutation sid status rows rows' :
  Permutation rows rows' ->
  count_status sid status rows = count_status sid status rows'.
Proof. intros Hp. induction Hp; cbn [count_status]; lia. Qed.

(** C8.  For a session of the table (with a capacity that keeps the
    subtraction within [int]), [GetRSVPSummary] returns the counts of the
    session's RSVPs with status in, out and maybe and
    [spotsLeft = max(0, max_players - countIn)].  The result is a function of
    the rows alone (the operation returns no new tables and reads no counter),
    and it does not depend on the order of the rows. *)
Theorem GetRSVPSummary_is_summarize db sessionID session :
  First (fun s => N.eqb (ID s) sessionID) (sessions db) = Some session ->
  is_int (MaxPlayers session - count_status sessionID RSVPStatusIn (rsvps db)) ->
  GetRSVPSummary db sessionID = Ok (summarize session (rsvps db)) /\
  SpotsLeft (summarize session (rsvps db))
  = Z.max 0 (MaxPlayers session - TotalIn (summarize session (rsvps db))) /\
  forall rows', Permutation (rsvps db) rows' ->
                summarize session (rsvps db) = summarize session rows'.
Proof.
  intros Hs Hi.
  pose proof (find_some _ _ Hs) as [_ Hid]. apply N.eqb_eq in Hid.
  split; [|split].
  - unfold GetRSVPSummary. rewrite Hs. rewrite !Count_count_status.
    rewrite (wrap_int_id _ Hi). unfold summarize. rewrite Hid.
    f_equal. f_equal.
    destruct (Z.ltb_spec (MaxPlayers session
                          - count_status sessionID RSVPStatusIn (rsvps db)) 0); lia.
  - reflexivity.
  - intros rows' Hp. unfold summarize.
    rewrite !(count_status_Permutation _ _ _ _ Hp). reflexivity.
Qed.

Lemma GetRSVPSummary_is_summarize_witness :
  First (fun s => N.eqb (ID s) 1%N) (sessions scenario.db_waitlist)
  = Some scenario.session1 /\
  is_int (MaxPlayers scenario.session1
          - count_status 1%N RSVPStatusIn (rsvps scenario.db_waitlist)) /\
  GetRSVPSummary scenario.db_waitlist 1%N
  = Ok (summarize scenario.session1 (rsvps scenario.db_waitlist)) /\
  summarize scenario.session1 (rsvps scenario.db_waitlist)
  = mkRSVPSummary 8 0 3 10 2.
Proof.
  assert (Hi : is_int (MaxPlayers scenario.session1
                       - count_status 1%N RSVPStatusIn
                                      (rsvps scenario.db_waitlist))).
  { unfold is_int. vm_compute. split; [discriminate | reflexivity]. }
  split; [reflexivity|]. split; [exact Hi|].
  split; [|vm_compute; reflexivity].
  apply (GetRSVPSummary_is_summarize
           scenario.db_waitlist 1%N scenario.session1 eq_refl Hi).
Defined.

End rsvp_engine.

(** ** Waitlist notifications *)

Module waitlist.
Import models database services spec basics.

Lemma Before_false t u :
  gotime.Before t u = false <->
  gotime.unixSec u < gotime.unixSec t \/
  (gotime.unixSec u = gotime.unixSec t /\ gotime.nsec u <= gotime.nsec t).
Proof.
  unfold gotime.Before.
  rewrite orb_false_iff, andb_false_iff, !Z.ltb_ge, Z.eqb_neq. lia.
Qed.

Lemma ts_le_trans a b c : ts_le a b -> ts_le b c -> ts_le a c.
Proof. unfold ts_le. rewrite !Before_false. lia. Qed.

Lemma ts_le_total a b : ts_le a b \/ ts_le b a.
Proof. unfold ts_le. rewrite !Before_false. lia. Qed.

Lemma insert_by_timestamp_Permutation r l :
  Permutation (insert_by_timestamp r l) (r :: l).
Proof.
  induction l as [|x l IH]; cbn [insert_by_timestamp]; [reflexivity|].
  destruct (gotime.Before (RSVPTimestamp x) (RSVPTimestamp r)).
  - rewrite IH. apply perm_swap.
  - reflexivity.
Qed.

Lemma OrderByRSVPTimestamp_Permutation l :
  Permutation (OrderByRSVPTimestamp l) l.
Proof.
  unfold OrderByRSVPTimestamp. induction l as [|r l IH]; cbn [fold_right].
  - reflexivity.
  - rewrite insert_by_timestamp_Permutation. constructor. exact IH.
Qed.

Lemma insert_by_timestamp_sorted r l :
  StronglySorted ts_le l -> StronglySorted ts_le (insert_by_timestamp r l).
Proof.
  induction 1 as [|x l Hs IH Hall]; cbn [insert_by_timestamp].
  - constructor; constructor.
  - destruct (gotime.Before (RSVPTimestamp x) (RSVPTimestamp r)) eqn:E.
    + constructor; [exact IH|].
      assert (Hxr : ts_le x r).
      { destruct (ts_le_total x r) as [H|H]; [exact H|].
        unfold ts_le in H. congruence. }
      eapply Permutation_Forall;
        [symmetry; apply insert_by_timestamp_Permutation|].
      constructor; assumption.
    + constructor; [constructor; assumption|].
      constructor; [exact E|].
      eapply Forall_impl; [|exact Hall]. intros y Hy.
      apply (ts_le_trans r x y); assumption.
Qed.

Lemma OrderByRSVPTimestamp_sorted l :
  StronglySorted ts_le (OrderByRSVPTimestamp l).
Proof.
  unfold OrderByRSVPTimestamp. induction l as [|r l IH]; cbn [fold_right].
  - constructor.
  - apply insert_by_timestamp_sorted, IH.
Qed.




(** The specification's scenario: nine confirmed players out of ten and one
    waiting member, who is the one notified. *)
Example one_spot_one_notification :
  Count (rsvp_with 1%N RSVPStatusIn) (rsvps scenario.db_one_spot) = 9 /\
  map toUser (SendWaitlistUpdate scenario.db_one_spot scenario.session1)
  = [11%N].
Proof. split; vm_compute; reflexivity. Qed.

End waitlist.

(** ** The days of the club's calendar *)

Module sydney_days.
Import models database services spec spec_more gotime_facts basics.



Lemma In_Sydney_self t :
  gotime.loc t = gotime.Sydney -> gotime.In t utils.SydneyLocation = t.
Proof. destruct t as [s n l]. cbn. intros ->. reflexivity. Qed.

Lemma localSec_Sydney t :
  gotime.localSec (gotime.In t utils.SydneyLocation)
  = gotime.unixSec t + gotime.offset (gotime.sydney_lookup (gotime.unixSec t)).
Proof. reflexivity. Qed.

(** The reading of a civil date and clock outside the skipped hour, in the
    club's zone. *)
Lemma Date_Sydney_reading y m d h mi s ns :
  1 <= m <= 12 -> 0 <= ns < 1000000000 ->
  0 <= h * 3600 + mi * 60 + s < 86400 ->
  ~ (7200 <= h * 3600 + mi * 60 + s < 10800) ->
  let t := gotime.Date y m d h mi s ns gotime.Sydney in
  gotime.localSec t
  = gotime.days_from_civil y m d * 86400 + h * 3600 + mi * 60 + s /\
  gotime.civil_day t = gotime.days_from_civil y m d /\
  gotime.nsec t = ns.
Proof.
  intros Hm Hn Hc Hg t.
  assert (HL : gotime.localSec t
               = gotime.days_from_civil y m d * 86400 + h * 3600 + mi * 60 + s).
  { unfold t. rewrite localSec_Date_exact;
      rewrite civil_seconds_in_range by assumption; [reflexivity | zdiv]. }
  split; [exact HL|]. split.
  - unfold gotime.civil_day. rewrite HL. zdiv.
  - unfold t, gotime.Date. cbn [gotime.nsec]. zdiv.
Qed.

Lemma offset_values u :
  gotime.offset (gotime.sydney_lookup u) = 36000 \/
  gotime.offset (gotime.sydney_lookup u) = 39600.
Proof. exact (sydney_offset_cases u). Qed.

Lemma StartOfDay_reading t :
  let s := utils_days.StartOfDay t in
  gotime.localSec s = gotime.civil_day (gotime.In t utils.SydneyLocation) * 86400 /\
  gotime.civil_day s = gotime.civil_day (gotime.In t utils.SydneyLocation) /\
  gotime.nsec s = 0 /\ gotime.loc s = gotime.Sydney.
Proof.
  cbv zeta. unfold utils_days.StartOfDay.
  set (D := gotime.In t utils.SydneyLocation).
  destruct (civil_fields D) as (HD & HM & _).
  destruct (Date_Sydney_reading (gotime.Year D) (gotime.Month D) (gotime.Day D)
              0 0 0 0) as (H1 & H2 & H3); try lia.
  unfold utils.SydneyLocation. rewrite H1, H2, H3, HD.
  repeat split; lia.
Qed.

Lemma EndOfDay_reading t :
  let e := utils_days.EndOfDay t in
  gotime.localSec e
  = gotime.civil_day (gotime.In t utils.SydneyLocation) * 86400 + 86399 /\
  gotime.civil_day e = gotime.civil_day (gotime.In t utils.SydneyLocation) /\
  gotime.nsec e = 999999999 /\ gotime.loc e = gotime.Sydney.
Proof.
  cbv zeta. unfold utils_days.EndOfDay.
  set (D := gotime.In t utils.SydneyLocation).
  destruct (civil_fields D) as (HD & HM & _).
  destruct (Date_Sydney_reading (gotime.Year D) (gotime.Month D) (gotime.Day D)
              23 59 59 999999999) as (H1 & H2 & H3); try lia.
  unfold utils.SydneyLocation. rewrite H1, H2, H3, HD.
  repeat split; lia.
Qed.






Lemma civil_fields_of_day t u :
  gotime.civil_day t = gotime.civil_day u ->
  gotime.Year t = gotime.Year u /\ gotime.Month t = gotime.Month u /\
  gotime.Day t = gotime.Day u.
Proof. unfold gotime.Year, gotime.Month, gotime.Day. intros ->. auto. Qed.

Lemma StartOfDay_of_day t u :
  gotime.civil_day (gotime.In t utils.SydneyLocation)
  = gotime.civil_day (gotime.In u utils.SydneyLocation) ->
  utils_days.StartOfDay t = utils_days.StartOfDay u /\
  utils_days.EndOfDay t = utils_days.EndOfDay u.
Proof.
  intros H. apply civil_fields_of_day in H as (Hy & Hm & Hd).
  unfold utils_days.StartOfDay, utils_days.EndOfDay. rewrite Hy, Hm, Hd. auto.
Qed.

(** X2.  [StartOfDay] and [EndOfDay] depend on the calendar day in the
    club's zone only, and their results lie in that day: applying either of
    them after either of them gives what the outer one gives on the time
    itself. *)
Theorem StartOfDay_EndOfDay_compose (t : gotime.Time) :
  utils_days.StartOfDay (utils_days.StartOfDay t) = utils_days.StartOfDay t /\
  utils_days.StartOfDay (utils_days.EndOfDay t) = utils_days.StartOfDay t /\
  utils_days.EndOfDay (utils_days.StartOfDay t) = utils_days.EndOfDay t /\
  utils_days.EndOfDay (utils_days.EndOfDay t) = utils_days.EndOfDay t /\
  forall u,
    gotime.civil_day (gotime.In u utils.SydneyLocation)
    = gotime.civil_day (gotime.In t utils.SydneyLocation) ->
    utils_days.StartOfDay u = utils_days.StartOfDay t /\
    utils_days.EndOfDay u = utils_days.EndOfDay t.
Proof.
  destruct (StartOfDay_reading t) as (_ & Ds & _ & Ls).
  destruct (EndOfDay_reading t) as (_ & De & _ & Le).
  assert (Hs : gotime.civil_day
                 (gotime.In (utils_days.StartOfDay t) utils.SydneyLocation)
               = gotime.civil_day (gotime.In t utils.SydneyLocation)).
  { rewrite In_Sydney_self by exact Ls. exact Ds. }
  assert (He : gotime.civil_day
                 (gotime.In (utils_days.EndOfDay t) utils.SydneyLocation)
               = gotime.civil_day (gotime.In t utils.SydneyLocation)).
  { rewrite In_Sydney_self by exact Le. exact De. }
  repeat split; try apply StartOfDay_of_day; auto.
Qed.

(** The reading of the deadline. *)
Lemma deadline_reading t :
  valid_time t ->
  let dl := utils.CalculateRSVPDeadline t in
  gotime.localSec dl
  = (gotime.civil_day (gotime.In t utils.SydneyLocation) - 3) * 86400 + 86399 /\
  gotime.nsec dl = 0 /\ gotime.loc dl = gotime.Sydney.
Proof.
  intros Hv. cbv zeta. unfold utils.CalculateRSVPDeadline.
  set (D := gotime.In t utils.SydneyLocation).
  set (d3 := gotime.AddDate D 0 0 (-3)).
  assert (Hday : gotime.civil_day d3 = gotime.civil_day D - 3).
  { unfold d3. rewrite civil_day_AddDate by exact Hv. lia. }
  destruct (civil_fields d3) as (Hd & Hm & _).
  destruct (Date_Sydney_reading (gotime.Year d3) (gotime.Month d3)
              (gotime.Day d3) 23 59 59 0) as (H1 & _ & H3); try lia.
  unfold utils.SydneyLocation. rewrite H1, H3, Hd, Hday.
  repeat split; lia.
Qed.

Lemma deadline_of_day t u :
  valid_time t -> valid_time u ->
  gotime.civil_day (gotime.In t utils.SydneyLocation)
  = gotime.civil_day (gotime.In u utils.SydneyLocation) ->
  utils.CalculateRSVPDeadline t = utils.CalculateRSVPDeadline u.
Proof.
  intros Ht Hu H. unfold utils.CalculateRSVPDeadline.
  assert (E : gotime.civil_day
                (gotime.AddDate (gotime.In t utils.SydneyLocation) 0 0 (-3))
              = gotime.civil_day
                  (gotime.AddDate (gotime.In u utils.SydneyLocation) 0 0 (-3))).
  { rewrite !civil_day_AddDate by assumption. lia. }
  apply civil_fields_of_day in E as (Hy & Hm & Hd). rewrite Hy, Hm, Hd.
  reflexivity.
Qed.

Lemma date_column_reading t :
  gotime.unixSec (date_column t) = gotime.civil_day t * 86400 /\
  gotime.nsec (date_column t) = 0 /\ gotime.loc (date_column t) = gotime.UTC.
Proof.
  unfold date_column. destruct (civil_fields t) as (Hd & Hm & _).
  unfold gotime.Date. cbn [gotime.unixSec gotime.nsec gotime.loc gotime.to_utc].
  rewrite civil_seconds_in_range by lia. rewrite Hd.
  repeat split; zdiv.
Qed.

Lemma sydney_day_of_utc_midnight t :
  gotime.unixSec t mod 86400 = 0 ->
  gotime.civil_day (gotime.In t utils.SydneyLocation)
  = gotime.unixSec t / 86400.
Proof.
  intros H. unfold gotime.civil_day. rewrite localSec_Sydney.
  destruct (offset_values (gotime.unixSec t)) as [O|O]; rewrite O; zdiv.
Qed.

Lemma date_like_sydney_day t :
  date_like t ->
  gotime.civil_day (gotime.In t utils.SydneyLocation) = gotime.civil_day t.
Proof.
  intros (Hv & [Hl | (Hl & Hm)]).
  - rewrite In_Sydney_self by exact Hl. reflexivity.
  - rewrite sydney_day_of_utc_midnight by exact Hm.
    unfold gotime.civil_day, gotime.localSec. rewrite Hl.
    cbn [gotime.zone_offset]. f_equal. lia.
Qed.

Lemma date_column_date_like t : date_like (date_column t).
Proof.
  destruct (date_column_reading t) as (Hu & Hn & Hl).
  split; [unfold valid_time; lia|]. right. split; [exact Hl|]. rewrite Hu. zdiv.
Qed.

Lemma date_column_civil_day t :
  gotime.civil_day (date_column t) = gotime.civil_day t.
Proof. apply civil_date_eq_day, civil_date_date_column. Qed.

(** X3.  [CalculateRSVPDeadline] depends on the calendar day of its argument
    in the club's zone only.  So the deadline computed from the date a
    session was entered with (a time in the club's zone, or midnight UTC) is
    the deadline computed from what the [date] column keeps of it. *)
Theorem CalculateRSVPDeadline_of_calendar_date :
  (forall t u,
      valid_time t -> valid_time u ->
      gotime.civil_day (gotime.In t utils.SydneyLocation)
      = gotime.civil_day (gotime.In u utils.SydneyLocation) ->
      utils.CalculateRSVPDeadline t = utils.CalculateRSVPDeadline u) /\
  (forall d,
      date_like d ->
      utils.CalculateRSVPDeadline (date_column d)
      = utils.CalculateRSVPDeadline d).
Proof.
  split; [exact deadline_of_day|].
  intros d Hd. pose proof (date_column_date_like d) as Hc.
  apply deadline_of_day; [apply Hc | apply Hd |].
  rewrite !date_like_sydney_day by assumption. apply date_column_civil_day.
Qed.

Lemma CalculateRSVPDeadline_of_calendar_date_witness :
  date_like scenario.june15 /\
  utils.CalculateRSVPDeadline (date_column scenario.june15)
  = utils.CalculateRSVPDeadline scenario.june15.
Proof.
  assert (H : date_like scenario.june15).
  { split; [apply valid_time_Date | left; reflexivity]. }
  split; [exact H|].
  destruct CalculateRSVPDeadline_of_calendar_date as (_ & Hc).
  apply Hc, H.
Defined.


Lemma Parse_15_04_bounds s h m :
  gotime.Parse_15_04 s = Some (h, m) -> 0 <= h < 24 /\ 0 <= m < 60.
Proof.
  unfold gotime.Parse_15_04.
  destruct (gotime.getnum s false) as [[hour rest]|]; [|discriminate].
  destruct rest as [|c v1]; [discriminate|].
  destruct (Ascii.eqb_spec c ":"%char) as [->|N].
  2:{ destruct c as [[] [] [] [] [] [] [] []]; try discriminate. congruence. }
  destruct ((hour <? 0) || (24 <=? hour)) eqn:Eh; [discriminate|].
  destruct (gotime.getnum v1 true) as [[min rest']|]; [|discriminate].
  destruct rest'; [|discriminate].
  destruct ((min <? 0) || (60 <=? min)) eqn:Em; [discriminate|].
  intros H. injection H as <- <-.
  apply orb_false_iff in Eh as [E1 E2]. apply orb_false_iff in Em as [E3 E4].
  apply Z.ltb_ge in E1, E3. apply Z.leb_gt in E2, E4. lia.
Qed.

(** X4.  For a session whose deadline was computed from its date, the
    start that [parseSessionDateTime] gives is on the session's date in the
    club's zone, the deadline is on the third day before it, and the
    deadline is before the start by more than 47 and at most 74 hours. *)
Theorem deadline_precedes_start (session : Session) (start : gotime.Time) :
  valid_time (SessionDate session) ->
  RSVPDeadline session = utils.CalculateRSVPDeadline (SessionDate session) ->
  parseSessionDateTime session = Ok start ->
  gotime.civil_day start
  = gotime.civil_day (gotime.In (SessionDate session) utils.SydneyLocation) /\
  gotime.civil_day (RSVPDeadline session) = gotime.civil_day start - 3 /\
  gotime.Before (RSVPDeadline session) start = true /\
  47 * gotime.DurationHour < gotime.UnixNano start
                             - gotime.UnixNano (RSVPDeadline session)
  <= 74 * gotime.DurationHour.
Proof.
  intros Hv Hdl Hp.
  destruct (deadline_reading _ Hv) as (Ld & Nd & Locd). rewrite <- Hdl in *.
  unfold parseSessionDateTime in Hp.
  destruct (gotime.Parse_15_04 (StartTime session)) as [[h m]|] eqn:Ep;
    [|discriminate].
  apply Parse_15_04_bounds in Ep as (Hh & Hm).
  injection Hp as <-.
  set (D := gotime.In (SessionDate session) utils.SydneyLocation) in *.
  destruct (civil_fields D) as (HD & HM & _).
  set (start := gotime.Date _ _ _ h m 0 0 utils.SydneyLocation).
  pose proof (localSec_Date (gotime.Year D) (gotime.Month D) (gotime.Day D)
                h m 0 0 utils.SydneyLocation) as HL.
  cbv zeta in HL. rewrite civil_seconds_in_range in HL by lia.
  rewrite HD in HL. fold start in HL.
  assert (Hls : gotime.localSec start
                = gotime.unixSec start
                  + gotime.offset (gotime.sydney_lookup (gotime.unixSec start)))
    by reflexivity.
  assert (Hld : gotime.localSec (RSVPDeadline session)
                = gotime.unixSec (RSVPDeadline session)
                  + gotime.offset (gotime.sydney_lookup
                                     (gotime.unixSec (RSVPDeadline session)))).
  { unfold gotime.localSec. rewrite Locd. reflexivity. }
  assert (Hns : gotime.nsec start = 0) by reflexivity.
  assert (Hcs : gotime.civil_day start = gotime.civil_day D).
  { unfold gotime.civil_day at 1. destruct HL as [-> | [-> G]]; zdiv. }
  assert (Hcd : gotime.civil_day (RSVPDeadline session) = gotime.civil_day D - 3).
  { unfold gotime.civil_day at 1. rewrite Ld. zdiv. }
  assert (Hdiff : 169200 < gotime.unixSec start
                           - gotime.unixSec (RSVPDeadline session) <= 266400).
  { destruct (offset_values (gotime.unixSec start)) as [Os|Os],
             (offset_values (gotime.unixSec (RSVPDeadline session))) as [Od|Od];
      rewrite Os in Hls; rewrite Od in Hld;
      destruct HL as [HL | [HL G]]; lia. }
  split; [exact Hcs|]. split; [lia|]. split.
  - unfold gotime.Before. apply orb_true_iff. left. apply Z.ltb_lt. lia.
  - unfold gotime.UnixNano, gotime.DurationHour. rewrite Hns, Nd. lia.
Qed.

(** The Sunday session starts at 18:30 on 15 June; its deadline has passed
    by then. *)
Lemma deadline_precedes_start_witness :
  valid_time (SessionDate scenario.session1) /\
  RSVPDeadline scenario.session1
  = utils.CalculateRSVPDeadline (SessionDate scenario.session1) /\
  parseSessionDateTime scenario.session1
  = Ok (gotime.Date 2025 6 15 18 30 0 0 gotime.Sydney) /\
  gotime.Before (RSVPDeadline scenario.session1)
                (gotime.Date 2025 6 15 18 30 0 0 gotime.Sydney) = true.
Proof.
  assert (H1 : valid_time (SessionDate scenario.session1))
    by apply valid_time_Date.
  assert (H2 : RSVPDeadline scenario.session1
               = utils.CalculateRSVPDeadline (SessionDate scenario.session1))
    by (vm_compute; reflexivity).
  assert (H3 : parseSessionDateTime scenario.session1
               = Ok (gotime.Date 2025 6 15 18 30 0 0 gotime.Sydney))
    by (vm_compute; reflexivity).
  split; [exact H1|]. split; [exact H2|]. split; [exact H3|].
  destruct (deadline_precedes_start _ _ H1 H2 H3) as (_ & _ & Hb & _).
  exact Hb.
Defined.

End sydney_days.

(** ** What every row of the session table satisfies *)

Module session_invariants.
Import models database services spec spec_more session_service.
Import gotime_facts basics recurrence sydney_days.

Lemma date_row_date_like t : date_row t -> date_like t.
Proof.
  intros (Hl & Hm & Hn). split; [unfold valid_time; lia|]. right. auto.
Qed.

Lemma date_column_date_row t : date_row (date_column t).
Proof.
  destruct (date_column_reading t) as (Hu & Hn & Hl).
  repeat split; try assumption. rewrite Hu. zdiv.
Qed.

Lemma date_column_of_date_row t : date_row t -> date_column t = t.
Proof.
  intros (Hl & Hm & Hn). destruct (date_column_reading t) as (Hu & Hn' & Hl').
  assert (Hc : gotime.civil_day t = gotime.unixSec t / 86400).
  { unfold gotime.civil_day, gotime.localSec. rewrite Hl.
    cbn [gotime.zone_offset]. f_equal. lia. }
  destruct (date_column t) as [s n l], t as [s' n' l'].
  cbn [gotime.unixSec gotime.nsec gotime.loc] in *. subst. f_equal. zdiv.
Qed.

Lemma date_like_AddDate t k : date_like t -> date_like (gotime.AddDate t 0 0 k).
Proof.
  intros (Hv & H). split; [apply valid_time_AddDate|].
  destruct H as [Hl | (Hl & Hm)].
  - left. unfold gotime.AddDate, gotime.Date. cbn [gotime.loc]. exact Hl.
  - right. unfold gotime.AddDate. rewrite Hl. split; [reflexivity|].
    unfold gotime.Date. cbn [gotime.unixSec gotime.to_utc].
    destruct (civil_fields t) as (_ & HM & _).
    rewrite civil_seconds_in_range by (unfold valid_time in Hv; lia).
    pose proof (clock_fields t) as Hc.
    assert (Hls : gotime.localSec t = gotime.unixSec t).
    { unfold gotime.localSec. rewrite Hl. cbn [gotime.zone_offset]. lia. }
    rewrite Hls, Hm in Hc. zdiv.
Qed.

Lemma date_like_nthDate i : forall d, date_like d -> date_like (nthDate i d).
Proof.
  induction i as [|i IH]; intros d Hd; cbn [nthDate]; [exact Hd|].
  apply IH, date_like_AddDate, Hd.
Qed.

Lemma deadline_of_date_column d :
  date_like d ->
  utils.CalculateRSVPDeadline (date_column d) = utils.CalculateRSVPDeadline d.
Proof.
  intros Hd. pose proof (date_column_date_like d) as Hc.
  apply deadline_of_day; [apply Hc | apply Hd |].
  rewrite !date_like_sydney_day by assumption. apply date_column_civil_day.
Qed.

Lemma child_row_ok parent wall id d :
  (1 <= Courts parent <= 3 -> capacity_ok (child_row parent wall id d)) /\
  (date_like d -> deadline_ok (child_row parent wall id d)).
Proof.
  split.
  - intros H. split; [exact H | reflexivity].
  - intros H. split; cbn [child_row SessionDate RSVPDeadline].
    + apply date_column_date_row.
    + symmetry. apply deadline_of_date_column, H.
Qed.

Lemma turn_rows parent wall db d x :
  List.In x (sessions (turn parent wall db d)) ->
  List.In x (sessions db) \/ exists id, x = child_row parent wall id d.
Proof.
  unfold turn. destruct (_ =? 0); cbn [sessions]; [|auto].
  intros H. apply in_app_or in H as [H | [<- | []]]; eauto.
Qed.

(** Every row of the table after the loop was there before or is the child
    for one of the dates of the range. *)
Lemma generateLoop_rows n parent wall : forall db d x,
  List.In x (sessions (generateLoop n parent wall db d)) ->
  List.In x (sessions db) \/
  exists id i, (i < n)%nat /\ x = child_row parent wall id (nthDate i d).
Proof.
  induction n as [|k IH]; intros db d x H; [auto|].
  rewrite generateLoop_S in H. apply IH in H as [H | (id & i & Hi & ->)].
  - apply turn_rows in H as [H | (id & ->)]; [auto|].
    right. exists id, 0%nat. split; [lia | reflexivity].
  - right. exists id, (S i). split; [lia | reflexivity].
Qed.

Lemma generateRecurringSessions_rows db wall parent occurrences x :
  List.In x (sessions (generateRecurringSessions db wall parent occurrences)) ->
  List.In x (sessions db) \/
  exists id i,
    (i < Z.to_nat (wrap_int (occurrences - 1)))%nat /\
    x = child_row parent wall id
          (nthDate i (gotime.AddDate (SessionDate parent) 0 0 7)).
Proof.
  unfold generateRecurringSessions. destruct (RecurringDayOfWeek parent); [|auto].
  apply generateLoop_rows.
Qed.

Lemma generateRecurringSessions_keeps (P : Session -> Prop) db wall parent n :
  (forall id d, date_like d -> P (child_row parent wall id d)) ->
  date_like (SessionDate parent) ->
  Forall P (sessions db) ->
  Forall P (sessions (generateRecurringSessions db wall parent n)).
Proof.
  intros Hc Hd Hdb. apply Forall_forall. intros x Hx.
  apply generateRecurringSessions_rows in Hx as [Hx | (id & i & _ & ->)].
  - rewrite Forall_forall in Hdb. auto.
  - apply Hc, date_like_nthDate, date_like_AddDate, Hd.
Qed.

Lemma SaveSessionRow_rows db wall s x :
  List.In x (sessions (SaveSessionRow db wall s)) ->
  List.In x (sessions db) \/ x = saved_row s wall.
Proof.
  unfold SaveSessionRow. fold (saved_row s wall).
  destruct (existsb _ _); cbn [sessions]; intros H.
  - apply in_map_iff in H as (y & Hy & Hin).
    destruct (N.eqb (ID y) (ID s)); subst; auto.
  - apply in_app_or in H as [H | [<- | []]]; auto.
Qed.

Lemma SaveSessionRow_keeps (P : Session -> Prop) db wall s :
  P (saved_row s wall) -> Forall P (sessions db) ->
  Forall P (sessions (SaveSessionRow db wall s)).
Proof.
  intros Hs Hdb. apply Forall_forall. intros x Hx.
  apply SaveSessionRow_rows in Hx as [Hx | ->]; [|exact Hs].
  rewrite Forall_forall in Hdb. auto.
Qed.

Lemma saved_row_of_row_ok s wall status reason upd :
  (capacity_ok s -> capacity_ok (saved_row (withStatus s status reason upd) wall)) /\
  (deadline_ok s -> deadline_ok (saved_row (withStatus s status reason upd) wall)).
Proof.
  split; [auto|]. intros (Hr & Hd). split; cbn.
  - apply date_column_date_row.
  - rewrite (date_column_of_date_row _ Hr). exact Hd.
Qed.

Lemma refresh_keeps (P : Session -> Prop) wall ps : forall cur,
  (forall p, List.In p ps ->
     date_like (SessionDate p) /\
     forall id d, date_like d -> P (child_row p wall id d)) ->
  Forall P (sessions cur) ->
  Forall P (sessions
              (fold_left (fun d p => generateRecurringSessions d wall p 4) ps cur)).
Proof.
  induction ps as [|p ps IH]; intros cur Hps Hcur; cbn [fold_left]; [exact Hcur|].
  apply IH; [intros q Hq; apply Hps; right; exact Hq|].
  destruct (Hps p (or_introl eq_refl)) as (Hd & Hc).
  apply generateRecurringSessions_keeps; assumption.
Qed.

Lemma DeleteSessionRow_keeps (P : Session -> Prop) db s :
  Forall P (sessions db) -> Forall P (sessions (DeleteSessionRow db s)).
Proof.
  intros H. apply Forall_forall. intros x Hx. cbn in Hx.
  apply filter_In in Hx as [Hx _]. rewrite Forall_forall in H. auto.
Qed.

Lemma First_In {A} (f : A -> bool) l x : First f l = Some x -> List.In x l.
Proof. intros H. apply find_some in H. tauto. Qed.

(** X5.  Capacity invariant of the session table: if every row has between
    one and three courts and the capacity of its courts, so has every row
    after [CreateSession], [UpdateSession], [generateRecurringSessions] for
    a parent with one to three courts, [RefreshRecurringSessions],
    [CancelSession] and [DeleteSession], whatever their arguments. *)
Theorem capacity_invariant db wall :
  Forall capacity_ok (sessions db) ->
  (forall input,
      Forall capacity_ok (sessions (fst (CreateSession db wall input)))) /\
  (forall id input,
      Forall capacity_ok (sessions (fst (UpdateSession db wall id input)))) /\
  (forall parent occurrences,
      1 <= Courts parent <= 3 ->
      Forall capacity_ok
        (sessions (generateRecurringSessions db wall parent occurrences))) /\
  Forall capacity_ok (sessions (RefreshRecurringSessions db wall)) /\
  (forall id reason,
      Forall capacity_ok (sessions (fst (CancelSession db wall id reason)))) /\
  (forall id,
      Forall capacity_ok (sessions (fst (DeleteSession db wall id)))).
Proof.
  intros Hdb.
  assert (Hgen : forall db0 parent occurrences,
             Forall capacity_ok (sessions db0) ->
             1 <= Courts parent <= 3 ->
             Forall capacity_ok
               (sessions (generateRecurringSessions db0 wall parent occurrences))).
  { intros db0 parent occurrences H0 Hc. apply Forall_forall. intros x Hx.
    apply generateRecurringSessions_rows in Hx as [Hx | (id & i & _ & ->)].
    - rewrite Forall_forall in H0. auto.
    - apply child_row_ok, Hc. }
  split; [|split; [|split; [|split; [|split]]]].
  - intros input. unfold CreateSession.
    destruct ((ciCourts input <? 1) || (3 <? ciCourts input)) eqn:E;
      [exact Hdb|].
    apply orb_false_iff in E as [E1 E2]. apply Z.ltb_ge in E1, E2.
    unfold CreateSessionRow. cbn [fst ID Courts].
    match goal with |- context [mkDB (sessions db ++ [?row]) _ _] =>
      assert (Hrow : Forall capacity_ok (sessions db ++ [row])) end.
    { apply Forall_app. split; [exact Hdb|]. constructor; [|constructor].
      split; cbn; [lia | reflexivity]. }
    destruct (ciIsRecurring input), (ciRecurringDayOfWeek input);
      try exact Hrow.
    apply Hgen; [exact Hrow | cbn; lia].
  - intros id input. unfold UpdateSession.
    destruct (First _ (sessions db)) as [s|] eqn:E; [|exact Hdb].
    rewrite Forall_forall in Hdb.
    destruct (Hdb s (First_In _ _ _ E)) as (Hc & Hm).
    rewrite <- Forall_forall in Hdb.
    destruct (uiCourts input) as [c|]; cbn [or_keep].
    + destruct ((c <? 1) || (3 <? c)) eqn:Ec; [exact Hdb|].
      apply orb_false_iff in Ec as [E1 E2]. apply Z.ltb_ge in E1, E2.
      cbn [fst]. apply SaveSessionRow_keeps; [|exact Hdb].
      split; cbn; [lia | reflexivity].
    + cbn [fst]. apply SaveSessionRow_keeps; [|exact Hdb].
      split; cbn; assumption.
  - intros parent occurrences Hc. apply Hgen; assumption.
  - unfold RefreshRecurringSessions.
    assert (Hfold : forall ps cur,
               (forall p, List.In p ps -> 1 <= Courts p <= 3) ->
               Forall capacity_ok (sessions cur) ->
               Forall capacity_ok
                 (sessions (fold_left
                    (fun d p => generateRecurringSessions d wall p 4) ps cur))).
    { induction ps as [|p ps IH]; intros cur Hps Hcur; cbn [fold_left];
        [exact Hcur|].
      apply IH; [intros q Hq; apply Hps; right; exact Hq|].
      apply Hgen; [exact Hcur | apply Hps; left; reflexivity]. }
    apply Hfold; [|exact Hdb]. intros p Hp. apply filter_In in Hp as [Hp _].
    rewrite Forall_forall in Hdb. apply Hdb, Hp.
  - intros id reason. unfold CancelSession.
    destruct (First _ (sessions db)) as [s|] eqn:E; cbn [fst]; [|exact Hdb].
    apply SaveSessionRow_keeps; [|exact Hdb].
    rewrite Forall_forall in Hdb. apply (Hdb s (First_In _ _ _ E)).
  - intros id. unfold DeleteSession.
    destruct (First _ (sessions db)) as [s|] eqn:E; cbn [fst]; [|exact Hdb].
    destruct (0 <? _); cbn [fst].
    + apply SaveSessionRow_keeps; [|exact Hdb].
      rewrite Forall_forall in Hdb. apply (Hdb s (First_In _ _ _ E)).
    + apply DeleteSessionRow_keeps, Hdb.
Qed.

Lemma capacity_invariant_witness :
  Forall capacity_ok (sessions scenario.db1) /\
  Forall capacity_ok
         (sessions (fst (CreateSession scenario.db1 scenario.june1
                                       (scenario.weekly None)))).
Proof.
  assert (H : Forall capacity_ok (sessions scenario.db1)).
  { constructor; [|constructor]. split; [cbn; lia | reflexivity]. }
  split; [exact H|].
  destruct (capacity_invariant scenario.db1 scenario.june1 H) as (Hc & _).
  apply Hc.
Defined.


(** X6.  Deadline invariant of the session table: if every row holds a date
    and the deadline [CalculateRSVPDeadline] gives for that date, so does
    every row after [CreateSession] and [UpdateSession] with a date in the
    club's zone or at midnight UTC, [RefreshRecurringSessions],
    [CancelSession] and [DeleteSession]: the deadline of a row is never out
    of step with its date. *)
Theorem deadline_invariant db wall :
  Forall deadline_ok (sessions db) ->
  (forall input,
      date_like (ciSessionDate input) ->
      Forall deadline_ok (sessions (fst (CreateSession db wall input)))) /\
  (forall id input,
      (forall d, uiSessionDate input = Some d -> date_like d) ->
      Forall deadline_ok (sessions (fst (UpdateSession db wall id input)))) /\
  Forall deadline_ok (sessions (RefreshRecurringSessions db wall)) /\
  (forall id reason,
      Forall deadline_ok (sessions (fst (CancelSession db wall id reason)))) /\
  (forall id,
      Forall deadline_ok (sessions (fst (DeleteSession db wall id)))).
Proof.
  intros Hdb.
  assert (Hchild : forall p id d, date_like d ->
                                  deadline_ok (child_row p wall id d)).
  { intros p id d. apply child_row_ok. }
  split; [|split; [|split; [|split]]].
  - intros input Hd. unfold CreateSession.
    destruct ((ciCourts input <? 1) || (3 <? ciCourts input)); [exact Hdb|].
    unfold CreateSessionRow. cbn [fst ID SessionDate RSVPDeadline].
    match goal with |- context [mkDB (sessions db ++ [?row]) _ _] =>
      assert (Hrow : Forall deadline_ok (sessions db ++ [row])) end.
    { apply Forall_app. split; [exact Hdb|]. constructor; [|constructor].
      split; cbn; [apply date_column_date_row|].
      symmetry. apply deadline_of_date_column, Hd. }
    destruct (ciIsRecurring input), (ciRecurringDayOfWeek input);
      try exact Hrow.
    apply generateRecurringSessions_keeps; [|exact Hd|exact Hrow].
    intros id d. apply Hchild.
  - intros id input Hd. unfold UpdateSession.
    destruct (First _ (sessions db)) as [s|] eqn:E; [|exact Hdb].
    rewrite Forall_forall in Hdb.
    destruct (Hdb s (First_In _ _ _ E)) as (Hr & Hdl).
    rewrite <- Forall_forall in Hdb.
    destruct (match uiCourts input with
              | Some c => (c <? 1) || (3 <? c) | None => false end);
      [exact Hdb|].
    cbn [fst]. apply SaveSessionRow_keeps; [|exact Hdb].
    destruct (uiSessionDate input) as [d|] eqn:Ed; cbn [or_keep].
    + split; cbn; [apply date_column_date_row|].
      symmetry. apply deadline_of_date_column, Hd. reflexivity.
    + split; cbn; [apply date_column_date_row|].
      rewrite (date_column_of_date_row _ Hr). exact Hdl.
  - unfold RefreshRecurringSessions. apply refresh_keeps; [|exact Hdb].
    intros p Hp. apply filter_In in Hp as [Hp _].
    rewrite Forall_forall in Hdb. destruct (Hdb p Hp) as (Hr & _).
    split; [apply date_row_date_like, Hr|]. intros id d. apply Hchild.
  - intros id reason. unfold CancelSession.
    destruct (First _ (sessions db)) as [s|] eqn:E; cbn [fst]; [|exact Hdb].
    apply SaveSessionRow_keeps; [|exact Hdb]. apply saved_row_of_row_ok.
    rewrite Forall_forall in Hdb. apply (Hdb s (First_In _ _ _ E)).
  - intros id. unfold DeleteSession.
    destruct (First _ (sessions db)) as [s|] eqn:E; cbn [fst]; [|exact Hdb].
    destruct (0 <? _); cbn [fst].
    + apply SaveSessionRow_keeps; [|exact Hdb]. apply saved_row_of_row_ok.
      rewrite Forall_forall in Hdb. apply (Hdb s (First_In _ _ _ E)).
    + apply DeleteSessionRow_keeps, Hdb.
Qed.

Lemma deadline_invariant_witness :
  Forall deadline_ok (sessions scenario.db1) /\
  date_like (ciSessionDate (scenario.weekly None)) /\
  Forall deadline_ok
         (sessions (fst (CreateSession scenario.db1 scenario.june1
                                       (scenario.weekly None)))).
Proof.
  assert (H : Forall deadline_ok (sessions scenario.db1)).
  { constructor; [|constructor]. split.
    - apply date_column_date_row.
    - vm_compute. reflexivity. }
  assert (Hd : date_like (ciSessionDate (scenario.weekly None))).
  { split; [apply valid_time_Date | left; reflexivity]. }
  split; [exact H|]. split; [exact Hd|].
  destruct (deadline_invariant scenario.db1 scenario.june1 H) as (Hc & _).
  apply Hc, Hd.
Defined.


Lemma weekday_of_days_week z k :
  gotime.weekday_of_days (z + 7 * k) = gotime.weekday_of_days z.
Proof. unfold gotime.weekday_of_days. zdiv. Qed.

(** X7.  Every session that [generateRecurringSessions] adds to the table
    falls a whole number of weeks after the parent, between one and the
    occurrence count less one, hence on the weekday of the parent's date:
    the value of the parent's [RecurringDayOfWeek] plays no part.  It has
    the start time, end time and courts of the parent and is open, and for
    a parent whose date is in the club's zone or at midnight UTC its
    deadline is on the third day before its own date. *)
Theorem children_fall_on_the_weekday_of_the_parent
    db wall parent occurrences c :
  valid_time (SessionDate parent) ->
  List.In c (sessions (generateRecurringSessions db wall parent occurrences)) ->
  ~ List.In c (sessions db) ->
  exists k,
    1 <= k <= wrap_int (occurrences - 1) /\
    gotime.civil_day (SessionDate c)
    = gotime.civil_day (SessionDate parent) + 7 * k /\
    gotime.Weekday (SessionDate c) = gotime.Weekday (SessionDate parent) /\
    StartTime c = StartTime parent /\ EndTime c = EndTime parent /\
    Courts c = Courts parent /\ Status c = SessionStatusOpen /\
    (date_like (SessionDate parent) ->
     gotime.civil_day (RSVPDeadline c)
     = gotime.civil_day (SessionDate c) - 3).
Proof.
  intros Hv Hin Hnew.
  apply generateRecurringSessions_rows in Hin as [Hin | (id & i & Hi & ->)];
    [contradiction|].
  set (d := nthDate i (gotime.AddDate (SessionDate parent) 0 0 7)).
  assert (Hd : gotime.civil_day d
               = gotime.civil_day (SessionDate parent)
                 + 7 * (Z.of_nat i + 1)).
  { unfold d. rewrite civil_day_nthDate by apply valid_time_AddDate.
    rewrite civil_day_AddDate by exact Hv. lia. }
  exists (Z.of_nat i + 1). cbn [child_row SessionDate StartTime EndTime Courts
                                Status RSVPDeadline].
  rewrite date_column_civil_day.
  split; [lia|]. split; [exact Hd|]. split.
  { unfold gotime.Weekday. rewrite date_column_civil_day, Hd.
    apply weekday_of_days_week. }
  repeat (split; [reflexivity|]).
  intros Hdl.
  assert (Hl : date_like d).
  { apply date_like_nthDate, date_like_AddDate, Hdl. }
  destruct (deadline_reading d (proj1 Hl)) as (Ld & _ & _).
  unfold gotime.civil_day at 1. rewrite Ld.
  rewrite (date_like_sydney_day d Hl). zdiv.
Qed.

(** The first child of the Sunday session of 15 June is on Sunday 22
    June. *)
Lemma children_fall_on_the_weekday_of_the_parent_witness :
  valid_time (SessionDate scenario.parent1) /\
  List.In scenario_more.child1
          (sessions (generateRecurringSessions
                       scenario.db_parent scenario.june1 scenario.parent1 4)) /\
  ~ List.In scenario_more.child1 (sessions scenario.db_parent) /\
  Title scenario_more.child1 = "Sunday - 22 Jun 2025"%string /\
  gotime.Weekday (SessionDate scenario_more.child1)
  = gotime.Weekday (SessionDate scenario.parent1).
Proof.
  assert (H1 : valid_time (SessionDate scenario.parent1))
    by apply valid_time_Date.
  assert (H2 : List.In scenario_more.child1
                 (sessions (generateRecurringSessions
                              scenario.db_parent scenario.june1
                              scenario.parent1 4))).
  { vm_compute. right. left. reflexivity. }
  assert (H3 : ~ List.In scenario_more.child1 (sessions scenario.db_parent)).
  { intros [H | []]. vm_compute in H. discriminate H. }
  split; [exact H1|]. split; [exact H2|]. split; [exact H3|].
  split; [vm_compute; reflexivity|].
  destruct (children_fall_on_the_weekday_of_the_parent
              scenario.db_parent scenario.june1 scenario.parent1 4
              scenario_more.child1 H1 H2 H3) as (k & _ & _ & Hw & _).
  exact Hw.
Defined.

End session_invariants.

(** ** The RSVP table *)

Module rsvp_table.
Import models database services spec spec_more rsvp_service.
Import basics rsvp_engine waitlist.

Lemma rsvp_of_key sid uid r :
  rsvp_of sid uid r = true <-> rsvp_key r = (sid, uid).
Proof.
  unfold rsvp_of, rsvp_key. rewrite andb_true_iff, !N.eqb_eq.
  split; [intros [-> ->]; reflexivity | intros H; injection H; auto].
Qed.

Lemma First_Some {A} (f : A -> bool) l x :
  First f l = Some x -> List.In x l /\ f x = true.
Proof. apply find_some. Qed.

Lemma First_None {A} (f : A -> bool) l x :
  First f l = None -> List.In x l -> f x = false.
Proof. intros H. apply (find_none f l H). Qed.

Lemma First_present {A} (f : A -> bool) l x :
  First f l = Some x -> existsb f l = true.
Proof.
  intros H. apply First_Some in H as [Hin Hf]. apply existsb_exists. eauto.
Qed.

(** The rows after an insertion by [CreateOrUpdateRSVP]. *)
Lemma created_row db wall r :
  rID r = uuid_Nil ->
  let out := CreateRSVPRow db wall r in
  rsvps (fst out) = rsvps db ++ [snd out] /\
  sessions (fst out) = sessions db /\
  next_uuid (fst out) = N.succ (next_uuid db) /\
  rID (snd out) = next_uuid db /\
  rsvp_key (snd out) = rsvp_key r /\
  rStatus (snd out) = rStatus r /\
  IsLateRSVP (snd out) = IsLateRSVP r /\
  AddedByAdmin (snd out) = AddedByAdmin r.
Proof.
  intros Hid. unfold CreateRSVPRow. rewrite Hid. cbn. repeat split.
Qed.

(** The rows after an update by [CreateOrUpdateRSVP]: the row of the
    identifier is replaced. *)
Lemma saved_rows db wall r :
  List.In (rID r) (map rID (rsvps db)) ->
  let out := SaveRSVPRow db wall r in
  rsvps (fst out)
  = map (fun x => if N.eqb (rID x) (rID r) then snd out else x) (rsvps db) /\
  sessions (fst out) = sessions db /\
  next_uuid (fst out) = next_uuid db /\
  snd out = mkRSVP (rID r) (rSessionID r) (rUserID r) (rStatus r)
                   (RSVPTimestamp r) (IsLateRSVP r) (AddedByAdmin r)
                   (rCreatedAt r) wall.
Proof.
  intros Hin. unfold SaveRSVPRow.
  assert (E : existsb (fun x => N.eqb (rID x) (rID r)) (rsvps db) = true).
  { apply existsb_exists. apply in_map_iff in Hin as (x & Hx & Hin).
    exists x. split; [exact Hin | apply N.eqb_eq, Hx]. }
  rewrite E. cbn. repeat split.
Qed.

Lemma CreateOrUpdateRSVP_effect db wall input byAdmin :
  upsert_effect db wall input byAdmin
                (CreateOrUpdateRSVP db wall input byAdmin).
Proof.
  unfold CreateOrUpdateRSVP.
  destruct (First _ (sessions db)) as [session|] eqn:Es; [|constructor].
  destruct (String.eqb (Status session) SessionStatusOpen) eqn:Eo;
    cbn [negb]; [|constructor].
  apply String.eqb_eq in Eo.
  destruct (negb byAdmin && _) eqn:El; [constructor|].
  destruct (First _ (rsvps db)) as [old|] eqn:Er.
  - cbn [andb].
    match goal with |- context [SaveRSVPRow db wall ?r1] =>
      pose proof (saved_rows db wall r1) as H; set (rsvp1 := r1) in * end.
    destruct (SaveRSVPRow db wall rsvp1) as [db' r'] eqn:E.
    cbn [fst snd] in H.
    apply First_Some in Er as Hold. destruct Hold as [Hin _].
    destruct H as (H1 & H2 & H3 & H4); [cbn; apply in_map, Hin|].
    eapply upsert_updated; eassumption.
  - match goal with |- context [CreateRSVPRow db wall ?r1] =>
      pose proof (created_row db wall r1 eq_refl) as H; set (rsvp1 := r1) in *
    end.
    destruct (CreateRSVPRow db wall rsvp1) as [db' r'] eqn:E.
    cbn [fst snd] in H. destruct H as (H1 & H2 & H3 & H4 & H5 & H6 & H7 & H8).
    eapply upsert_created; try eassumption.
    + intros Hl. rewrite H7 in Hl. cbn in Hl. rewrite Hl in El.
      destruct byAdmin; [reflexivity | discriminate].
Qed.

Lemma First_app {A} (f : A -> bool) l1 l2 :
  First f (l1 ++ l2)
  = match First f l1 with Some x => Some x | None => First f l2 end.
Proof.
  unfold First. induction l1 as [|x l1 IH]; cbn; [reflexivity|].
  destruct (f x); [reflexivity | exact IH].
Qed.

Lemma First_map {A} (f : A -> bool) (g : A -> A) l :
  (forall x, List.In x l -> f (g x) = f x) ->
  First f (map g l) = option_map g (First f l).
Proof.
  unfold First. induction l as [|x l IH]; intros H; cbn; [reflexivity|].
  rewrite (H x (or_introl eq_refl)). destruct (f x); [reflexivity|].
  apply IH. intros y Hy. apply H. right. exact Hy.
Qed.

Lemma First_filter {A} (f p : A -> bool) l :
  (forall x, List.In x l -> f x = true -> p x = true) ->
  First f (filter p l) = First f l.
Proof.
  unfold First. induction l as [|x l IH]; intros H; cbn; [reflexivity|].
  destruct (f x) eqn:Ef.
  - rewrite (H x (or_introl eq_refl) Ef). cbn. rewrite Ef. reflexivity.
  - destruct (p x); cbn; rewrite ?Ef; apply IH; intros y Hy; apply H;
      right; exact Hy.
Qed.

Lemma First_absent {A} (f : A -> bool) l :
  (forall x, List.In x l -> f x = false) -> First f l = None.
Proof.
  intros H. destruct (First f l) as [x|] eqn:E; [|reflexivity].
  apply First_Some in E as [Hin Hf]. rewrite (H x Hin) in Hf. discriminate.
Qed.

Lemma unique_by_key (l : list RSVP) x y :
  NoDup (map rsvp_key l) -> List.In x l -> List.In y l ->
  rsvp_key x = rsvp_key y -> x = y.
Proof.
  induction l as [|a l IH]; cbn; intros Hnd Hx Hy E; [contradiction|].
  inversion Hnd as [|? ? Hnot Hnd']; subst.
  destruct Hx as [-> | Hx], Hy as [-> | Hy]; auto.
  - exfalso. apply Hnot. rewrite E. apply in_map, Hy.
  - exfalso. apply Hnot. rewrite <- E. apply in_map, Hx.
Qed.

Lemma NoDup_snoc {A} (l : list A) a :
  NoDup l -> ~ List.In a l -> NoDup (l ++ [a]).
Proof.
  induction l as [|x l IH]; cbn; intros Hnd Hn.
  - constructor; [intros [] | constructor].
  - inversion Hnd as [|? ? Hx Hl]; subst. constructor.
    + rewrite in_app_iff. cbn. intros [H | [H | []]]; [auto|].
      apply Hn. left. symmetry. exact H.
    + apply IH; [exact Hl|]. intros H. apply Hn. right. exact H.
Qed.

Lemma NoDup_map_filter {A B} (g : A -> B) (p : A -> bool) l :
  NoDup (map g l) -> NoDup (map g (filter p l)).
Proof.
  induction l as [|x l IH]; cbn; intros Hnd; [constructor|].
  inversion Hnd as [|? ? Hx Hl]; subst.
  destruct (p x); cbn; [|auto]. constructor; [|auto].
  intros H. apply Hx. apply in_map_iff in H as (y & Hy & Hin).
  apply filter_In in Hin as [Hin _]. rewrite <- Hy. apply in_map, Hin.
Qed.

(** Replacing the row of an identifier by a row with the same identifier
    and pair keeps the identifiers and the pairs of the table. *)
Lemma replaced_keys l old r :
  NoDup (map rID l) -> List.In old l ->
  rID r = rID old -> rsvp_key r = rsvp_key old ->
  let g := fun x => if N.eqb (rID x) (rID old) then r else x in
  map rID (map g l) = map rID l /\ map rsvp_key (map g l) = map rsvp_key l.
Proof.
  intros Hnd Hin Hid Hkey g. rewrite !map_map.
  split; apply map_ext_in; intros x Hx; unfold g;
    destruct (N.eqb (rID x) (rID old)) eqn:E; try reflexivity;
    apply N.eqb_eq in E;
    rewrite (unique_by_id l x old Hnd Hx Hin E); assumption.
Qed.

Lemma reload_appended db' l r :
  rsvps db' = l ++ [r] -> Forall (fun x => rID x <> rID r) l ->
  reload db' r = r.
Proof.
  intros E H. unfold reload. rewrite E, First_app.
  rewrite First_absent.
  - cbn. rewrite N.eqb_refl. reflexivity.
  - intros x Hx. rewrite Forall_forall in H. apply N.eqb_neq, H, Hx.
Qed.

Lemma reload_replaced db' l old r :
  rsvps db' = map (fun x => if N.eqb (rID x) (rID old) then r else x) l ->
  List.In old l -> rID r = rID old -> reload db' r = r.
Proof.
  intros E Hin Hid. unfold reload. rewrite E, Hid.
  rewrite First_map.
  - destruct (First _ l) as [x|] eqn:Ex.
    + apply First_Some in Ex as [_ Hx]. cbn. rewrite Hx. reflexivity.
    + apply (First_None _ _ old) in Ex; [|exact Hin].
      cbv beta in Ex. rewrite N.eqb_refl in Ex. discriminate.
  - intros x _. destruct (N.eqb (rID x) (rID old)) eqn:Ex; [|exact Ex].
    rewrite Hid. apply N.eqb_refl.
Qed.

Lemma fresh_ids db :
  rsvp_table_ok db -> Forall (fun x => rID x <> next_uuid db) (rsvps db).
Proof.
  intros (_ & _ & H). eapply Forall_impl; [|exact H]. cbn. intros x Hx. lia.
Qed.

Lemma DeleteRSVP_effect db wall sid uid byAdmin :
  let out := DeleteRSVP db wall sid uid byAdmin in
  (exists e, out = (db, Some e)) \/
  exists session rsvp,
    First (fun s => N.eqb (ID s) sid) (sessions db) = Some session /\
    First (rsvp_of sid uid) (rsvps db) = Some rsvp /\
    out = (DeleteRSVPRow db rsvp, None).
Proof.
  cbv zeta. unfold DeleteRSVP.
  destruct (First _ (sessions db)) as [session|]; [|left; eauto].
  destruct (First _ (rsvps db)) as [rsvp|]; [|left; eauto].
  destruct (_ && _); [left; eauto | right; eauto].
Qed.

(** X8.  [CreateOrUpdateRSVP] and [DeleteRSVP] keep the RSVP table well
    formed: at most one row for a session and a user, distinct row
    identifiers, all of them handed out before. *)
Theorem rsvp_table_kept db wall :
  rsvp_table_ok db ->
  (forall input byAdmin,
      rsvp_table_ok (fst (CreateOrUpdateRSVP db wall input byAdmin))) /\
  (forall sessionID userID byAdmin,
      rsvp_table_ok (fst (DeleteRSVP db wall sessionID userID byAdmin))).
Proof.
  intros Hok. split.
  - intros input byAdmin.
    pose proof (CreateOrUpdateRSVP_effect db wall input byAdmin) as H.
    destruct (CreateOrUpdateRSVP db wall input byAdmin) as [db' out].
    cbn [fst]. pose proof (fresh_ids db Hok) as Hfresh.
    destruct Hok as (Hk & Hi & Hb).
    inversion H as [e | session r db1 Hs Ho Hr Hl Hla Ha Hid Hkey Hst Es Er En
                      | session old r db1 Hs Ho Hr Hr' Es Er En]; subst.
    + repeat split; assumption.
    + unfold rsvp_table_ok. rewrite Er, En, !map_app. cbn [map].
      split; [|split].
      * apply NoDup_snoc; [exact Hk|]. rewrite Hkey. intros Hin.
        apply in_map_iff in Hin as (x & Hx & Hin).
        apply (First_None _ _ x Hr) in Hin as Hf.
        apply rsvp_of_key in Hx. congruence.
      * apply NoDup_snoc; [exact Hi|]. rewrite Hid. intros Hin.
        apply in_map_iff in Hin as (x & Hx & Hin).
        rewrite Forall_forall in Hfresh. apply (Hfresh x Hin Hx).
      * apply Forall_app. split.
        -- eapply Forall_impl; [|exact Hb]. cbn. intros x Hx. lia.
        -- constructor; [|constructor]. rewrite Hid. lia.
    + apply First_Some in Hr as [Hin _].
      destruct (replaced_keys (rsvps db) old
                  (mkRSVP (rID old) (rSessionID old) (rUserID old)
                          (inStatus input) (RSVPTimestamp old)
                          (IsLateRSVP old)
                          (if byAdmin then true else AddedByAdmin old)
                          (rCreatedAt old) wall) Hi Hin eq_refl eq_refl)
        as [E1 E2].
      unfold rsvp_table_ok. rewrite Er, En, E1, E2.
      split; [exact Hk|]. split; [exact Hi|].
      apply Forall_forall. intros x Hx. apply in_map_iff in Hx as (y & Hy & Hy').
      rewrite Forall_forall in Hb.
      destruct (N.eqb (rID y) (rID old)); subst x; cbn [rID]; auto.
  - intros sid uid byAdmin.
    destruct (DeleteRSVP_effect db wall sid uid byAdmin)
      as [[e ->] | (session & rsvp & _ & _ & ->)]; [exact Hok|].
    destruct Hok as (Hk & Hi & Hb). cbn [fst]. unfold rsvp_table_ok.
    cbn [DeleteRSVPRow rsvps next_uuid].
    split; [apply NoDup_map_filter, Hk|].
    split; [apply NoDup_map_filter, Hi|].
    apply Forall_forall. intros x Hx. apply filter_In in Hx as [Hx _].
    rewrite Forall_forall in Hb. auto.
Qed.

Lemma rsvp_table_kept_witness :
  rsvp_table_ok scenario.db1 /\
  rsvp_table_ok (fst (CreateOrUpdateRSVP scenario.db1 scenario_more.tuesday
                                         scenario_more.first_in false)).
Proof.
  assert (H : rsvp_table_ok scenario.db1).
  { split; [|split].
    - cbn. constructor; [intros [] | constructor].
    - cbn. constructor; [intros [] | constructor].
    - constructor; [reflexivity | constructor]. }
  split; [exact H|].
  destruct (rsvp_table_kept scenario.db1 scenario_more.tuesday H) as (Hc & _).
  apply Hc.
Defined.


(** X9.  After a successful [CreateOrUpdateRSVP] on a well-formed table,
    [GetUserRSVPForSession] for the session and the user of the input
    returns the RSVP that the call returned, with the status of the input,
    and returns for every other pair what it returned before. *)
Theorem upsert_then_lookup db wall input byAdmin db' r :
  rsvp_table_ok db ->
  CreateOrUpdateRSVP db wall input byAdmin = (db', Ok r) ->
  GetUserRSVPForSession db' (inSessionID input) (inUserID input) = Ok r /\
  rStatus r = inStatus input /\
  forall sessionID userID,
    (sessionID, userID) <> (inSessionID input, inUserID input) ->
    GetUserRSVPForSession db' sessionID userID
    = GetUserRSVPForSession db sessionID userID.
Proof.
  intros Hok E.
  pose proof (CreateOrUpdateRSVP_effect db wall input byAdmin) as H.
  rewrite E in H. pose proof (fresh_ids db Hok) as Hfresh.
  destruct Hok as (Hk & Hi & Hb). unfold GetUserRSVPForSession.
  inversion H as [e | session r1 db1 Hs Ho Hr Hl Hla Ha Hid Hkey Hst Es Er En
                    | session old r1 db1 Hs Ho Hr Hr' Es Er En]; subst.
  - rewrite (reload_appended db' (rsvps db) r1 Er)
      by (rewrite Hid; exact Hfresh).
    rewrite Er. split; [|split; [exact Hst|]].
    + rewrite First_app, Hr. cbn.
      apply rsvp_of_key in Hkey. rewrite Hkey. reflexivity.
    + intros sid uid Hne. rewrite First_app.
      destruct (First (rsvp_of sid uid) (rsvps db)); [reflexivity|].
      cbn. destruct (rsvp_of sid uid r1) eqn:Ek; [|reflexivity].
      apply rsvp_of_key in Ek. congruence.
  - apply First_Some in Hr as [Hin Hkey]. apply rsvp_of_key in Hkey.
    set (r1 := mkRSVP _ _ _ _ _ _ _ _ _) in *.
    rewrite (reload_replaced db' (rsvps db) old r1 Er Hin eq_refl).
    assert (Hg : forall sid uid x, List.In x (rsvps db) ->
               rsvp_of sid uid
                 (if N.eqb (rID x) (rID old) then r1 else x)
               = rsvp_of sid uid x).
    { intros sid uid x Hx. destruct (N.eqb (rID x) (rID old)) eqn:Ex;
        [|reflexivity].
      apply N.eqb_eq in Ex. rewrite (unique_by_id _ x old Hi Hx Hin Ex).
      reflexivity. }
    rewrite Er. split; [|split; [reflexivity|]].
    + rewrite First_map by (apply Hg).
      destruct (First _ (rsvps db)) as [x|] eqn:Ex.
      * apply First_Some in Ex as [Hx Hkx]. apply rsvp_of_key in Hkx.
        assert (x = old) by (apply (unique_by_key (rsvps db)); congruence).
        subst x. cbn. rewrite N.eqb_refl. reflexivity.
      * apply (First_None _ _ old) in Ex; [|exact Hin].
        apply rsvp_of_key in Hkey. congruence.
    + intros sid uid Hne. rewrite First_map by (apply Hg).
      destruct (First _ (rsvps db)) as [x|] eqn:Ex; [|reflexivity].
      apply First_Some in Ex as [Hx Hkx]. apply rsvp_of_key in Hkx. cbn.
      destruct (N.eqb (rID x) (rID old)) eqn:Eid; [|reflexivity].
      apply N.eqb_eq in Eid.
      rewrite (unique_by_id _ x old Hi Hx Hin Eid) in Hkx. congruence.
Qed.

Lemma upsert_then_lookup_witness :
  rsvp_table_ok scenario.db1 /\
  CreateOrUpdateRSVP scenario.db1 scenario_more.tuesday
                     scenario_more.first_in false
  = (mkDB [scenario.session1] [scenario.rsvp_in; scenario_more.rsvp_bob] 4%N,
     Ok scenario_more.rsvp_bob) /\
  GetUserRSVPForSession
    (mkDB [scenario.session1] [scenario.rsvp_in; scenario_more.rsvp_bob] 4%N)
    1%N 8%N
  = Ok scenario_more.rsvp_bob.
Proof.
  assert (H : rsvp_table_ok scenario.db1).
  { split; [|split].
    - cbn. constructor; [intros [] | constructor].
    - cbn. constructor; [intros [] | constructor].
    - constructor; [reflexivity | constructor]. }
  assert (E : CreateOrUpdateRSVP scenario.db1 scenario_more.tuesday
                                 scenario_more.first_in false
              = (mkDB [scenario.session1]
                      [scenario.rsvp_in; scenario_more.rsvp_bob] 4%N,
                 Ok scenario_more.rsvp_bob))
    by (vm_compute; reflexivity).
  split; [exact H|]. split; [exact E|].
  destruct (upsert_then_lookup _ _ _ _ _ _ H E) as (Hl & _). exact Hl.
Defined.


(** X10.  After a successful [DeleteRSVP] on a well-formed table,
    [GetUserRSVPForSession] finds no RSVP of the user for the session, the
    session table is as before, and the lookup returns for every other pair
    what it returned before. *)
Theorem delete_then_lookup db wall sessionID userID byAdmin db' :
  rsvp_table_ok db ->
  DeleteRSVP db wall sessionID userID byAdmin = (db', None) ->
  GetUserRSVPForSession db' sessionID userID = Err ErrRecordNotFound /\
  sessions db' = sessions db /\
  forall sid uid,
    (sid, uid) <> (sessionID, userID) ->
    GetUserRSVPForSession db' sid uid = GetUserRSVPForSession db sid uid.
Proof.
  intros (Hk & Hi & Hb) E.
  destruct (DeleteRSVP_effect db wall sessionID userID byAdmin)
    as [[e E'] | (session & rsvp & _ & Hr & E')];
    rewrite E in E'; [discriminate|].
  injection E' as ->. apply First_Some in Hr as [Hin Hkey].
  apply rsvp_of_key in Hkey. unfold GetUserRSVPForSession.
  cbn [DeleteRSVPRow rsvps sessions]. split; [|split; [reflexivity|]].
  - rewrite First_absent; [reflexivity|].
    intros x Hx. apply filter_In in Hx as [Hx Hp].
    destruct (rsvp_of sessionID userID x) eqn:Ek; [|reflexivity].
    apply rsvp_of_key in Ek.
    assert (x = rsvp) by (apply (unique_by_key (rsvps db)); congruence).
    subst x. rewrite N.eqb_refl in Hp. discriminate.
  - intros sid uid Hne. rewrite First_filter; [reflexivity|].
    intros x Hx Hkx. apply rsvp_of_key in Hkx.
    apply negb_true_iff, N.eqb_neq. intros Eid.
    rewrite (unique_by_id _ x rsvp Hi Hx Hin Eid) in Hkx. congruence.
Qed.

Lemma delete_then_lookup_witness :
  rsvp_table_ok scenario.db1 /\
  DeleteRSVP scenario.db1 scenario_more.tuesday 1%N 7%N false
  = (mkDB [scenario.session1] [] 3%N, None) /\
  GetUserRSVPForSession (mkDB [scenario.session1] [] 3%N) 1%N 7%N
  = Err ErrRecordNotFound.
Proof.
  assert (H : rsvp_table_ok scenario.db1).
  { split; [|split].
    - cbn. constructor; [intros [] | constructor].
    - cbn. constructor; [intros [] | constructor].
    - constructor; [reflexivity | constructor]. }
  assert (E : DeleteRSVP scenario.db1 scenario_more.tuesday 1%N 7%N false
              = (mkDB [scenario.session1] [] 3%N, None))
    by (vm_compute; reflexivity).
  split; [exact H|]. split; [exact E|].
  destruct (delete_then_lookup _ _ _ _ _ _ H E) as (Hl & _). exact Hl.
Defined.


(** X11.  If every RSVP marked late was entered by an administrator, the
    same holds after [CreateOrUpdateRSVP] and after [DeleteRSVP]: the
    service never stores a late RSVP of a member's own. *)
Theorem late_rsvps_are_admin_entries db wall :
  Forall late_flag_ok (rsvps db) ->
  (forall input byAdmin,
      Forall late_flag_ok
             (rsvps (fst (CreateOrUpdateRSVP db wall input byAdmin)))) /\
  (forall sessionID userID byAdmin,
      Forall late_flag_ok
             (rsvps (fst (DeleteRSVP db wall sessionID userID byAdmin)))).
Proof.
  intros Hok. split.
  - intros input byAdmin.
    pose proof (CreateOrUpdateRSVP_effect db wall input byAdmin) as H.
    destruct (CreateOrUpdateRSVP db wall input byAdmin) as [db' out].
    cbn [fst].
    inversion H as [e | session r db1 Hs Ho Hr Hl Hla Ha Hid Hkey Hst Es Er En
                      | session old r db1 Hs Ho Hr Hr' Es Er En]; subst.
    + exact Hok.
    + rewrite Er. apply Forall_app. split; [exact Hok|].
      constructor; [|constructor]. exact Hla.
    + rewrite Er. apply Forall_forall. intros x Hx.
      apply in_map_iff in Hx as (y & Hy & Hin).
      rewrite Forall_forall in Hok.
      destruct (N.eqb (rID y) (rID old)); subst x; [|auto].
      apply First_Some in Hr as [Hold _]. unfold late_flag_ok. cbn.
      intros Hlate. destruct byAdmin; [reflexivity|].
      apply (Hok old Hold Hlate).
  - intros sid uid byAdmin.
    destruct (DeleteRSVP_effect db wall sid uid byAdmin)
      as [[e ->] | (session & rsvp & _ & _ & ->)]; [exact Hok|].
    cbn. apply Forall_forall. intros x Hx. apply filter_In in Hx as [Hx _].
    rewrite Forall_forall in Hok. auto.
Qed.

Lemma late_rsvps_are_admin_entries_witness :
  Forall late_flag_ok (rsvps scenario.db1) /\
  Forall late_flag_ok
         (rsvps (fst (CreateOrUpdateRSVP scenario.db1 scenario.friday
                                         scenario_more.first_in true))).
Proof.
  assert (H : Forall late_flag_ok (rsvps scenario.db1)).
  { constructor; [discriminate | constructor]. }
  split; [exact H|].
  destruct (late_rsvps_are_admin_entries scenario.db1 scenario.friday H)
    as (Hc & _).
  apply Hc.
Defined.

End rsvp_table.

(** ** First come, first served *)

Module rsvp_listing.
Import models database services spec spec_more rsvp_service session_service.
Import basics rsvp_engine waitlist rsvp_table.

Lemma insert_by_timestamp_head r l :
  Forall (fun y => gotime.Before (RSVPTimestamp y) (RSVPTimestamp r) = false) l ->
  insert_by_timestamp r l = r :: l.
Proof.
  intros H. destruct l as [|x l]; [reflexivity|]. cbn [insert_by_timestamp].
  inversion H as [|? ? Hx _]; subst. rewrite Hx. reflexivity.
Qed.

(** Filtering commutes with the insertion into a list in timestamp order. *)
Lemma filter_insert_by_timestamp (f : RSVP -> bool) r l :
  StronglySorted ts_le l ->
  filter f (insert_by_timestamp r l)
  = if f r then insert_by_timestamp r (filter f l) else filter f l.
Proof.
  induction 1 as [|x l Hs IH Hall]; cbn [insert_by_timestamp filter].
  - destruct (f r); reflexivity.
  - destruct (gotime.Before (RSVPTimestamp x) (RSVPTimestamp r)) eqn:E;
      cbn [filter].
    + rewrite IH. destruct (f x) eqn:Ex, (f r) eqn:Er; try reflexivity.
      cbn [insert_by_timestamp]. rewrite E. reflexivity.
    + destruct (f r) eqn:Er, (f x) eqn:Ex; try reflexivity.
      * cbn [insert_by_timestamp]. rewrite E. reflexivity.
      * symmetry. apply insert_by_timestamp_head.
        apply Forall_forall. intros y Hy. apply filter_In in Hy as [Hy _].
        rewrite Forall_forall in Hall. specialize (Hall y Hy).
        unfold ts_le in Hall. apply Before_false in Hall, E.
        apply Before_false. lia.
Qed.

Lemma filter_OrderByRSVPTimestamp (f : RSVP -> bool) l :
  filter f (OrderByRSVPTimestamp l) = OrderByRSVPTimestamp (filter f l).
Proof.
  unfold OrderByRSVPTimestamp.
  induction l as [|r l IH]; cbn [fold_right filter]; [reflexivity|].
  rewrite filter_insert_by_timestamp
    by apply (OrderByRSVPTimestamp_sorted l).
  rewrite IH. destruct (f r); reflexivity.
Qed.

Lemma filter_filter {A} (f g : A -> bool) l :
  filter f (filter g l) = filter (fun x => g x && f x) l.
Proof.
  induction l as [|x l IH]; cbn; [reflexivity|].
  destruct (g x); cbn; [destruct (f x)|]; rewrite IH; reflexivity.
Qed.

(** X12.  [GetRSVPsForSession] returns the RSVPs of the session, each once,
    by ascending timestamp.  [GetConfirmedPlayers] returns those of them
    with status in, in the same order, and as many as [GetRSVPSummary]
    counts in; the RSVPs that [GetSessionByID] loads with the session are
    the list of [GetRSVPsForSession]. *)
Theorem confirmed_players_first_come db sessionID :
  let all := GetRSVPsForSession db sessionID in
  StronglySorted ts_le all /\
  Permutation all
              (filter (fun r => N.eqb (rSessionID r) sessionID) (rsvps db)) /\
  GetConfirmedPlayers db sessionID
  = filter (fun r => String.eqb (rStatus r) RSVPStatusIn) all /\
  Z.of_nat (List.length (GetConfirmedPlayers db sessionID))
  = Count (rsvp_with sessionID RSVPStatusIn) (rsvps db) /\
  forall session rs,
    GetSessionByID db sessionID = Ok (session, rs) -> rs = all.
Proof.
  cbv zeta. unfold GetRSVPsForSession, GetConfirmedPlayers.
  split; [apply OrderByRSVPTimestamp_sorted|].
  split; [apply OrderByRSVPTimestamp_Permutation|].
  split; [|split].
  - rewrite filter_OrderByRSVPTimestamp, filter_filter. reflexivity.
  - unfold Count. f_equal. apply Permutation_length.
    apply OrderByRSVPTimestamp_Permutation.
  - intros session rs. unfold GetSessionByID.
    destruct (First _ (sessions db)) as [s|] eqn:E; [|discriminate].
    intros H. injection H as <- <-. apply First_Some in E as [_ E].
    apply N.eqb_eq in E. unfold preloadRSVPs. rewrite E. reflexivity.
Qed.

Lemma Count_snoc {A} (f : A -> bool) l x :
  Count f (l ++ [x]) = Count f l + (if f x then 1 else 0).
Proof.
  rewrite Count_app. unfold Count. cbn. destruct (f x); reflexivity.
Qed.

(** X13.  The first RSVP of a user for an open session is accepted when an
    administrator enters it or the deadline has not passed, whatever the
    capacity of the session and the number of players already in.  The new
    row is appended to the table with the status of the input, the instant
    of the call as timestamp, the late flag set exactly when the deadline
    has passed, and the administrator flag of the call; the count of its
    status for the session goes up by one. *)
Theorem first_rsvp_is_recorded db wall input byAdmin session :
  rsvp_table_ok db ->
  First (fun s => N.eqb (ID s) (inSessionID input)) (sessions db)
  = Some session ->
  Status session = SessionStatusOpen ->
  First (rsvp_of (inSessionID input) (inUserID input)) (rsvps db) = None ->
  byAdmin = true \/
  gotime.After (utils.NowInSydney wall) (RSVPDeadline session) = false ->
  exists r,
    CreateOrUpdateRSVP db wall input byAdmin
    = (mkDB (sessions db) (rsvps db ++ [r]) (N.succ (next_uuid db)), Ok r) /\
    rsvp_key r = (inSessionID input, inUserID input) /\
    rStatus r = inStatus input /\
    gotime.UnixNano (RSVPTimestamp r) = gotime.UnixNano wall /\
    IsLateRSVP r
    = gotime.After (utils.NowInSydney wall) (RSVPDeadline session) /\
    AddedByAdmin r = byAdmin /\
    forall status,
      Count (rsvp_with (inSessionID input) status) (rsvps db ++ [r])
      = Count (rsvp_with (inSessionID input) status) (rsvps db)
        + (if String.eqb (inStatus input) status then 1 else 0).
Proof.
  intros Hok Hs Ho Hr Hlate. pose proof (fresh_ids db Hok) as Hfresh.
  unfold CreateOrUpdateRSVP. rewrite Hs, Ho, Hr. cbn [String.eqb negb].
  replace (String.eqb SessionStatusOpen SessionStatusOpen) with true
    by reflexivity. cbn [negb].
  assert (El : negb byAdmin
               && gotime.After (utils.NowInSydney wall) (RSVPDeadline session)
               = false).
  { destruct byAdmin; [reflexivity|].
    destruct Hlate as [H | H]; [discriminate | rewrite H; reflexivity]. }
  rewrite El.
  unfold CreateRSVPRow. cbn [rID rSessionID rUserID rStatus RSVPTimestamp
    IsLateRSVP AddedByAdmin rCreatedAt rUpdatedAt].
  replace (N.eqb uuid_Nil uuid_Nil) with true by reflexivity.
  replace (gotime.IsZero gotime.zeroTime) with true by reflexivity.
  match goal with |- context [Ok (reload ?d ?x)] =>
    set (db' := d); set (r := x) end.
  exists r. rewrite (reload_appended db' (rsvps db) r eq_refl Hfresh).
  split; [reflexivity|]. split; [reflexivity|]. split; [reflexivity|].
  split; [|split; [reflexivity|split; [reflexivity|]]].
  - unfold r. cbn [RSVPTimestamp].
    destruct (gotime.IsZero (utils.NowInSydney wall)); reflexivity.
  - intros status. rewrite Count_snoc. unfold rsvp_with, r.
    cbn [rSessionID rStatus]. rewrite N.eqb_refl. reflexivity.
Qed.

Lemma first_rsvp_is_recorded_witness :
  rsvp_table_ok scenario.db1 /\
  First (fun s => N.eqb (ID s) 1%N) (sessions scenario.db1)
  = Some scenario.session1 /\
  First (rsvp_of 1%N 8%N) (rsvps scenario.db1) = None /\
  gotime.After (utils.NowInSydney scenario_more.tuesday)
               (RSVPDeadline scenario.session1) = false /\
  exists r,
    CreateOrUpdateRSVP scenario.db1 scenario_more.tuesday
                       scenario_more.first_in false
    = (mkDB [scenario.session1] [scenario.rsvp_in; r] 4%N, Ok r) /\
    rStatus r = RSVPStatusIn /\ IsLateRSVP r = false.
Proof.
  assert (H : rsvp_table_ok scenario.db1).
  { split; [|split].
    - cbn. constructor; [intros [] | constructor].
    - cbn. constructor; [intros [] | constructor].
    - constructor; [reflexivity | constructor]. }
  assert (Hl : gotime.After (utils.NowInSydney scenario_more.tuesday)
                            (RSVPDeadline scenario.session1) = false)
    by (vm_compute; reflexivity).
  split; [exact H|]. split; [reflexivity|]. split; [reflexivity|].
  split; [exact Hl|].
  destruct (first_rsvp_is_recorded
              scenario.db1 scenario_more.tuesday scenario_more.first_in false
              scenario.session1 H eq_refl eq_refl eq_refl (or_intror Hl))
    as (r & E & _ & Hs & _ & Hlate & _).
  exists r. split; [exact E|]. split; [exact Hs|].
  rewrite Hlate. exact Hl.
Defined.





End rsvp_listing.

(** ** Cancelling and deleting sessions *)

Module session_life.
Import models database services spec spec_more models_more.
Import session_service rsvp_service scheduler_service.
Import basics recurrence rsvp_table.

(** The rows of the session table after [Save]: the rows of the identifier
    are replaced, or the row is appended when there is none. *)
Lemma SaveSessionRow_present db wall s :
  existsb (fun x => N.eqb (ID x) (ID s)) (sessions db) = true ->
  SaveSessionRow db wall s
  = mkDB (map (fun x => if N.eqb (ID x) (ID s) then saved_row s wall else x)
              (sessions db))
         (rsvps db) (next_uuid db).
Proof. intros H. unfold SaveSessionRow. rewrite H. reflexivity. Qed.

Lemma saved_over_loaded db wall id session s' :
  First (fun s => N.eqb (ID s) id) (sessions db) = Some session ->
  ID s' = ID session ->
  SaveSessionRow db wall s'
  = mkDB (map (fun x => if N.eqb (ID x) id then saved_row s' wall else x)
              (sessions db))
         (rsvps db) (next_uuid db).
Proof.
  intros H Hid. apply First_Some in H as Hs. destruct Hs as [_ Hs].
  apply N.eqb_eq in Hs. assert (E : ID s' = id) by congruence.
  rewrite SaveSessionRow_present; rewrite E;
    [reflexivity | eapply First_present, H].
Qed.

Lemma First_replaced id (row : Session) l s :
  First (fun x => N.eqb (ID x) id) l = Some s -> ID row = id ->
  First (fun x => N.eqb (ID x) id)
        (map (fun x => if N.eqb (ID x) id then row else x) l) = Some row.
Proof.
  intros H Hid. rewrite First_map.
  - rewrite H. cbn. apply First_Some in H as [_ H]. rewrite H. reflexivity.
  - intros x _. destruct (N.eqb (ID x) id) eqn:E; [|exact E].
    rewrite Hid. apply N.eqb_refl.
Qed.

Lemma filter_replaced id (row : Session) (p : Session -> bool) l :
  (forall x, p x = true -> N.eqb (ID x) id = false) -> p row = false ->
  filter p (map (fun x => if N.eqb (ID x) id then row else x) l) = filter p l.
Proof.
  intros Hp Hrow. induction l as [|x l IH]; cbn; [reflexivity|].
  destruct (N.eqb (ID x) id) eqn:E.
  - rewrite Hrow. destruct (p x) eqn:Ex; [|exact IH].
    rewrite (Hp x Ex) in E. discriminate.
  - rewrite IH. reflexivity.
Qed.

Lemma filter_idem {A} (p : A -> bool) l : filter p (filter p l) = filter p l.
Proof.
  induction l as [|x l IH]; cbn; [reflexivity|].
  destruct (p x) eqn:E; cbn; rewrite ?E, IH; reflexivity.
Qed.

(** X15.  [DeleteSession] of a session of the table returns no error and
    never touches the RSVP table nor a row of another session.  When the
    session has an RSVP, of any status, its row stays and is marked
    cancelled, with its cancellation reason as it was: [GetSessionByID]
    then returns it with the RSVPs it had.  When it has none the row is
    removed and [GetSessionByID] finds nothing. *)
Theorem DeleteSession_cancels_or_deletes db wall id session :
  First (fun s => N.eqb (ID s) id) (sessions db) = Some session ->
  let db' := fst (DeleteSession db wall id) in
  snd (DeleteSession db wall id) = None /\
  rsvps db' = rsvps db /\
  filter (fun s => negb (N.eqb (ID s) id)) (sessions db')
  = filter (fun s => negb (N.eqb (ID s) id)) (sessions db) /\
  (0 < Count (fun r => N.eqb (rSessionID r) id) (rsvps db) ->
   GetSessionByID db' id
   = Ok (saved_row (withStatus session SessionStatusCancelled
                               (CancellationReason session) wall) wall,
         GetRSVPsForSession db id)) /\
  (Count (fun r => N.eqb (rSessionID r) id) (rsvps db) = 0 ->
   GetSessionByID db' id = Err ErrRecordNotFound).
Proof.
  intros Hs. cbv zeta. unfold DeleteSession. rewrite Hs.
  apply First_Some in Hs as Hid. destruct Hid as [_ Hid]. apply N.eqb_eq in Hid.
  destruct (0 <? Count _ (rsvps db)) eqn:E; cbn [fst snd].
  - rewrite (saved_over_loaded db wall id session) by (exact Hs || reflexivity).
    cbn [rsvps sessions]. split; [reflexivity|]. split; [reflexivity|].
    split; [|split].
    + apply filter_replaced.
      * intros x Hx. apply negb_true_iff in Hx. exact Hx.
      * cbn. rewrite Hid, N.eqb_refl. reflexivity.
    + intros _. unfold GetSessionByID. cbn [sessions].
      rewrite (First_replaced id _ _ session Hs) by exact Hid.
      unfold preloadRSVPs, GetRSVPsForSession. cbn. rewrite Hid. reflexivity.
    + apply Z.ltb_lt in E. lia.
  - split; [reflexivity|]. split; [reflexivity|].
    cbn [DeleteSessionRow sessions]. rewrite Hid. split; [|split].
    + apply filter_idem.
    + apply Z.ltb_ge in E. lia.
    + intros _. unfold GetSessionByID. cbn [sessions].
      rewrite First_absent; [reflexivity|].
      intros x Hx. apply filter_In in Hx as [_ Hx].
      apply negb_true_iff in Hx. rewrite <- Hid. exact Hx.
Qed.

Lemma DeleteSession_cancels_or_deletes_witness :
  First (fun s => N.eqb (ID s) 1%N) (sessions scenario.db1)
  = Some scenario.session1 /\
  snd (DeleteSession scenario.db1 scenario.friday 1%N) = None /\
  rsvps (fst (DeleteSession scenario.db1 scenario.friday 1%N))
  = [scenario.rsvp_in] /\
  map Status (sessions (fst (DeleteSession scenario.db1 scenario.friday 1%N)))
  = [SessionStatusCancelled].
Proof.
  split; [reflexivity|].
  destruct (DeleteSession_cancels_or_deletes
              scenario.db1 scenario.friday 1%N scenario.session1 eq_refl)
    as (He & Hr & _).
  split; [exact He|]. split; [exact Hr|]. vm_compute. reflexivity.
Defined.




Lemma insert_by_start_Permutation s l :
  Permutation (insert_by_start s l) (s :: l).
Proof.
  induction l as [|x l IH]; cbn [insert_by_start]; [reflexivity|].
  destruct (starts_before x s).
  - rewrite IH. apply perm_swap.
  - reflexivity.
Qed.

Lemma OrderBySessionDateStartTime_Permutation l :
  Permutation (OrderBySessionDateStartTime l) l.
Proof.
  unfold OrderBySessionDateStartTime.
  induction l as [|s l IH]; cbn [fold_right]; [reflexivity|].
  rewrite insert_by_start_Permutation. constructor. exact IH.
Qed.




(** [Save] keeps the identifiers that the session table holds and leaves the
    RSVP table alone. *)
Lemma ids_kept_by_Save db wall s i :
  existsb (fun x => N.eqb (ID x) i) (sessions db) = true ->
  existsb (fun x => N.eqb (ID x) i) (sessions (SaveSessionRow db wall s))
  = true.
Proof.
  intros H. apply existsb_exists in H as (x & Hx & Hi).
  unfold SaveSessionRow. fold (saved_row s wall).
  destruct (existsb _ (sessions db)); cbn [sessions]; apply existsb_exists.
  - exists (if N.eqb (ID x) (ID s) then saved_row s wall else x).
    split; [apply (in_map (fun x => if N.eqb (ID x) (ID s)
                                    then saved_row s wall else x)), Hx|].
    destruct (N.eqb (ID x) (ID s)) eqn:E; [|exact Hi].
    apply N.eqb_eq in E. cbn. rewrite <- E. exact Hi.
  - exists x. split; [apply in_or_app; left; exact Hx | exact Hi].
Qed.

Lemma rsvps_Save db wall s : rsvps (SaveSessionRow db wall s) = rsvps db.
Proof. unfold SaveSessionRow. destruct (existsb _ _); reflexivity. Qed.

Lemma refs_kept db db' :
  rsvps db' = rsvps db ->
  (forall i, existsb (fun x => N.eqb (ID x) i) (sessions db) = true ->
             existsb (fun x => N.eqb (ID x) i) (sessions db') = true) ->
  rsvp_refs_ok db -> rsvp_refs_ok db'.
Proof.
  unfold rsvp_refs_ok. intros -> H Hok.
  eapply Forall_impl; [|exact Hok]. cbn. intros r. apply H.
Qed.

Lemma ids_kept_by_app (l new : list Session) i :
  existsb (fun x => N.eqb (ID x) i) l = true ->
  existsb (fun x => N.eqb (ID x) i) (l ++ new) = true.
Proof. intros H. rewrite existsb_app, H. reflexivity. Qed.

(** X17.  If every RSVP belongs to a session of the table, it still does
    after each operation of the session and RSVP services:
    [CreateOrUpdateRSVP], [DeleteRSVP], [CreateSession], [UpdateSession],
    [RefreshRecurringSessions], [CancelSession] and [DeleteSession].  In
    particular [DeleteSession] never removes a session that has RSVPs. *)
Theorem rsvps_belong_to_sessions db wall :
  rsvp_refs_ok db ->
  (forall input byAdmin,
      rsvp_refs_ok (fst (CreateOrUpdateRSVP db wall input byAdmin))) /\
  (forall sessionID userID byAdmin,
      rsvp_refs_ok (fst (DeleteRSVP db wall sessionID userID byAdmin))) /\
  (forall input, rsvp_refs_ok (fst (CreateSession db wall input))) /\
  (forall id input, rsvp_refs_ok (fst (UpdateSession db wall id input))) /\
  rsvp_refs_ok (RefreshRecurringSessions db wall) /\
  (forall id reason, rsvp_refs_ok (fst (CancelSession db wall id reason))) /\
  (forall id, rsvp_refs_ok (fst (DeleteSession db wall id))).
Proof.
  intros Hok. split; [|split; [|split; [|split; [|split; [|split]]]]].
  - intros input byAdmin.
    pose proof (CreateOrUpdateRSVP_effect db wall input byAdmin) as H.
    destruct (CreateOrUpdateRSVP db wall input byAdmin) as [db' out].
    cbn [fst]. unfold rsvp_refs_ok in *.
    inversion H as [e | session r db1 Hs Ho Hr Hl Hla Ha Hid Hkey Hst Es Er En
                      | session old r db1 Hs Ho Hr Hr' Es Er En]; subst.
    + exact Hok.
    + rewrite Er, Es. apply Forall_app. split; [exact Hok|].
      constructor; [|constructor]. injection Hkey as -> _.
      eapply First_present, Hs.
    + rewrite Er, Es. apply Forall_forall. intros x Hx.
      apply in_map_iff in Hx as (y & Hy & Hin).
      rewrite Forall_forall in Hok.
      destruct (N.eqb (rID y) (rID old)); subst x; [|auto].
      apply First_Some in Hr as [Hold _]. apply (Hok old Hold).
  - intros sid uid byAdmin.
    destruct (DeleteRSVP_effect db wall sid uid byAdmin)
      as [[e ->] | (session & rsvp & _ & _ & ->)]; [exact Hok|].
    unfold rsvp_refs_ok in *. cbn. apply Forall_forall. intros x Hx.
    apply filter_In in Hx as [Hx _]. rewrite Forall_forall in Hok. auto.
  - intros input. unfold CreateSession.
    destruct ((ciCourts input <? 1) || (3 <? ciCourts input)); [exact Hok|].
    unfold CreateSessionRow. cbn [fst].
    match goal with |- context [mkDB (sessions db ++ [?row]) ?a ?b] =>
      set (db1 := mkDB (sessions db ++ [row]) a b) end.
    assert (H1 : rsvp_refs_ok db1).
    { apply (refs_kept db); [reflexivity| |exact Hok].
      intros i. apply ids_kept_by_app. }
    destruct (ciIsRecurring input), (ciRecurringDayOfWeek input);
      try exact H1.
    match goal with |- rsvp_refs_ok (generateRecurringSessions db1 wall ?p ?n) =>
      destruct (generateRecurringSessions_appends db1 wall p n)
        as (new & E1 & E2 & _) end.
    apply (refs_kept db1); [exact E2| |exact H1].
    intros i. rewrite E1. apply ids_kept_by_app.
  - intros id input. unfold UpdateSession.
    destruct (First _ (sessions db)) as [s|]; [|exact Hok].
    destruct (match uiCourts input with
              | Some c => (c <? 1) || (3 <? c) | None => false end);
      [exact Hok|].
    cbn [fst]. apply (refs_kept db); [apply rsvps_Save| |exact Hok].
    intros i. apply ids_kept_by_Save.
  - unfold RefreshRecurringSessions.
    assert (Hfold : forall ps cur, rsvp_refs_ok cur ->
               rsvp_refs_ok (fold_left
                 (fun d p => generateRecurringSessions d wall p 4) ps cur)).
    { induction ps as [|p ps IH]; intros cur Hcur; cbn [fold_left];
        [exact Hcur|].
      apply IH.
      destruct (generateRecurringSessions_appends cur wall p 4)
        as (new & E1 & E2 & _).
      apply (refs_kept cur); [exact E2| |exact Hcur].
      intros i. rewrite E1. apply ids_kept_by_app. }
    apply Hfold, Hok.
  - intros id reason. unfold CancelSession.
    destruct (First _ (sessions db)) as [s|]; [|exact Hok].
    cbn [fst]. apply (refs_kept db); [apply rsvps_Save| |exact Hok].
    intros i. apply ids_kept_by_Save.
  - intros id. unfold DeleteSession.
    destruct (First _ (sessions db)) as [s|] eqn:Hs; [|exact Hok].
    apply First_Some in Hs as [_ Hid]. apply N.eqb_eq in Hid.
    destruct (0 <? Count _ (rsvps db)) eqn:E; cbn [fst].
    + apply (refs_kept db); [apply rsvps_Save| |exact Hok].
      intros i. apply ids_kept_by_Save.
    + apply Z.ltb_ge in E.
      assert (E0 : Count (fun r => N.eqb (rSessionID r) id) (rsvps db) = 0).
      { pose proof (Count_nonneg (fun r => N.eqb (rSessionID r) id) (rsvps db)).
        lia. }
      apply Count_zero in E0. unfold rsvp_refs_ok in *.
      cbn [DeleteSessionRow sessions rsvps].
      rewrite Forall_forall in *. intros r Hr.
      specialize (Hok r Hr). specialize (E0 r Hr). cbn in E0.
      apply existsb_exists in Hok as (x & Hx & Hi).
      apply existsb_exists. exists x. split; [|exact Hi].
      apply filter_In. split; [exact Hx|].
      apply N.eqb_eq in Hi. rewrite Hid, Hi. rewrite E0. reflexivity.
Qed.

Lemma rsvps_belong_to_sessions_witness :
  rsvp_refs_ok scenario.db1 /\
  rsvp_refs_ok (fst (DeleteSession scenario.db1 scenario.friday 1%N)).
Proof.
  assert (H : rsvp_refs_ok scenario.db1).
  { constructor; [reflexivity | constructor]. }
  split; [exact H|].
  destruct (rsvps_belong_to_sessions scenario.db1 scenario.friday H)
    as (_ & _ & _ & _ & _ & _ & Hd).
  apply Hd.
Defined.

End session_life.

(** ** The hourly tick of the scheduler *)

Module scheduler_facts.
Import models database services spec spec_more models_more.
Import session_service rsvp_service scheduler_service.
Import basics reminders rsvp_table.

(** What lies behind a reminder of a tick: a session of the table whose
    start is strictly inside the window of the tick. *)
Lemma session_reminder_origin db now hoursAhead label n :
  List.In n (sendSessionRemindersForWindow db now hoursAhead label) ->
  exists s start,
    List.In s (sessions db) /\ dataSessionID n = ID s /\
    parseSessionDateTime s = Ok start /\
    let windowStart :=
      gotime.Add now (wrap_int (hoursAhead * gotime.DurationHour)) in
    gotime.After start windowStart = true /\
    gotime.Before start (gotime.Add windowStart (1 * gotime.DurationHour))
    = true.
Proof.
  unfold sendSessionRemindersForWindow. intros H.
  apply in_flat_map in H as (s & Hs & Hn).
  apply filter_In in Hs as [Hs _].
  destruct (parseSessionDateTime s) as [start|] eqn:Ep; [|contradiction].
  destruct (gotime.After start _) eqn:Ea; [|contradiction].
  destruct (gotime.Before start _) eqn:Eb; [|contradiction].
  exists s, start. cbn [andb] in Hn.
  unfold sendSessionReminders in Hn. apply in_map_iff in Hn as (r & <- & _).
  cbv zeta. auto.
Qed.

Lemma unique_session (l : list Session) x y :
  NoDup (map ID l) -> List.In x l -> List.In y l -> ID x = ID y -> x = y.
Proof.
  induction l as [|a l IH]; cbn; intros Hnd Hx Hy E; [contradiction|].
  inversion Hnd as [|? ? Hnot Hnd']; subst.
  destruct Hx as [-> | Hx], Hy as [-> | Hy]; auto.
  - exfalso. apply Hnot. rewrite E. apply in_map, Hy.
  - exfalso. apply Hnot. rewrite <- E. apply in_map, Hx.
Qed.

(** X18.  Two ticks of the scheduler at least one hour apart never both send
    a reminder with the same lead for the same session: with session
    identifiers that are distinct and a session table that is the same at
    both ticks, no session is behind a reminder of the first tick and a
    reminder of the second. *)
Theorem session_reminders_not_repeated db1 db2 now1 now2 hoursAhead label :
  NoDup (map ID (sessions db1)) ->
  sessions db2 = sessions db1 ->
  valid_time now1 -> valid_time now2 ->
  is_int (hoursAhead * gotime.DurationHour) ->
  gotime.UnixNano now1 + gotime.DurationHour <= gotime.UnixNano now2 ->
  forall n1 n2,
    List.In n1 (sendSessionRemindersForWindow db1 now1 hoursAhead label) ->
    List.In n2 (sendSessionRemindersForWindow db2 now2 hoursAhead label) ->
    dataSessionID n1 <> dataSessionID n2.
Proof.
  intros Hnd Hsame Hv1 Hv2 Hint Hgap n1 n2 H1 H2 E.
  apply session_reminder_origin in H1 as (s1 & t1 & Hs1 & E1 & P1 & A1 & B1).
  apply session_reminder_origin in H2 as (s2 & t2 & Hs2 & E2 & P2 & A2 & B2).
  rewrite Hsame in Hs2.
  assert (s1 = s2) by (apply (unique_session (sessions db1)); congruence).
  subst s2. rewrite P1 in P2. injection P2 as <-.
  apply parseSessionDateTime_valid in P1.
  rewrite wrap_int_id in * by exact Hint.
  apply After_UnixNano in A2; [|exact P1|apply valid_time_Add].
  apply Before_UnixNano in B1; [|exact P1|apply valid_time_Add].
  rewrite !UnixNano_Add in *. unfold gotime.DurationHour in *. lia.
Qed.

(** The Sunday session is reminded of on the tick just before Saturday 18:30,
    and not on the tick one hour later. *)
Lemma session_reminders_not_repeated_witness :
  NoDup (map ID (sessions scenario.db1)) /\
  valid_time (gotime.Add scenario.saturday_1830 (-1)) /\
  valid_time (gotime.Add scenario.saturday_1830 (gotime.DurationHour - 1)) /\
  is_int (24 * gotime.DurationHour) /\
  gotime.UnixNano (gotime.Add scenario.saturday_1830 (-1))
  + gotime.DurationHour
  <= gotime.UnixNano
       (gotime.Add scenario.saturday_1830 (gotime.DurationHour - 1)) /\
  List.In scenario.reminder1
          (sendSessionRemindersForWindow
             scenario.db1 (gotime.Add scenario.saturday_1830 (-1)) 24 "24h") /\
  forall n,
    List.In n (sendSessionRemindersForWindow
                 scenario.db1
                 (gotime.Add scenario.saturday_1830 (gotime.DurationHour - 1))
                 24 "24h") ->
    dataSessionID scenario.reminder1 <> dataSessionID n.
Proof.
  assert (H1 : NoDup (map ID (sessions scenario.db1))).
  { cbn. constructor; [intros [] | constructor]. }
  assert (H2 : is_int (24 * gotime.DurationHour)).
  { unfold is_int. vm_compute. split; [discriminate | reflexivity]. }
  assert (H3 : gotime.UnixNano (gotime.Add scenario.saturday_1830 (-1))
               + gotime.DurationHour
               <= gotime.UnixNano
                    (gotime.Add scenario.saturday_1830
                                (gotime.DurationHour - 1))).
  { vm_compute. discriminate. }
  assert (H4 : List.In scenario.reminder1
                 (sendSessionRemindersForWindow
                    scenario.db1 (gotime.Add scenario.saturday_1830 (-1))
                    24 "24h")).
  { vm_compute. left. reflexivity. }
  split; [exact H1|]. split; [apply valid_time_Add|].
  split; [apply valid_time_Add|]. split; [exact H2|]. split; [exact H3|].
  split; [exact H4|]. intros n Hn.
  apply (session_reminders_not_repeated
           scenario.db1 scenario.db1 (gotime.Add scenario.saturday_1830 (-1))
           (gotime.Add scenario.saturday_1830 (gotime.DurationHour - 1))
           24 "24h" H1 eq_refl (valid_time_Add _ _) (valid_time_Add _ _)
           H2 H3 scenario.reminder1 n H4 Hn).
Defined.


(** X19.  On one tick the two reminder windows do not overlap when the
    longer lead exceeds the shorter by an hour or more: no session gets the
    24h and the 12h reminder on the same tick. *)
Theorem session_reminder_leads_are_disjoint db now hours24 hours12 :
  NoDup (map ID (sessions db)) ->
  valid_time now ->
  is_int (hours24 * gotime.DurationHour) ->
  is_int (hours12 * gotime.DurationHour) ->
  hours12 + 1 <= hours24 ->
  forall n1 n2,
    List.In n1 (sendSessionRemindersForWindow db now hours24 "24h") ->
    List.In n2 (sendSessionRemindersForWindow db now hours12 "12h") ->
    dataSessionID n1 <> dataSessionID n2.
Proof.
  intros Hnd Hv H24 H12 Hgap n1 n2 H1 H2 E.
  apply session_reminder_origin in H1 as (s1 & t1 & Hs1 & E1 & P1 & A1 & B1).
  apply session_reminder_origin in H2 as (s2 & t2 & Hs2 & E2 & P2 & A2 & B2).
  assert (s1 = s2) by (apply (unique_session (sessions db)); congruence).
  subst s2. rewrite P1 in P2. injection P2 as <-.
  apply parseSessionDateTime_valid in P1.
  rewrite wrap_int_id in * by assumption.
  apply After_UnixNano in A1; [|exact P1|apply valid_time_Add].
  apply Before_UnixNano in B2; [|exact P1|apply valid_time_Add].
  rewrite !UnixNano_Add in *. unfold gotime.DurationHour in *. nia.
Qed.

Lemma session_reminder_leads_are_disjoint_witness :
  NoDup (map ID (sessions scenario.db1)) /\
  valid_time (gotime.Add scenario.saturday_1830 (-1)) /\
  is_int (24 * gotime.DurationHour) /\
  is_int (12 * gotime.DurationHour) /\
  12 + 1 <= 24 /\
  List.In scenario.reminder1
          (sendSessionRemindersForWindow
             scenario.db1 (gotime.Add scenario.saturday_1830 (-1)) 24 "24h") /\
  forall n,
    List.In n (sendSessionRemindersForWindow
                 scenario.db1 (gotime.Add scenario.saturday_1830 (-1))
                 12 "12h") ->
    dataSessionID scenario.reminder1 <> dataSessionID n.
Proof.
  assert (H1 : NoDup (map ID (sessions scenario.db1))).
  { cbn. constructor; [intros [] | constructor]. }
  assert (H2 : is_int (24 * gotime.DurationHour)).
  { unfold is_int. vm_compute. split; [discriminate | reflexivity]. }
  assert (H3 : is_int (12 * gotime.DurationHour)).
  { unfold is_int. vm_compute. split; [discriminate | reflexivity]. }
  assert (H4 : List.In scenario.reminder1
                 (sendSessionRemindersForWindow
                    scenario.db1 (gotime.Add scenario.saturday_1830 (-1))
                    24 "24h")).
  { vm_compute. left. reflexivity. }
  assert (H5 : 12 + 1 <= 24) by lia.
  split; [exact H1|]. split; [apply valid_time_Add|].
  split; [exact H2|]. split; [exact H3|]. split; [exact H5|].
  split; [exact H4|]. intros n Hn.
  apply (session_reminder_leads_are_disjoint
           scenario.db1 (gotime.Add scenario.saturday_1830 (-1)) 24 12
           H1 (valid_time_Add _ _) H2 H3 H5 scenario.reminder1 n H4 Hn).
Defined.


Lemma no_rsvp_row db sessionID userID :
  existsb (fun r => N.eqb (rUserID r) userID)
          (filter (fun r => N.eqb (rSessionID r) sessionID) (rsvps db))
  = false <->
  GetUserRSVPForSession db sessionID userID = Err ErrRecordNotFound.
Proof.
  unfold GetUserRSVPForSession, First.
  induction (rsvps db) as [|r l IH]; cbn; [tauto|].
  unfold rsvp_of at 1. destruct (N.eqb (rSessionID r) sessionID); cbn.
  - destruct (N.eqb (rUserID r) userID); cbn; [split; discriminate|exact IH].
  - exact IH.
Qed.

Lemma deadline_in_window_instants now d s :
  valid_time now -> valid_time (RSVPDeadline s) -> is_int d ->
  deadline_in_window now (gotime.Add now (wrap_int d)) s = true <->
  gotime.UnixNano now < gotime.UnixNano (RSVPDeadline s)
  <= gotime.UnixNano now + d /\ Status s = SessionStatusOpen.
Proof.
  intros Hn Hd Hi. unfold deadline_in_window.
  rewrite !andb_true_iff, negb_true_iff, String.eqb_eq.
  rewrite (After_UnixNano _ _ Hd Hn).
  rewrite wrap_int_id by exact Hi.
  pose proof (After_UnixNano (RSVPDeadline s) (gotime.Add now d) Hd
                (valid_time_Add now d)) as H.
  rewrite UnixNano_Add in H.
  destruct (gotime.After (RSVPDeadline s) (gotime.Add now d)).
  - split; [intros [[_ F] _]; discriminate|].
    intros [[_ Hle] _]. assert (gotime.UnixNano now + d
                                < gotime.UnixNano (RSVPDeadline s))
      by (apply H; reflexivity). lia.
  - split; [intros [[Hlt _] Ho]|intros [[Hlt _] Ho]]; repeat split; auto.
    destruct (Z_le_gt_dec (gotime.UnixNano (RSVPDeadline s))
                          (gotime.UnixNano now + d)) as [|Hgt]; [assumption|].
    assert (false = true) by (apply H; lia). discriminate.
Qed.

Lemma UnixNano_NowInSydney wall :
  gotime.UnixNano (utils.NowInSydney wall) = gotime.UnixNano wall.
Proof. reflexivity. Qed.

Lemma valid_time_NowInSydney wall :
  valid_time wall -> valid_time (utils.NowInSydney wall).
Proof. intros H. exact H. Qed.

(** X20.  On a tick, [checkDeadlineReminders] sends a deadline alert for a
    session to a user exactly when the session is open, its deadline is
    after the instant of the tick and at most the configured number of
    hours later, the user is an approved member, and
    [GetUserRSVPForSession] finds no RSVP of the user for the session, of
    whatever status. *)
Theorem deadline_alert_recipients db users wall deadlineHours :
  valid_time wall ->
  Forall (fun s => valid_time (RSVPDeadline s)) (sessions db) ->
  is_int (deadlineHours * gotime.DurationHour) ->
  let due s u :=
    List.In s (sessions db) /\ List.In u users /\
    Status s = SessionStatusOpen /\
    gotime.UnixNano wall < gotime.UnixNano (RSVPDeadline s)
    <= gotime.UnixNano wall + deadlineHours * gotime.DurationHour /\
    IsApproved u = true /\
    GetUserRSVPForSession db (ID s) (uID u) = Err ErrRecordNotFound in
  (forall n,
      List.In n (checkDeadlineReminders db users wall deadlineHours) ->
      exists s u,
        due s u /\ toUser n = uID u /\ dataSessionID n = ID s /\
        nType n = NotificationRSVPDeadline) /\
  (forall s u,
      due s u ->
      exists n,
        List.In n (checkDeadlineReminders db users wall deadlineHours) /\
        toUser n = uID u /\ dataSessionID n = ID s).
Proof.
  intros Hw Hd Hi due. rewrite Forall_forall in Hd. split.
  - intros n Hn. unfold checkDeadlineReminders in Hn.
    apply in_flat_map in Hn as (s & Hs & Hn).
    apply filter_In in Hs as [Hs Hwin].
    apply deadline_in_window_instants in Hwin as [Hwin Ho];
      [|apply valid_time_NowInSydney, Hw|apply Hd, Hs|exact Hi].
    rewrite UnixNano_NowInSydney in Hwin.
    unfold sendDeadlineReminders in Hn.
    apply in_map_iff in Hn as (u & <- & Hu).
    apply filter_In in Hu as [Hu Hnone]. apply filter_In in Hu as [Hu Ha].
    apply negb_true_iff, no_rsvp_row in Hnone.
    exists s, u. unfold due. cbn. repeat split; auto; lia.
  - intros s u (Hs & Hu & Ho & Hwin & Ha & Hnone).
    eexists. split.
    + unfold checkDeadlineReminders. apply in_flat_map. exists s. split.
      * apply filter_In. split; [exact Hs|].
        apply deadline_in_window_instants;
          [apply valid_time_NowInSydney, Hw|apply Hd, Hs|exact Hi|].
        rewrite UnixNano_NowInSydney. split; [lia | exact Ho].
      * unfold sendDeadlineReminders.
        apply (in_map (fun user => mkSendNotification (uID user) _ _ _ _ _)).
        apply filter_In. split; [apply filter_In; split; [exact Hu|exact Ha]|].
        apply negb_true_iff, no_rsvp_row, Hnone.
    + cbn. split; reflexivity.
Qed.

(** On Thursday at noon, twelve hours before the deadline, Bob has not
    answered and is alerted. *)
Lemma deadline_alert_recipients_witness :
  valid_time scenario_more.thursday /\
  Forall (fun s => valid_time (RSVPDeadline s)) (sessions scenario.db1) /\
  is_int (24 * gotime.DurationHour) /\
  checkDeadlineReminders scenario.db1 scenario_more.users1
                         scenario_more.thursday 24
  = [scenario_more.alert_bob] /\
  exists s u,
    List.In s (sessions scenario.db1) /\ List.In u scenario_more.users1 /\
    IsApproved u = true /\
    GetUserRSVPForSession scenario.db1 (ID s) (uID u)
    = Err ErrRecordNotFound /\
    toUser scenario_more.alert_bob = uID u /\
    dataSessionID scenario_more.alert_bob = ID s.
Proof.
  assert (H1 : valid_time scenario_more.thursday) by apply valid_time_Date.
  assert (H2 : Forall (fun s => valid_time (RSVPDeadline s))
                      (sessions scenario.db1)).
  { constructor; [apply valid_time_Date | constructor]. }
  assert (H3 : is_int (24 * gotime.DurationHour)).
  { unfold is_int. vm_compute. split; [discriminate | reflexivity]. }
  assert (H4 : checkDeadlineReminders scenario.db1 scenario_more.users1
                                      scenario_more.thursday 24
               = [scenario_more.alert_bob]) by (vm_compute; reflexivity).
  split; [exact H1|]. split; [exact H2|]. split; [exact H3|].
  split; [exact H4|].
  destruct (deadline_alert_recipients
              scenario.db1 scenario_more.users1 scenario_more.thursday 24
              H1 H2 H3) as (Hfrom & _).
  destruct (Hfrom scenario_more.alert_bob) as (s & u & Hdue & Hu & Hs & _).
  { rewrite H4. left. reflexivity. }
  destruct Hdue as (Hin & Hiu & _ & _ & Ha & Hnone).
  exists s, u. repeat split; assumption.
Defined.


(** X21.  A deadline alert is not sent once: an alert of one tick is sent
    again on every later tick before the deadline of its session, as long
    as the tables are the same (the session stays open and the user has not
    answered). *)
Theorem deadline_alerts_repeat db users wall deadlineHours n :
  valid_time wall ->
  Forall (fun s => valid_time (RSVPDeadline s)) (sessions db) ->
  is_int (deadlineHours * gotime.DurationHour) ->
  List.In n (checkDeadlineReminders db users wall deadlineHours) ->
  exists s,
    List.In s (sessions db) /\ dataSessionID n = ID s /\
    forall wall',
      valid_time wall' ->
      gotime.UnixNano wall <= gotime.UnixNano wall'
      < gotime.UnixNano (RSVPDeadline s) ->
      List.In n (checkDeadlineReminders db users wall' deadlineHours).
Proof.
  intros Hw Hd Hi Hn. rewrite Forall_forall in Hd.
  unfold checkDeadlineReminders in Hn.
  apply in_flat_map in Hn as (s & Hs & Hn).
  apply filter_In in Hs as [Hs Hwin].
  apply deadline_in_window_instants in Hwin as [Hwin Ho];
    [|apply valid_time_NowInSydney, Hw|apply Hd, Hs|exact Hi].
  rewrite UnixNano_NowInSydney in Hwin.
  exists s. split; [exact Hs|]. split.
  - unfold sendDeadlineReminders in Hn.
    apply in_map_iff in Hn as (u & <- & _). reflexivity.
  - intros wall' Hw' Hbetween. unfold checkDeadlineReminders.
    apply in_flat_map. exists s. split; [|exact Hn].
    apply filter_In. split; [exact Hs|].
    apply deadline_in_window_instants;
      [apply valid_time_NowInSydney, Hw'|apply Hd, Hs|exact Hi|].
    rewrite UnixNano_NowInSydney. split; [lia | exact Ho].
Qed.

(** Bob is alerted on Thursday at noon, and again at 13:00. *)
Lemma deadline_alerts_repeat_witness :
  valid_time scenario_more.thursday /\
  Forall (fun s => valid_time (RSVPDeadline s)) (sessions scenario.db1) /\
  is_int (24 * gotime.DurationHour) /\
  List.In scenario_more.alert_bob
          (checkDeadlineReminders scenario.db1 scenario_more.users1
                                  scenario_more.thursday 24) /\
  List.In scenario_more.alert_bob
          (checkDeadlineReminders
             scenario.db1 scenario_more.users1
             (gotime.Add scenario_more.thursday gotime.DurationHour) 24).
Proof.
  assert (H1 : valid_time scenario_more.thursday) by apply valid_time_Date.
  assert (H2 : Forall (fun s => valid_time (RSVPDeadline s))
                      (sessions scenario.db1)).
  { constructor; [apply valid_time_Date | constructor]. }
  assert (H3 : is_int (24 * gotime.DurationHour)).
  { unfold is_int. vm_compute. split; [discriminate | reflexivity]. }
  assert (H4 : List.In scenario_more.alert_bob
                 (checkDeadlineReminders scenario.db1 scenario_more.users1
                                         scenario_more.thursday 24)).
  { vm_compute. left. reflexivity. }
  split; [exact H1|]. split; [exact H2|]. split; [exact H3|].
  split; [exact H4|].
  destruct (deadline_alerts_repeat
              scenario.db1 scenario_more.users1 scenario_more.thursday 24
              scenario_more.alert_bob H1 H2 H3 H4) as (s & Hs & Hid & Hagain).
  apply Hagain; [apply valid_time_Add|].
  destruct Hs as [<- | []].
  split; [vm_compute; discriminate | vm_compute; reflexivity].
Defined.


(** X22.  [IsRSVPOpen] and the deadline check of [CreateOrUpdateRSVP] agree
    at every instant but one: when [IsRSVPOpen] holds the check lets a
    member through, when the check finds the call late [IsRSVPOpen] does
    not hold, and exactly at the instant of the deadline [IsRSVPOpen] does
    not hold while the check still lets a member through. *)
Theorem IsRSVPOpen_and_the_deadline_check session wall :
  valid_time wall -> valid_time (RSVPDeadline session) ->
  let isLate := gotime.After (utils.NowInSydney wall) (RSVPDeadline session) in
  (IsRSVPOpen session wall = true -> isLate = false) /\
  (isLate = true -> IsRSVPOpen session wall = false) /\
  (IsRSVPOpen session wall = false /\ isLate = false <->
   gotime.UnixNano wall = gotime.UnixNano (RSVPDeadline session)).
Proof.
  intros Hw Hd isLate. unfold IsRSVPOpen.
  pose proof (Before_UnixNano wall (RSVPDeadline session) Hw Hd) as HB.
  pose proof (After_UnixNano (utils.NowInSydney wall) (RSVPDeadline session)
                (valid_time_NowInSydney wall Hw) Hd) as HA.
  rewrite UnixNano_NowInSydney in HA. fold isLate in HA.
  assert (HB' : gotime.Before wall (RSVPDeadline session) = false <->
                gotime.UnixNano (RSVPDeadline session) <= gotime.UnixNano wall).
  { destruct (gotime.Before wall (RSVPDeadline session)).
    - split; [discriminate|]. intros H.
      assert (gotime.UnixNano wall < gotime.UnixNano (RSVPDeadline session))
        by (apply HB; reflexivity). lia.
    - split; [|reflexivity]. intros _.
      destruct (Z_le_gt_dec (gotime.UnixNano (RSVPDeadline session))
                            (gotime.UnixNano wall)) as [|Hgt]; [assumption|].
      assert (false = true) by (apply HB; lia). discriminate. }
  assert (HA' : isLate = false <->
                gotime.UnixNano wall <= gotime.UnixNano (RSVPDeadline session)).
  { destruct isLate.
    - split; [discriminate|]. intros H.
      assert (gotime.UnixNano (RSVPDeadline session) < gotime.UnixNano wall)
        by (apply HA; reflexivity). lia.
    - split; [|reflexivity]. intros _.
      destruct (Z_le_gt_dec (gotime.UnixNano wall)
                            (gotime.UnixNano (RSVPDeadline session)))
        as [|Hgt]; [assumption|].
      assert (false = true) by (apply HA; lia). discriminate. }
  split; [|split].
  - intros H. apply HB in H. apply HA'. lia.
  - intros H. apply HA in H. apply HB'. lia.
  - rewrite HB', HA'. lia.
Qed.

Lemma IsRSVPOpen_and_the_deadline_check_witness :
  valid_time scenario_more.tuesday /\
  valid_time (RSVPDeadline scenario.session1) /\
  IsRSVPOpen scenario.session1 scenario_more.tuesday = true /\
  gotime.After (utils.NowInSydney scenario_more.tuesday)
               (RSVPDeadline scenario.session1) = false.
Proof.
  assert (H1 : valid_time scenario_more.tuesday) by apply valid_time_Date.
  assert (H2 : valid_time (RSVPDeadline scenario.session1))
    by apply valid_time_Date.
  assert (H3 : IsRSVPOpen scenario.session1 scenario_more.tuesday = true)
    by (vm_compute; reflexivity).
  split; [exact H1|]. split; [exact H2|]. split; [exact H3|].
  destruct (IsRSVPOpen_and_the_deadline_check
              scenario.session1 scenario_more.tuesday H1 H2) as (Ho & _).
  apply Ho, H3.
Defined.


Lemma users_of_one_session sid (l : list RSVP) :
  Forall (fun r => rSessionID r = sid) l ->
  NoDup (map rsvp_key l) -> NoDup (map rUserID l).
Proof.
  induction l as [|a l IH]; cbn; intros Hs Hnd; [constructor|].
  inversion Hs as [|? ? Ha Hl]; subst.
  inversion Hnd as [|? ? Hnot Hnd']; subst. constructor; [|auto].
  intros Hin. apply Hnot. apply in_map_iff in Hin as (y & Hy & Hin).
  apply in_map_iff. exists y. split; [|exact Hin].
  rewrite Forall_forall in Hl. unfold rsvp_key. rewrite Hy, (Hl y Hin).
  reflexivity.
Qed.

Lemma users_with_status db sid status :
  NoDup (map rsvp_key (rsvps db)) ->
  NoDup (map rUserID (filter (rsvp_with sid status) (rsvps db))).
Proof.
  intros Hnd. apply (users_of_one_session sid).
  - apply Forall_forall. intros r Hr. apply filter_In in Hr as [_ Hr].
    unfold rsvp_with in Hr. apply andb_true_iff in Hr as [Hr _].
    apply N.eqb_eq, Hr.
  - apply NoDup_map_filter, Hnd.
Qed.

Lemma NoDup_prefix {A} n (l : list A) : NoDup l -> NoDup (firstn n l).
Proof.
  intros H. rewrite <- (firstn_skipn n l) in H.
  apply NoDup_app_remove_r in H. exact H.
Qed.

(** X23.  When the RSVP table holds at most one row for a session and a
    user, no user is notified twice by one call: the recipients of
    [sendSessionReminders] are distinct, so are those of
    [SendWaitlistUpdate], and so are those of [sendDeadlineReminders] when
    the users have distinct identifiers. *)
Theorem one_notification_per_user db session :
  NoDup (map rsvp_key (rsvps db)) ->
  (forall label,
      NoDup (map toUser (sendSessionReminders db session label))) /\
  NoDup (map toUser (SendWaitlistUpdate db session)) /\
  (forall users,
      NoDup (map uID users) ->
      NoDup (map toUser (sendDeadlineReminders db users session))).
Proof.
  intros Hnd. split; [|split].
  - intros label. rewrite sendSessionReminders_recipients.
    apply users_with_status, Hnd.
  - unfold SendWaitlistUpdate.
    destruct (MaxPlayers session <=? _); [constructor|].
    rewrite map_map. cbn [toUser]. unfold Limit.
    rewrite <- firstn_map.
    apply NoDup_prefix.
    apply (Permutation_NoDup
             (Permutation_map rUserID
                (Permutation_sym (waitlist.OrderByRSVPTimestamp_Permutation _)))).
    apply users_with_status, Hnd.
  - intros users Hu. unfold sendDeadlineReminders. rewrite map_map.
    cbn [toUser]. apply NoDup_map_filter, NoDup_map_filter, Hu.
Qed.

Lemma one_notification_per_user_witness :
  NoDup (map rsvp_key (rsvps scenario.db_waitlist)) /\
  NoDup (map toUser (SendWaitlistUpdate scenario.db_waitlist
                                        scenario.session1)).
Proof.
  assert (H : NoDup (map rsvp_key (rsvps scenario.db_waitlist))).
  { vm_compute.
    repeat (constructor;
            [intros H; repeat (destruct H as [H | H]; [discriminate H|]);
             exact H|]).
    constructor. }
  split; [exact H|].
  destruct (one_notification_per_user
              scenario.db_waitlist scenario.session1 H) as (_ & Hw & _).
  exact Hw.
Defined.

End scheduler_facts.

(** ** The session listings *)

Module listings.
Import models database services spec spec_more models_more.
Import session_service rsvp_service.
Import basics sydney_days rsvp_table session_life.

Lemma ltb_lt a b : String.ltb a b = true <-> OrderedTypeEx.String_as_OT.lt a b.
Proof.
  unfold String.ltb. rewrite <- OrderedTypeEx.String_as_OT.cmp_lt. unfold OrderedTypeEx.String_as_OT.cmp.
  destruct (String.compare a b); split; congruence.
Qed.

Lemma ltb_asym a b : String.ltb a b = true -> String.ltb b a = false.
Proof.
  unfold String.ltb. rewrite (String.compare_antisym a b).
  destruct (String.compare b a); cbn; congruence.
Qed.

Lemma ltb_trans a b c :
  String.ltb a b = true -> String.ltb b c = true -> String.ltb a c = true.
Proof. rewrite !ltb_lt. apply OrderedTypeEx.String_as_OT.lt_trans. Qed.

Lemma ltb_cases a b :
  String.ltb a b = true \/ a = b \/ String.ltb b a = true.
Proof.
  unfold String.ltb. rewrite (String.compare_antisym b a).
  destruct (String.compare a b) eqn:E; cbn; auto.
  right. left. apply String.compare_eq_iff, E.
Qed.

Lemma starts_before_iff a b :
  starts_before a b = true <->
  gotime.civil_day (SessionDate a) < gotime.civil_day (SessionDate b) \/
  (gotime.civil_day (SessionDate a) = gotime.civil_day (SessionDate b) /\
   String.ltb (StartTime a) (StartTime b) = true).
Proof.
  unfold starts_before. rewrite orb_true_iff, andb_true_iff, Z.ltb_lt, Z.eqb_eq.
  reflexivity.
Qed.

Lemma session_le_iff a b :
  session_le a b <->
  gotime.civil_day (SessionDate a) < gotime.civil_day (SessionDate b) \/
  (gotime.civil_day (SessionDate a) = gotime.civil_day (SessionDate b) /\
   String.ltb (StartTime b) (StartTime a) = false).
Proof.
  unfold session_le. pose proof (starts_before_iff b a) as H.
  destruct (starts_before b a).
  - split; [discriminate|]. intros [Hlt | [He Hs]];
      destruct H as [H _]; destruct (H eq_refl) as [H1 | [H1 H2]];
      try lia; congruence.
  - split; [|reflexivity]. intros _.
    destruct (Z.lt_trichotomy (gotime.civil_day (SessionDate a))
                (gotime.civil_day (SessionDate b))) as [Hlt | [He | Hgt]].
    + left. exact Hlt.
    + right. split; [exact He|].
      destruct (String.ltb (StartTime b) (StartTime a)) eqn:E; [|reflexivity].
      destruct H as [_ H]. symmetry. apply H. right. split; [lia | reflexivity].
    + destruct H as [_ H]. assert (false = true) by (apply H; left; lia).
      discriminate.
Qed.

Lemma not_ltb_trans a b c :
  String.ltb b a = false -> String.ltb c b = false -> String.ltb c a = false.
Proof.
  intros Hab Hbc. destruct (String.ltb c a) eqn:E; [|reflexivity].
  destruct (ltb_cases a b) as [H | [-> | H]]; [|congruence|congruence].
  rewrite (ltb_trans c a b E H) in Hbc. discriminate.
Qed.

Lemma session_le_trans a b c : session_le a b -> session_le b c -> session_le a c.
Proof.
  rewrite !session_le_iff. intros [H1 | [H1 S1]] [H2 | [H2 S2]];
    try (left; lia).
  right. split; [lia|]. eapply not_ltb_trans; eassumption.
Qed.

Lemma starts_before_le a b : starts_before a b = true -> session_le a b.
Proof.
  rewrite starts_before_iff, session_le_iff. intros [H | [H S]]; [auto|].
  right. split; [exact H | apply ltb_asym, S].
Qed.

Lemma insert_by_start_sorted s l :
  StronglySorted session_le l -> StronglySorted session_le (insert_by_start s l).
Proof.
  induction 1 as [|x l Hs IH Hall]; cbn [insert_by_start].
  - constructor; constructor.
  - destruct (starts_before x s) eqn:E.
    + constructor; [exact IH|].
      apply (Permutation_Forall
               (Permutation_sym (insert_by_start_Permutation s l))).
      constructor; [apply starts_before_le, E | exact Hall].
    + constructor; [constructor; assumption|].
      constructor; [exact E|].
      eapply Forall_impl; [|exact Hall]. cbn. intros y Hy.
      eapply session_le_trans; [exact E | exact Hy].
Qed.

Lemma OrderBySessionDateStartTime_sorted l :
  StronglySorted session_le (OrderBySessionDateStartTime l).
Proof.
  unfold OrderBySessionDateStartTime.
  induction l as [|s l IH]; cbn [fold_right]; [constructor|].
  apply insert_by_start_sorted, IH.
Qed.

Lemma filter_split {A} (f c : A -> bool) l :
  Permutation (filter (fun x => f x && negb (c x)) l
               ++ filter (fun x => f x && c x) l)
              (filter f l).
Proof.
  induction l as [|x l IH]; cbn; [constructor|].
  destruct (f x), (c x); cbn; try exact IH.
  - rewrite <- Permutation_middle. constructor. exact IH.
  - constructor. exact IH.
Qed.

Lemma today_in_Sydney wall :
  gotime.civil_day (utils_days.StartOfDay (utils.NowInSydney wall))
  = gotime.civil_day (utils.NowInSydney wall).
Proof.
  destruct (StartOfDay_reading (utils.NowInSydney wall)) as (_ & H & _).
  exact H.
Qed.

(** X24.  [ListUpcomingSessions] and [ListCancelledUpcomingSessions]
    together list, each once, the sessions whose date is not before the
    calendar day of the call in the club's zone: the cancelled ones in the
    second list, all others (closed ones included) in the first.  Both
    lists are in order of date and then start time, and the RSVPs loaded
    with a session of the first are those of [GetRSVPsForSession]. *)
Theorem session_listings_partition_the_upcoming db wall :
  let today := gotime.civil_day (utils.NowInSydney wall) in
  let upcoming := map fst (ListUpcomingSessions db wall) in
  let cancelled := ListCancelledUpcomingSessions db wall in
  Permutation
    (upcoming ++ cancelled)
    (filter (fun s => today <=? gotime.civil_day (SessionDate s))
            (sessions db)) /\
  Forall (fun s => Status s <> SessionStatusCancelled) upcoming /\
  Forall (fun s => Status s = SessionStatusCancelled) cancelled /\
  StronglySorted session_le upcoming /\
  StronglySorted session_le cancelled /\
  forall s rs,
    List.In (s, rs) (ListUpcomingSessions db wall) ->
    rs = GetRSVPsForSession db (ID s).
Proof.
  cbv zeta. unfold ListUpcomingSessions, ListCancelledUpcomingSessions.
  unfold session_date_from. rewrite today_in_Sydney.
  rewrite map_map. cbn [fst]. rewrite map_id.
  set (today := gotime.civil_day (utils.NowInSydney wall)).
  split; [|split; [|split; [|split; [|split]]]].
  - rewrite !OrderBySessionDateStartTime_Permutation.
    apply (filter_split
             (fun s => today <=? gotime.civil_day (SessionDate s))
             (fun s => String.eqb (Status s) SessionStatusCancelled)).
  - apply Forall_forall. intros s Hs.
    apply (Permutation_in _ (OrderBySessionDateStartTime_Permutation _)) in Hs.
    apply filter_In in Hs as [_ Hs]. apply andb_true_iff in Hs as [_ Hs].
    apply negb_true_iff, String.eqb_neq in Hs. exact Hs.
  - apply Forall_forall. intros s Hs.
    apply (Permutation_in _ (OrderBySessionDateStartTime_Permutation _)) in Hs.
    apply filter_In in Hs as [_ Hs]. apply andb_true_iff in Hs as [_ Hs].
    apply String.eqb_eq in Hs. exact Hs.
  - apply OrderBySessionDateStartTime_sorted.
  - apply OrderBySessionDateStartTime_sorted.
  - intros s rs H. apply in_map_iff in H as (x & Hx & _).
    injection Hx as -> <-. reflexivity.
Qed.

End listings.

(** ** Membership *)

Module membership.
Import models database services spec spec_more models_more user_service.
Import rsvp_table.

Lemma unique_user (l : list User) x y :
  NoDup (map uID l) -> List.In x l -> List.In y l -> uID x = uID y -> x = y.
Proof.
  induction l as [|a l IH]; cbn; intros Hnd Hx Hy E; [contradiction|].
  inversion Hnd as [|? ? Hnot Hnd']; subst.
  destruct Hx as [-> | Hx], Hy as [-> | Hy]; auto.
  - exfalso. apply Hnot. rewrite E. apply in_map, Hy.
  - exfalso. apply Hnot. rewrite <- E. apply in_map, Hx.
Qed.

(** The row of a user after [Save] of a row with another identifier, and
    after [Save] of a row with the user's identifier. *)
Lemma Save_other users wall v id :
  uID v <> id ->
  First (fun u => N.eqb (uID u) id) (fst (SaveUserRow users wall v))
  = First (fun u => N.eqb (uID u) id) users.
Proof.
  intros Hne. unfold SaveUserRow.
  destruct (existsb _ users); cbn [fst].
  - rewrite First_map.
    + destruct (First _ users) as [x|] eqn:E; [|reflexivity].
      apply First_Some in E as [_ E]. apply N.eqb_eq in E. cbn.
      replace (N.eqb (uID x) (uID v)) with false; [reflexivity|].
      symmetry. apply N.eqb_neq. congruence.
    + intros x _. destruct (N.eqb (uID x) (uID v)) eqn:E; [|reflexivity].
      apply N.eqb_eq in E. cbn. rewrite E. reflexivity.
  - rewrite First_app. destruct (First _ users); [reflexivity|].
    cbn. replace (N.eqb (uID v) id) with false; [reflexivity|].
    symmetry. apply N.eqb_neq, Hne.
Qed.

Lemma Save_same users wall v id u :
  First (fun u => N.eqb (uID u) id) users = Some u -> uID v = id ->
  First (fun u => N.eqb (uID u) id) (fst (SaveUserRow users wall v))
  = Some (snd (SaveUserRow users wall v)).
Proof.
  intros Hu Hid. unfold SaveUserRow.
  rewrite Hid, (First_present _ _ _ Hu). cbn [fst snd].
  rewrite First_map.
  - rewrite Hu. cbn. apply First_Some in Hu as [_ Hu]. rewrite Hu. reflexivity.
  - intros x _. destruct (N.eqb (uID x) id) eqn:E; [|exact E].
    cbn. apply N.eqb_refl.
Qed.

Lemma Save_snd users wall v :
  snd (SaveUserRow users wall v)
  = mkUser (uID v) (Auth0ID v) (Email v) (Name v) (ProfilePicture v)
           (PhoneNumber v) (Role v) (IsPlayer v) (uMembershipStatus v)
           (uCreatedAt v) wall.
Proof. unfold SaveUserRow. destruct (existsb _ users); reflexivity. Qed.

(** A write of a row that keeps the membership status of the row it was
    loaded from keeps the membership status of every user. *)
Lemma membership_kept_by_Save users wall v0 v id status :
  NoDup (map uID users) ->
  List.In v0 users -> uID v = uID v0 ->
  uMembershipStatus v = uMembershipStatus v0 ->
  membership_is users id status ->
  membership_is (fst (SaveUserRow users wall v)) id status.
Proof.
  intros Hnd Hin Hid Hst (u & Hu & Hs). unfold membership_is, GetUserByID in *.
  destruct (First _ users) as [u0|] eqn:E; [|discriminate].
  injection Hu as ->. destruct (N.eq_dec (uID v) id) as [Heq | Hne].
  - rewrite (Save_same users wall v id u E Heq), Save_snd.
    eexists. split; [reflexivity|]. cbn. rewrite Hst, <- Hs. f_equal.
    apply First_Some in E as [Hu Hi]. apply N.eqb_eq in Hi.
    apply (unique_user users); try assumption. congruence.
  - rewrite (Save_other users wall v id Hne), E. eauto.
Qed.

Lemma Save_ids users wall v :
  List.In (uID v) (map uID users) ->
  map uID (fst (SaveUserRow users wall v)) = map uID users.
Proof.
  intros Hin. unfold SaveUserRow.
  assert (E : existsb (fun x => N.eqb (uID x) (uID v)) users = true).
  { apply existsb_exists. apply in_map_iff in Hin as (x & Hx & Hin).
    exists x. split; [exact Hin | apply N.eqb_eq, Hx]. }
  rewrite E. cbn [fst]. rewrite map_map. apply map_ext. intros x.
  destruct (N.eqb (uID x) (uID v)) eqn:Ex; [|reflexivity].
  apply N.eqb_eq in Ex. cbn. congruence.
Qed.

Lemma First_found {A} (f : A -> bool) l x :
  List.In x l -> f x = true -> exists y, First f l = Some y.
Proof.
  intros Hin Hf. destruct (First f l) as [y|] eqn:E; [eauto|].
  rewrite (First_None f l x E Hin) in Hf. discriminate.
Qed.

(** A write of what was loaded: the table keeps its identifiers and the
    membership statuses that the written row keeps. *)
Lemma loaded_then_saved users wall (p : User -> bool) v0 v id status :
  First p users = Some v0 -> uID v = uID v0 ->
  uMembershipStatus v = uMembershipStatus v0 ->
  NoDup (map uID users) -> membership_is users id status ->
  membership_is (fst (SaveUserRow users wall v)) id status /\
  NoDup (map uID (fst (SaveUserRow users wall v))).
Proof.
  intros Hv Hid Hst Hnd Hm. apply First_Some in Hv as [Hin _]. split.
  - eapply membership_kept_by_Save; eassumption.
  - rewrite Save_ids; [exact Hnd|]. rewrite Hid. apply in_map, Hin.
Qed.

(** X25.  A membership decision is final: once a user is approved or
    rejected, no operation of the user service ([CreateOrUpdateUser],
    [UpdateProfile], [UpdateUserRole], [ApproveJoinRequest],
    [RejectJoinRequest], for any user and arguments) changes the user's
    membership status.  User identifiers stay distinct, a created user
    getting a fresh one. *)
Theorem membership_decision_is_final users id status :
  NoDup (map uID users) ->
  membership_is users id status ->
  status <> MembershipPending ->
  let kept users' :=
    membership_is users' id status /\ NoDup (map uID users') in
  (forall adminEmail wall fresh input,
      ~ List.In fresh (map uID users) ->
      kept (fst (CreateOrUpdateUser adminEmail users wall fresh input))) /\
  (forall wall userID phoneNumber,
      kept (fst (UpdateProfile users wall userID phoneNumber))) /\
  (forall wall userID role,
      kept (fst (UpdateUserRole users wall userID role))) /\
  (forall wall userID, kept (fst (ApproveJoinRequest users wall userID))) /\
  (forall wall userID, kept (fst (RejectJoinRequest users wall userID))).
Proof.
  intros Hnd Hm Hst kept.
  assert (Hsame : kept users) by (split; assumption).
  assert (Hdecided : forall userID v0,
             First (fun u => N.eqb (uID u) userID) users = Some v0 ->
             uMembershipStatus v0 = MembershipPending -> userID <> id).
  { intros userID v0 Hv Hp ->. destruct Hm as (u & Hu & Hs).
    unfold GetUserByID in Hu. rewrite Hv in Hu. injection Hu as ->.
    congruence. }
  split; [|split; [|split; [|split]]].
  - intros adminEmail wall fresh input Hfresh. unfold CreateOrUpdateUser.
    destruct (First _ users) as [v0|] eqn:Hv.
    + match goal with |- context [SaveUserRow users wall ?v] =>
        pose proof (loaded_then_saved users wall _ v0 v id status Hv
                      eq_refl eq_refl Hnd Hm) as H;
        destruct (SaveUserRow users wall v) end.
      exact H.
    + destruct (existsb _ users); cbn [fst]; [exact Hsame|]. split.
      * destruct Hm as (u & Hu & Hs). exists u. split; [|exact Hs].
        unfold GetUserByID in *. rewrite First_app.
        destruct (First _ users); [exact Hu | discriminate].
      * rewrite map_app. cbn. apply NoDup_snoc; assumption.
  - intros wall userID phone. unfold UpdateProfile.
    destruct (First _ users) as [v0|] eqn:Hv; [|exact Hsame].
    match goal with |- context [SaveUserRow users wall ?v] =>
      pose proof (loaded_then_saved users wall _ v0 v id status Hv
                    eq_refl eq_refl Hnd Hm) as H;
      destruct (SaveUserRow users wall v) end.
    exact H.
  - intros wall userID role. unfold UpdateUserRole.
    destruct (First _ users) as [v0|] eqn:Hv; [|exact Hsame].
    match goal with |- context [SaveUserRow users wall ?v] =>
      pose proof (loaded_then_saved users wall _ v0 v id status Hv
                    eq_refl eq_refl Hnd Hm) as H;
      destruct (SaveUserRow users wall v) end.
    exact H.
  - intros wall userID. unfold ApproveJoinRequest.
    destruct (First _ users) as [v0|] eqn:Hv; [|exact Hsame].
    destruct (String.eqb (uMembershipStatus v0) MembershipPending) eqn:Ep;
      cbn [negb]; [|exact Hsame].
    apply String.eqb_eq in Ep. pose proof (Hdecided userID v0 Hv Ep) as Hne.
    apply First_Some in Hv as [Hin Hid]. apply N.eqb_eq in Hid.
    match goal with |- context [SaveUserRow users wall ?v] =>
      pose proof (Save_other users wall v id) as Ho;
      pose proof (Save_ids users wall v) as Hi;
      destruct (SaveUserRow users wall v) as [users' v'] end.
    cbn [fst] in *. split.
    + destruct Hm as (u & Hu & Hs). exists u. split; [|exact Hs].
      unfold GetUserByID in *. rewrite Ho; [exact Hu|]. cbn. congruence.
    + rewrite Hi; [exact Hnd|]. cbn. apply in_map, Hin.
  - intros wall userID. unfold RejectJoinRequest.
    destruct (First _ users) as [v0|] eqn:Hv; [|exact Hsame].
    destruct (String.eqb (uMembershipStatus v0) MembershipPending) eqn:Ep;
      cbn [negb]; [|exact Hsame].
    apply String.eqb_eq in Ep. pose proof (Hdecided userID v0 Hv Ep) as Hne.
    apply First_Some in Hv as [Hin Hid]. apply N.eqb_eq in Hid.
    match goal with |- context [SaveUserRow users wall ?v] =>
      pose proof (Save_other users wall v id) as Ho;
      pose proof (Save_ids users wall v) as Hi;
      destruct (SaveUserRow users wall v) as [users' v'] end.
    cbn [fst] in *. split.
    + destruct Hm as (u & Hu & Hs). exists u. split; [|exact Hs].
      unfold GetUserByID in *. rewrite Ho; [exact Hu|]. cbn. congruence.
    + rewrite Hi; [exact Hnd|]. cbn. apply in_map, Hin.
Qed.

Lemma membership_decision_is_final_witness :
  NoDup (map uID scenario_more.users1) /\
  membership_is scenario_more.users1 7%N MembershipApproved /\
  MembershipApproved <> MembershipPending /\
  membership_is
    (fst (RejectJoinRequest scenario_more.users1 scenario.friday 7%N))
    7%N MembershipApproved.
Proof.
  assert (H1 : NoDup (map uID scenario_more.users1)).
  { cbn. repeat constructor; cbn; intuition discriminate. }
  assert (H2 : membership_is scenario_more.users1 7%N MembershipApproved).
  { exists scenario_more.ann. split; reflexivity. }
  assert (H3 : MembershipApproved <> MembershipPending) by discriminate.
  split; [exact H1|]. split; [exact H2|]. split; [exact H3|].
  destruct (membership_decision_is_final
              scenario_more.users1 7%N MembershipApproved H1 H2 H3)
    as (_ & _ & _ & _ & Hr).
  apply Hr.
Defined.


Lemma refused_when_decided users id u :
  GetUserByID users id = Ok u ->
  uMembershipStatus u <> MembershipPending ->
  forall wall,
    ApproveJoinRequest users wall id = (users, Err ErrNotPending) /\
    RejectJoinRequest users wall id = (users, Err ErrNotPending).
Proof.
  unfold GetUserByID, ApproveJoinRequest, RejectJoinRequest.
  destruct (First _ users) as [v|]; [|discriminate].
  intros H Hst wall. injection H as ->. apply String.eqb_neq in Hst.
  rewrite Hst. split; reflexivity.
Qed.

(** X26.  A pending join request is decided once.  [ApproveJoinRequest]
    makes the user an approved member with the role of player, and
    [RejectJoinRequest] a rejected one with the role as it was;
    [GetUserByID] then returns the user as the call returned it, and every
    later [ApproveJoinRequest] or [RejectJoinRequest] for the user is
    refused and leaves the table as it is. *)
Theorem join_request_is_decided_once users wall id u :
  GetUserByID users id = Ok u ->
  uMembershipStatus u = MembershipPending ->
  (exists users' u',
      ApproveJoinRequest users wall id = (users', Ok u') /\
      GetUserByID users' id = Ok u' /\
      IsApproved u' = true /\ Role u' = RolePlayer /\
      forall wall',
        ApproveJoinRequest users' wall' id = (users', Err ErrNotPending) /\
        RejectJoinRequest users' wall' id = (users', Err ErrNotPending)) /\
  (exists users' u',
      RejectJoinRequest users wall id = (users', Ok u') /\
      GetUserByID users' id = Ok u' /\
      uMembershipStatus u' = MembershipRejected /\ Role u' = Role u /\
      forall wall',
        ApproveJoinRequest users' wall' id = (users', Err ErrNotPending) /\
        RejectJoinRequest users' wall' id = (users', Err ErrNotPending)).
Proof.
  intros Hu Hp. unfold GetUserByID in Hu.
  destruct (First _ users) as [v|] eqn:Hv; [|discriminate].
  injection Hu as ->. apply First_Some in Hv as Hid. destruct Hid as [_ Hid].
  apply N.eqb_eq in Hid. split.
  - unfold ApproveJoinRequest at 1. rewrite Hv, Hp. cbn [String.eqb negb].
    replace (String.eqb MembershipPending MembershipPending) with true
      by reflexivity. cbn [negb].
    match goal with |- context [SaveUserRow users wall ?v] =>
      pose proof (Save_same users wall v id u Hv Hid) as Hs;
      pose proof (Save_snd users wall v) as Hsnd;
      destruct (SaveUserRow users wall v) as [users' u'] end.
    cbn [fst snd] in *. exists users', u'.
    assert (Hget : GetUserByID users' id = Ok u')
      by (unfold GetUserByID; rewrite Hs; reflexivity).
    cbn in Hsnd. split; [reflexivity|]. split; [exact Hget|].
    split; [rewrite Hsnd; reflexivity|]. split; [rewrite Hsnd; reflexivity|].
    apply (refused_when_decided users' id u' Hget). rewrite Hsnd. cbn.
    discriminate.
  - unfold RejectJoinRequest at 1. rewrite Hv, Hp. cbn [String.eqb negb].
    replace (String.eqb MembershipPending MembershipPending) with true
      by reflexivity. cbn [negb].
    match goal with |- context [SaveUserRow users wall ?v] =>
      pose proof (Save_same users wall v id u Hv Hid) as Hs;
      pose proof (Save_snd users wall v) as Hsnd;
      destruct (SaveUserRow users wall v) as [users' u'] end.
    cbn [fst snd] in *. exists users', u'.
    assert (Hget : GetUserByID users' id = Ok u')
      by (unfold GetUserByID; rewrite Hs; reflexivity).
    cbn in Hsnd. split; [reflexivity|]. split; [exact Hget|].
    split; [rewrite Hsnd; reflexivity|]. split; [rewrite Hsnd; reflexivity|].
    apply (refused_when_decided users' id u' Hget). rewrite Hsnd. cbn.
    discriminate.
Qed.

Lemma join_request_is_decided_once_witness :
  GetUserByID scenario_more.users1 9%N = Ok scenario_more.cy /\
  uMembershipStatus scenario_more.cy = MembershipPending /\
  exists users' u',
    ApproveJoinRequest scenario_more.users1 scenario.friday 9%N
    = (users', Ok u') /\
    IsApproved u' = true /\
    RejectJoinRequest users' scenario.friday 9%N
    = (users', Err ErrNotPending).
Proof.
  split; [reflexivity|]. split; [reflexivity|].
  destruct (join_request_is_decided_once
              scenario_more.users1 scenario.friday 9%N scenario_more.cy
              eq_refl eq_refl)
    as ((users' & u' & E & _ & Ha & _ & Hno) & _).
  exists users', u'. split; [exact E|]. split; [exact Ha|].
  apply Hno.
Defined.


(** X27.  The standing of a user is set when the user is created and not by
    a later sign-in.  [CreateOrUpdateUser] for a known Auth0 identifier
    updates the name and the picture only: identifier, email, role,
    membership status and phone number stay, also when the email of the
    input is the administrator's.  For an unknown identifier the call fails
    when the email is taken; otherwise it appends a user who is an approved
    administrator exactly when the configured administrator email is not
    empty and is the email of the input, and is pending otherwise. *)
Theorem standing_is_set_at_registration adminEmail users wall fresh input :
  (forall u,
      GetUserByAuth0ID users (cuAuth0ID input) = Ok u ->
      exists users' u',
        CreateOrUpdateUser adminEmail users wall fresh input
        = (users', Ok (u', false)) /\
        GetUserByID users' (uID u) = Ok u' /\
        map uID users' = map uID users /\
        uID u' = uID u /\ Email u' = Email u /\ Role u' = Role u /\
        uMembershipStatus u' = uMembershipStatus u /\
        PhoneNumber u' = PhoneNumber u /\
        Name u' = cuName input /\
        ProfilePicture u' = cuProfilePicture input) /\
  (GetUserByAuth0ID users (cuAuth0ID input) = Err ErrRecordNotFound ->
   (existsb (fun u => String.eqb (Email u) (cuEmail input)) users = true ->
    CreateOrUpdateUser adminEmail users wall fresh input
    = (users, Err ErrDuplicatedKey)) /\
   (existsb (fun u => String.eqb (Email u) (cuEmail input)) users = false ->
    exists u',
      CreateOrUpdateUser adminEmail users wall fresh input
      = (users ++ [u'], Ok (u', true)) /\
      uID u' = fresh /\ Email u' = cuEmail input /\
      IsAdmin u' = IsApproved u' /\
      (IsApproved u' = true <->
       adminEmail <> EmptyString /\ cuEmail input = adminEmail) /\
      (IsApproved u' = false ->
       uMembershipStatus u' = MembershipPending /\ Role u' = RolePending))).
Proof.
  unfold GetUserByAuth0ID, CreateOrUpdateUser. split.
  - intros u Hu. destruct (First _ users) as [v|] eqn:Hv; [|discriminate].
    injection Hu as ->. apply First_Some in Hv as [Hin _].
    destruct (First_found (fun x => N.eqb (uID x) (uID u)) users u Hin
                (N.eqb_refl _)) as (u0 & Hu0).
    match goal with |- context [SaveUserRow users wall ?v] =>
      pose proof (Save_same users wall v (uID u) u0 Hu0 eq_refl) as Hs;
      pose proof (Save_snd users wall v) as Hsnd;
      pose proof (Save_ids users wall v) as Hi;
      destruct (SaveUserRow users wall v) as [users' u'] end.
    cbn [fst snd] in *. exists users', u'.
    split; [reflexivity|].
    split; [unfold GetUserByID; rewrite Hs; reflexivity|].
    split; [apply Hi; cbn; apply in_map, Hin|].
    rewrite Hsnd. cbn. repeat split.
  - destruct (First _ users) as [v|]; [discriminate|]. intros _. split.
    + intros ->. reflexivity.
    + intros ->. eexists. split; [reflexivity|]. cbn.
      split; [reflexivity|]. split; [reflexivity|].
      destruct (String.eqb adminEmail EmptyString) eqn:Ee; cbn [negb andb].
      * apply String.eqb_eq in Ee. split; [reflexivity|]. split.
        -- split; [discriminate|]. intros [H _]. contradiction.
        -- intros _. split; reflexivity.
      * apply String.eqb_neq in Ee.
        destruct (String.eqb (cuEmail input) adminEmail) eqn:Ea.
        -- apply String.eqb_eq in Ea. split; [reflexivity|]. split.
           ++ split; [intros _; split; assumption | reflexivity].
           ++ discriminate.
        -- apply String.eqb_neq in Ea. split; [reflexivity|]. split.
           ++ split; [discriminate|]. intros [_ H]. contradiction.
           ++ intros _. split; reflexivity.
Qed.

(** Ann signs in again, with the administrator's email configured as
    hers: she stays a player. *)
Lemma standing_is_set_at_registration_witness :
  GetUserByAuth0ID scenario_more.users1 "auth0|ann"
  = Ok scenario_more.ann /\
  exists users' u',
    CreateOrUpdateUser
      "ann@example.org" scenario_more.users1 scenario.friday 10%N
      (mkCreateUserInput "auth0|ann" "ann@example.org" "Ann B" "")
    = (users', Ok (u', false)) /\
    Role u' = RolePlayer /\ Name u' = "Ann B"%string.
Proof.
  split; [reflexivity|].
  destruct (standing_is_set_at_registration
              "ann@example.org" scenario_more.users1 scenario.friday 10%N
              (mkCreateUserInput "auth0|ann" "ann@example.org" "Ann B" ""))
    as (Hknown & _).
  destruct (Hknown scenario_more.ann eq_refl)
    as (users' & u' & E & _ & _ & _ & _ & Hr & _ & _ & Hn & _).
  exists users', u'. split; [exact E|]. split; [exact Hr | exact Hn].
Defined.

End membership.

(** ** Push tokens *)

Module push_tokens.
Import models database services spec spec_more models_more notification_service.
Import rsvp_table membership.

Lemma unique_token (l : list UserPushToken) x y :
  NoDup (map Token l) -> List.In x l -> List.In y l -> Token x = Token y ->
  x = y.
Proof.
  induction l as [|a l IH]; cbn; intros Hnd Hx Hy E; [contradiction|].
  inversion Hnd as [|? ? Hnot Hnd']; subst.
  destruct Hx as [-> | Hx], Hy as [-> | Hy]; auto.
  - exfalso. apply Hnot. rewrite E. apply in_map, Hy.
  - exfalso. apply Hnot. rewrite <- E. apply in_map, Hx.
Qed.

Lemma unique_token_id (l : list UserPushToken) x y :
  NoDup (map tID l) -> List.In x l -> List.In y l -> tID x = tID y -> x = y.
Proof.
  induction l as [|a l IH]; cbn; intros Hnd Hx Hy E; [contradiction|].
  inversion Hnd as [|? ? Hnot Hnd']; subst.
  destruct Hx as [-> | Hx], Hy as [-> | Hy]; auto.
  - exfalso. apply Hnot. rewrite E. apply in_map, Hy.
  - exfalso. apply Hnot. rewrite <- E. apply in_map, Hx.
Qed.

Lemma filter_map_fixed {A} (p : A -> bool) (g : A -> A) l :
  (forall x, List.In x l -> g x = x \/ (p x = false /\ p (g x) = false)) ->
  filter p (map g l) = filter p l.
Proof.
  induction l as [|a l IH]; intros H; [reflexivity|]. cbn [map filter].
  rewrite IH by (intros x Hx; apply H; right; exact Hx).
  destruct (H a (or_introl eq_refl)) as [-> | [-> ->]]; reflexivity.
Qed.

Lemma filter_absorb {A} (p q : A -> bool) l :
  (forall x, p x = true -> q x = true) ->
  filter p (filter q l) = filter p l.
Proof.
  intros H. induction l as [|a l IH]; [reflexivity|]. cbn [filter].
  destruct (q a) eqn:Eq; cbn [filter]; rewrite IH; [reflexivity|].
  destruct (p a) eqn:Ep; [|reflexivity].
  rewrite (H a Ep) in Eq. discriminate.
Qed.

(** Replacing the row that holds a token by a row with the same identifier
    and token. *)
Lemma token_row_replaced tokens old new :
  tokens_ok tokens -> List.In old tokens ->
  tID new = tID old -> Token new = Token old ->
  let g := fun x => if N.eqb (tID x) (tID new) then new else x in
  SaveTokenRow tokens new = map g tokens /\
  map tID (map g tokens) = map tID tokens /\
  map Token (map g tokens) = map Token tokens /\
  First (fun t => String.eqb (Token t) (Token old)) (map g tokens) = Some new /\
  forall p : UserPushToken -> bool,
    p old = false -> p new = false ->
    filter p (map g tokens) = filter p tokens.
Proof.
  intros (Hi & Ht) Hin Hid Htok g.
  assert (Hg : forall x, List.In x tokens ->
                         N.eqb (tID x) (tID new) = true -> x = old).
  { intros x Hx E. apply N.eqb_eq in E. rewrite Hid in E.
    apply (unique_token_id tokens); assumption. }
  split; [|split; [|split; [|split]]].
  - unfold SaveTokenRow.
    replace (existsb (fun x => N.eqb (tID x) (tID new)) tokens) with true;
      [reflexivity|].
    symmetry. apply existsb_exists. exists old. split; [exact Hin|].
    apply N.eqb_eq. congruence.
  - rewrite map_map. apply map_ext_in. intros x Hx. unfold g.
    destruct (N.eqb (tID x) (tID new)) eqn:E; [|reflexivity].
    apply N.eqb_eq in E. congruence.
  - rewrite map_map. apply map_ext_in. intros x Hx. unfold g.
    destruct (N.eqb (tID x) (tID new)) eqn:E; [|reflexivity].
    rewrite (Hg x Hx E). exact Htok.
  - rewrite First_map.
    + assert (E : First (fun t => String.eqb (Token t) (Token old)) tokens
                  = Some old).
      { destruct (First_found (fun t => String.eqb (Token t) (Token old))
                              tokens old Hin (String.eqb_refl _)) as (y & Hy).
        rewrite Hy. f_equal. apply First_Some in Hy as [Hy Ey].
        apply String.eqb_eq in Ey. apply (unique_token tokens); assumption. }
      rewrite E. cbn. unfold g. rewrite Hid, N.eqb_refl. reflexivity.
    + intros x Hx. unfold g.
      destruct (N.eqb (tID x) (tID new)) eqn:E; [|reflexivity].
      rewrite (Hg x Hx E), Htok. reflexivity.
  - intros p Hold Hnew. apply filter_map_fixed. intros x Hx. unfold g.
    destruct (N.eqb (tID x) (tID new)) eqn:E; [|left; reflexivity].
    right. rewrite (Hg x Hx E). auto.
Qed.

(** X28.  A push token has one owner.  On a table with distinct row
    identifiers that holds every token once, [RegisterPushToken] returns no
    error and leaves such a table, in which the token is held by the
    registering user, with the given device name, and by nobody else: a
    token that another user had registered changes hands.  The rows of the
    other tokens are untouched.  [UnregisterPushToken] then keeps the table
    well formed and never removes a row of another user. *)
Theorem push_token_has_one_owner tokens wall fresh userID token deviceName :
  tokens_ok tokens ->
  ~ List.In fresh (map tID tokens) ->
  let tokens' :=
    fst (RegisterPushToken tokens wall fresh userID token deviceName) in
  snd (RegisterPushToken tokens wall fresh userID token deviceName) = None /\
  tokens_ok tokens' /\
  (exists row,
      First (fun t => String.eqb (Token t) token) tokens' = Some row /\
      tUserID row = userID /\ DeviceName row = deviceName /\
      LastUsedAt row = wall) /\
  (forall t, List.In t tokens' -> Token t = token -> tUserID t = userID) /\
  filter (fun t => negb (String.eqb (Token t) token)) tokens'
  = filter (fun t => negb (String.eqb (Token t) token)) tokens /\
  (forall user tok,
      let left_ := fst (UnregisterPushToken tokens' user tok) in
      tokens_ok left_ /\
      filter (fun t => negb (N.eqb (tUserID t) user)) left_
      = filter (fun t => negb (N.eqb (tUserID t) user)) tokens').
Proof.
  intros Hok Hfresh. cbv zeta. unfold RegisterPushToken.
  assert (Hun : forall l user tok,
             tokens_ok l ->
             tokens_ok (fst (UnregisterPushToken l user tok)) /\
             filter (fun t => negb (N.eqb (tUserID t) user))
                    (fst (UnregisterPushToken l user tok))
             = filter (fun t => negb (N.eqb (tUserID t) user)) l).
  { intros l user tok (Hi & Ht). unfold UnregisterPushToken.
    destruct (negb (String.eqb tok EmptyString)); cbn [fst].
    - split; [split; apply NoDup_map_filter; assumption|].
      apply filter_absorb. intros x Hx. apply negb_true_iff in Hx.
      rewrite Hx. reflexivity.
    - split; [split; apply NoDup_map_filter; assumption|].
      apply filter_absorb. auto. }
  destruct (First _ tokens) as [old|] eqn:E; cbn [fst snd].
  - apply First_Some in E as [Hin Htok]. apply String.eqb_eq in Htok.
    subst token.
    set (new := mkUserPushToken (tID old) userID (Token old) deviceName wall
                                (tCreatedAt old)).
    destruct (token_row_replaced tokens old new Hok Hin eq_refl eq_refl)
      as (Es & Ei & Et & Ef & Efil).
    rewrite Es. destruct Hok as (Hi & Ht).
    assert (Hok' : tokens_ok (map (fun x => if N.eqb (tID x) (tID new)
                                           then new else x) tokens)).
    { unfold tokens_ok. rewrite Ei, Et. auto. }
    split; [reflexivity|]. split; [exact Hok'|]. split; [|split; [|split]].
    + exists new. split; [exact Ef|]. repeat split.
    + intros t Hin' Ht'. apply First_Some in Ef as [Hnew _].
      rewrite (unique_token _ t new (proj2 Hok') Hin' Hnew Ht'). reflexivity.
    + apply Efil; cbn; rewrite String.eqb_refl; reflexivity.
    + intros user tok. apply Hun, Hok'.
  - destruct Hok as (Hi & Ht).
    set (new := mkUserPushToken fresh userID token deviceName wall wall).
    assert (Hnone : forall x, List.In x tokens ->
                              String.eqb (Token x) token = false).
    { intros x Hx. apply (First_None _ _ x E Hx). }
    assert (Hok' : tokens_ok (tokens ++ [new])).
    { split; rewrite map_app; cbn; apply NoDup_snoc; try assumption.
      intros Hin. apply in_map_iff in Hin as (x & Hx & Hin).
      apply Hnone in Hin. apply String.eqb_neq in Hin. congruence. }
    split; [reflexivity|]. split; [exact Hok'|]. split; [|split; [|split]].
    + exists new. split; [|repeat split]. rewrite First_app.
      rewrite First_absent by exact Hnone. cbn.
      rewrite String.eqb_refl. reflexivity.
    + intros t Hin Ht'. apply in_app_or in Hin as [Hin | [<- | []]];
        [|reflexivity].
      apply Hnone in Hin. apply String.eqb_neq in Hin. congruence.
    + rewrite filter_app. cbn. rewrite String.eqb_refl. cbn.
      apply app_nil_r.
    + intros user tok. apply Hun, Hok'.
Qed.

(** Bob signs in on the phone that was Ann's: the token of the phone is
    his, the laptop stays hers. *)
Lemma push_token_has_one_owner_witness :
  tokens_ok scenario_more.tokens1 /\
  ~ List.In 52%N (map tID scenario_more.tokens1) /\
  map (fun t => (tUserID t, Token t))
      (fst (RegisterPushToken scenario_more.tokens1 scenario.friday 52%N 8%N
                              "tok-phone" "phone"))
  = [(8%N, "tok-phone"%string); (7%N, "tok-laptop"%string)] /\
  tokens_ok (fst (RegisterPushToken scenario_more.tokens1 scenario.friday
                                    52%N 8%N "tok-phone" "phone")).
Proof.
  assert (H1 : tokens_ok scenario_more.tokens1).
  { split; cbn; repeat constructor; cbn; intuition discriminate. }
  assert (H2 : ~ List.In 52%N (map tID scenario_more.tokens1)).
  { cbn. intuition discriminate. }
  split; [exact H1|]. split; [exact H2|]. split; [vm_compute; reflexivity|].
  destruct (push_token_has_one_owner
              scenario_more.tokens1 scenario.friday 52%N 8%N
              "tok-phone" "phone" H1 H2) as (_ & Hok & _).
  exact Hok.
Defined.

End push_tokens.
